(** * influx2prom: a shallow embedding of the conversion pipeline

    The development follows the Python sources:
    - [influx2prom/src/main.py]       the legacy CSV path
      ([format_timestamp], [parse_influxdb_csv], [influx_to_prometheus]);
    - [src/influx2prom/converter.py]  the metric model, [convert_data] and
      the grouped formatter [format_metrics];
    - [src/influx2promql.py]          the query translator.

    Python strings are modelled by [string], i.e. sequences of 8-bit
    characters; case mapping and white space are the ASCII ones.  Python
    exceptions are modelled by the error monad [py].

    The library functions that the sources call are modelled as follows:
    floats ([float], [int], [*], [repr]) on [SpecFloat]'s binary64;
    [datetime] behind the interface [DatetimeLib], with an instance for the
    text format of CPython 3.7 to 3.10 on a host in UTC; [csv.reader] by
    the state machine of its default dialect; [re] by a backtracking
    matcher over pattern syntax trees. *)

From Stdlib Require Import ZArith NArith Ascii String List Bool Lia.
From Stdlib Require Import DecimalString.
From Stdlib Require Import Floats.SpecFloat.
From stdpp Require Import base option list sorting gmap strings.

Local Open Scope Z_scope.

(** ** Exceptions *)

Inductive exn : Type :=
| ValueError
| TypeError
| AttributeError
| OverflowError
| IndexError
| CsvError.

Inductive py (A : Type) : Type :=
| Ok (a : A)
| Raise (e : exn).
Arguments Ok {A} a.
Arguments Raise {A} e.

Definition py_bind {A B} (m : py A) (f : A -> py B) : py B :=
  match m with
  | Ok a => f a
  | Raise e => Raise e
  end.

Notation "'let*' x ':=' m 'in' k" := (py_bind m (fun x => k))
  (at level 10, x name, m at level 100, k at level 200).

(** [try: m except ValueError: h] *)
Definition try_except_ValueError {A} (m : py A) (h : py A) : py A :=
  match m with
  | Raise ValueError => h
  | _ => m
  end.

Definition raises {A} (m : py A) : Prop := exists e, m = Raise e.

(** ** Python string primitives *)

Module Py.

Definition code (c : ascii) : Z := Z.of_N (N_of_ascii c).

(** [str.isspace] on one character (ASCII range). *)
Definition is_space (c : ascii) : bool :=
  let n := code c in
  ((9 <=? n) && (n <=? 13)) || ((28 <=? n) && (n <=? 32)).

Definition is_digit (c : ascii) : bool :=
  let n := code c in (48 <=? n) && (n <=? 57).

Definition lower_char (c : ascii) : ascii :=
  let n := code c in
  if (65 <=? n) && (n <=? 90) then ascii_of_N (Z.to_N (n + 32)) else c.

Definition upper_char (c : ascii) : ascii :=
  let n := code c in
  if (97 <=? n) && (n <=? 122) then ascii_of_N (Z.to_N (n - 32)) else c.

Fixpoint map_chars (f : ascii -> ascii) (s : string) : string :=
  match s with
  | EmptyString => EmptyString
  | String c s' => String (f c) (map_chars f s')
  end.

(** [s.lower()], [s.upper()] *)
Definition lower : string -> string := map_chars lower_char.
Definition upper : string -> string := map_chars upper_char.

Fixpoint prefixb (p s : string) : bool :=
  match p, s with
  | EmptyString, _ => true
  | String a p', String b s' => Ascii.eqb a b && prefixb p' s'
  | String _ _, EmptyString => false
  end.

(** [s.startswith(p)] *)
Definition startswith (s p : string) : bool := prefixb p s.

(** [sub in s] *)
Fixpoint contains (sub s : string) : bool :=
  prefixb sub s ||
  match s with
  | EmptyString => false
  | String _ s' => contains sub s'
  end.

(** Removal of the leading, then of the surrounding characters that
    satisfy [p]. *)
Fixpoint lstrip_by (p : ascii -> bool) (s : string) : string :=
  match s with
  | EmptyString => EmptyString
  | String c s' => if p c then lstrip_by p s' else s
  end.

Definition strip_by (p : ascii -> bool) (s : string) : string :=
  String.rev (lstrip_by p (String.rev (lstrip_by p s))).

(** [s.strip()] *)
Definition strip (s : string) : string := strip_by is_space s.

Fixpoint drop (n : nat) (s : string) : string :=
  match n, s with
  | S n', String _ s' => drop n' s'
  | _, _ => s
  end.

Fixpoint take (n : nat) (s : string) : string :=
  match n, s with
  | S n', String c s' => String c (take n' s')
  | _, _ => EmptyString
  end.

Definition one_of (set : string) (c : ascii) : bool :=
  existsb (Ascii.eqb c) (list_ascii_of_string set).

(** [s.strip(set)] *)
Definition strip_chars (set : string) (s : string) : string :=
  strip_by (one_of set) s.

(** [s.replace(old, new)] for a non-empty [old]: non-overlapping
    occurrences, scanned from the left. *)
Fixpoint replace_go (fuel : nat) (old new s : string) : string :=
  match fuel with
  | O => s
  | S fuel' =>
      match s with
      | EmptyString => EmptyString
      | String c s' =>
          if prefixb old s
          then new +:+ replace_go fuel' old new (drop (String.length old) s)
          else String c (replace_go fuel' old new s')
      end
  end.

Definition replace (old new s : string) : string :=
  replace_go (String.length s) old new s.

(** Simultaneous substitution of every character [c] by [f c]. *)
Fixpoint subst_chars (f : ascii -> string) (s : string) : string :=
  match s with
  | EmptyString => EmptyString
  | String c s' => f c +:+ subst_chars f s'
  end.

(** [sep.join(l)] *)
Definition join (sep : string) (l : list string) : string :=
  String.concat sep l.

(** [s.isdigit()] (ASCII digits; false on the empty string). *)
Fixpoint all_digits (s : string) : bool :=
  match s with
  | EmptyString => true
  | String c s' => is_digit c && all_digits s'
  end.

(** The number written by a string of decimal digits. *)
Fixpoint int_of_digits_go (s : string) (acc : Z) : Z :=
  match s with
  | EmptyString => acc
  | String c s' => int_of_digits_go s' (acc * 10 + (code c - 48))
  end.

Definition int_of_digits (s : string) : Z := int_of_digits_go s 0.

Definition isdigit (s : string) : bool :=
  match s with
  | EmptyString => false
  | _ => all_digits s
  end.

(** No character of [s] satisfies [p]. *)
Definition none (p : ascii -> bool) (s : string) : Prop :=
  forall c, In c (list_ascii_of_string s) -> p c = false.

End Py.

(** ** Decimal text of an integer: [str(n)] *)

Definition str_of_Z (n : Z) : string :=
  DecimalString.NilEmpty.string_of_int (Z.to_int n).

(** ** Python floats: IEEE 754 binary64, after [SpecFloat] *)

Module PyFloat.

Definition prec : Z := 53.
Definition emax : Z := 1024.

(** [float(n)] for an integer [n]: rounded to nearest, ties to even. *)
Definition of_Z (n : Z) : spec_float := binary_normalize prec emax n 0 false.

(** [a / b] for integers, [0 < b]: the correctly rounded quotient. *)
Definition of_ratio (neg : bool) (a b : Z) : spec_float :=
  if a =? 0 then S754_zero neg
  else
    let '(q, e, l) := SFdiv_core_binary prec emax a 0 b 0 in
    binary_round_aux prec emax neg q e l.

(** The float nearest to [m * 10^e], for [0 <= m]. *)
Definition of_decimal (neg : bool) (m e : Z) : spec_float :=
  if m =? 0 then S754_zero neg
  else if 0 <=? e
  then binary_normalize prec emax ((if neg then - m else m) * 10 ^ e) 0 false
  else of_ratio neg m (10 ^ (- e)).

(** The float that holds the positive integer [n] exactly, for
    [n < 2^53]: a mantissa of 53 bits. *)
Definition exact (n : Z) : spec_float :=
  let d := Z.log2 n + 1 in
  S754_finite false (Z.to_pos (n * 2 ^ (prec - d))) (d - prec).

Definition eqb (x y : spec_float) : bool :=
  match x, y with
  | S754_finite s m e, S754_finite s' m' e' =>
      Bool.eqb s s' && (Z.pos m =? Z.pos m') && (e =? e')
  | S754_zero s, S754_zero s' => Bool.eqb s s'
  | S754_infinity s, S754_infinity s' => Bool.eqb s s'
  | _, _ => false
  end.

(** *** [repr(x)]: the shortest decimal text that reads back as [x] *)

(** The positive float [m * 2^e] as a fraction. *)
Definition fraction (m : positive) (e : Z) : Z * Z :=
  if 0 <=? e then (Z.pos m * 2 ^ e, 1) else (Z.pos m, 2 ^ (- e)).

(** For [num / den < 1]: the least [k] with [den <= num * 10^k]. *)
Fixpoint leading_zeros (fuel : nat) (num den k : Z) : Z :=
  match fuel with
  | O => k
  | S fuel' =>
      if den <=? num * 10 ^ k then k
      else leading_zeros fuel' num den (k + 1)
  end.

(** The decimal point: [10^(d-1) <= num/den < 10^d]. *)
Definition decpt (num den : Z) : Z :=
  let q := num / den in
  if 0 <? q then Z.of_nat (String.length (str_of_Z q))
  else 1 - leading_zeros 400 num den 0.

(** The integer nearest to [num / (den * 10^s)] among those that read
    back as [x], if there is one. *)
Definition candidate (x : spec_float) (num den s : Z) : option Z :=
  let a := if 0 <=? s then num else num * 10 ^ (- s) in
  let b := if 0 <=? s then den * 10 ^ s else den in
  let c0 := a / b in
  let r := a mod b in
  let ok c := eqb (of_decimal false c s) x in
  if r =? 0 then (if ok c0 then Some c0 else None)
  else
    let c1 := c0 + 1 in
    match ok c0, ok c1 with
    | true, true =>
        if 2 * r <? b then Some c0
        else if b <? 2 * r then Some c1
        else Some (if Z.even c0 then c0 else c1)
    | true, false => Some c0
    | false, true => Some c1
    | false, false => None
    end.

Fixpoint shortest (fuel : nat) (n : Z) (x : spec_float) (num den d : Z)
  : Z * Z :=
  match fuel with
  | O => (0, 0)
  | S fuel' =>
      match candidate x num den (d - n) with
      | Some c => (c, d - n)
      | None => shortest fuel' (n + 1) x num den d
      end
  end.

Fixpoint strip_zeros (fuel : nat) (c s : Z) : Z * Z :=
  match fuel with
  | O => (c, s)
  | S fuel' =>
      if (c mod 10 =? 0) && negb (c =? 0) then strip_zeros fuel' (c / 10) (s + 1)
      else (c, s)
  end.

Fixpoint zeros (n : nat) : string :=
  match n with
  | O => EmptyString
  | S n' => String "0" (zeros n')
  end.

(** The text for the digits [ds] with the decimal point after [d] of
    them: fixed notation for [-4 < d <= 16], exponent notation
    otherwise. *)
Definition layout (ds : string) (d : Z) : string :=
  let n := Z.of_nat (String.length ds) in
  if (-4 <? d) && (d <=? 16) then
    if d <=? 0 then "0." +:+ zeros (Z.to_nat (- d)) +:+ ds
    else if n <=? d then ds +:+ zeros (Z.to_nat (d - n)) +:+ ".0"
    else Py.take (Z.to_nat d) ds +:+ "." +:+ Py.drop (Z.to_nat d) ds
  else
    let x := d - 1 in
    let xs := str_of_Z (Z.abs x) in
    Py.take 1 ds
      +:+ (if 1 <? n then "." +:+ Py.drop 1 ds else "")
      +:+ "e" +:+ (if x <? 0 then "-" else "+")
      +:+ (if (String.length xs <? 2)%nat then "0" +:+ xs else xs).

Definition repr (x : spec_float) : string :=
  match x with
  | S754_nan => "nan"
  | S754_infinity s => if s then "-inf" else "inf"
  | S754_zero s => if s then "-0.0" else "0.0"
  | S754_finite s m e =>
      let '(num, den) := fraction m e in
      let d := decpt num den in
      let '(c, sc) := shortest 17 1 (S754_finite false m e) num den d in
      let '(c', sc') := strip_zeros 17 c sc in
      let ds := str_of_Z c' in
      (if s then "-" else "") +:+ layout ds (sc' + Z.of_nat (String.length ds))
  end.

(** [x * y] *)
Definition mul (x y : spec_float) : spec_float := SFmul prec emax x y.

(** [int(x)]: truncation towards zero. *)
Definition to_int (x : spec_float) : py Z :=
  match x with
  | S754_zero _ => Ok 0
  | S754_infinity _ => Raise OverflowError
  | S754_nan => Raise ValueError
  | S754_finite s m e =>
      let a := if 0 <=? e then Z.pos m * 2 ^ e else Z.pos m / 2 ^ (- e) in
      Ok (if s then - a else a)
  end.

(** *** [float(s)] for a string, after the grammar of the language
    reference:
<<
    floatvalue  ::= [sign] (floatnumber | infinity | nan)
    floatnumber ::= number [exponent]
    number      ::= [digitpart] "." digitpart | digitpart ["."]
    exponent    ::= ("e" | "E") [sign] digitpart
    digitpart   ::= digit (["_"] digit)*
>>
    with surrounding white space removed. *)

Definition digit_val (c : ascii) : Z := Py.code c - 48.

(** The rest of a [digitpart]: accumulated value, number of digits,
    unread input. *)
Fixpoint digits_go (s : string) (acc : Z) (cnt : Z) : Z * Z * string :=
  match s with
  | EmptyString => (acc, cnt, s)
  | String c s' =>
      if Py.is_digit c then digits_go s' (acc * 10 + digit_val c) (cnt + 1)
      else if Ascii.eqb c "_" then
        match s' with
        | String d s'' =>
            if Py.is_digit d
            then digits_go s'' (acc * 10 + digit_val d) (cnt + 1)
            else (acc, cnt, s)
        | EmptyString => (acc, cnt, s)
        end
      else (acc, cnt, s)
  end.

Definition digitpart (s : string) (acc : Z) : option (Z * Z * string) :=
  match s with
  | String c s' =>
      if Py.is_digit c then Some (digits_go s' (acc * 10 + digit_val c) 1)
      else None
  | EmptyString => None
  end.

Definition sign (s : string) : bool * string :=
  match s with
  | String "-" s' => (true, s')
  | String "+" s' => (false, s')
  | _ => (false, s)
  end.

(** [number]: the digits as an integer and the number of them after the
    point. *)
Definition number (s : string) : option (Z * Z * string) :=
  match s with
  | String "." s' =>
      match digitpart s' 0 with
      | Some (m, k, rest) => Some (m, k, rest)
      | None => None
      end
  | _ =>
      match digitpart s 0 with
      | Some (m, _, String "." rest) =>
          match digitpart rest m with
          | Some (m', k, rest') => Some (m', k, rest')
          | None => Some (m, 0, rest)
          end
      | Some (m, _, rest) => Some (m, 0, rest)
      | None => None
      end
  end.

Definition exponent (s : string) : option (Z * string) :=
  match s with
  | String c s' =>
      if Ascii.eqb c "e" || Ascii.eqb c "E" then
        let '(neg, s'') := sign s' in
        match digitpart s'' 0 with
        | Some (x, _, rest) => Some (if neg then - x else x, rest)
        | None => None
        end
      else Some (0, s)
  | EmptyString => Some (0, s)
  end.

Definition floatnumber (neg : bool) (s : string) : option spec_float :=
  match number s with
  | Some (m, k, rest) =>
      match exponent rest with
      | Some (x, EmptyString) => Some (of_decimal neg m (x - k))
      | _ => None
      end
  | None => None
  end.

Definition floatvalue (s : string) : option spec_float :=
  let '(neg, s') := sign s in
  let l := Py.lower s' in
  if String.eqb l "inf" || String.eqb l "infinity" then Some (S754_infinity neg)
  else if String.eqb l "nan" then Some S754_nan
  else floatnumber neg s'.

(** The white space that [float] removes around the text: the one of
    C's [isspace]. *)
Definition is_c_space (c : ascii) : bool :=
  let n := Py.code c in ((9 <=? n) && (n <=? 13)) || (n =? 32).

(** [float(s)] *)
Definition of_string (s : string) : py spec_float :=
  match floatvalue (Py.strip_by is_c_space s) with
  | Some x => Ok x
  | None => Raise ValueError
  end.

End PyFloat.

(** Characters that cannot be written inside a string literal. *)
Definition dquote : string := String "034"%char EmptyString.
Definition backslash : string := String "092"%char EmptyString.
Definition newline : string := String "010"%char EmptyString.

(** ** [datetime]: the interface used by the sources, and an instance *)

Class DatetimeLib : Type := {
  datetime : Type;
  (** [datetime.fromisoformat(s)]; raises [ValueError] on a malformed text. *)
  fromisoformat : string -> py datetime;
  (** [dt.timestamp()]: POSIX seconds as a float. *)
  dt_timestamp : datetime -> py spec_float
}.

(** The instance implements the format documented for
    [datetime.fromisoformat] in Python 3.7 to 3.10,
<<
    YYYY-MM-DD[*HH[:MM[:SS[.fff[fff]]]][+HH:MM[:SS[.ffffff]]]]
>>
    on a host whose local time zone is UTC (used for texts that carry no
    offset).  The properties of the normaliser and of the converter are
    proved for every instance of the interface; this one serves to
    evaluate the code on RFC3339 texts. *)
Module Iso.

Record t : Type := mk {
  year : Z; month : Z; day : Z;
  hour : Z; minute : Z; second : Z; microsecond : Z;
  (** offset east of UTC in microseconds; [None] for a naive value *)
  utcoffset : option Z
}.

(** Exactly [n] decimal digits. *)
Fixpoint digits (n : nat) (acc : Z) (s : string) : option (Z * string) :=
  match n with
  | O => Some (acc, s)
  | S n' =>
      match s with
      | String c s' =>
          if Py.is_digit c then digits n' (acc * 10 + (Py.code c - 48)) s'
          else None
      | EmptyString => None
      end
  end.

Definition expect (c : ascii) (s : string) : option string :=
  match s with
  | String d s' => if Ascii.eqb c d then Some s' else None
  | EmptyString => None
  end.

(** [YYYY-MM-DD] *)
Definition parse_date (s : string) : option (Z * Z * Z * string) :=
  match digits 4 0 s with
  | Some (y, s1) =>
      match expect "-" s1 with
      | Some s2 =>
          match digits 2 0 s2 with
          | Some (m, s3) =>
              match expect "-" s3 with
              | Some s4 =>
                  match digits 2 0 s4 with
                  | Some (d, s5) => Some (y, m, d, s5)
                  | None => None
                  end
              | None => None
              end
          | None => None
          end
      | None => None
      end
  | None => None
  end.

(** [.fff] or [.ffffff] at the end of the text, as microseconds. *)
Definition parse_fraction (allow3 : bool) (s : string) : option Z :=
  match String.length s with
  | 6%nat => match digits 6 0 s with Some (f, _) => Some f | None => None end
  | 3%nat =>
      if allow3
      then match digits 3 0 s with Some (f, _) => Some (f * 1000) | None => None end
      else None
  | _ => None
  end.

(** [HH[:MM[:SS[.fff[fff]]]]], the whole text. *)
Definition parse_hh_mm_ss_ff (allow3 : bool) (s : string)
  : option (Z * Z * Z * Z) :=
  match digits 2 0 s with
  | Some (h, EmptyString) => Some (h, 0, 0, 0)
  | Some (h, String ":" s1) =>
      match digits 2 0 s1 with
      | Some (m, EmptyString) => Some (h, m, 0, 0)
      | Some (m, String ":" s2) =>
          match digits 2 0 s2 with
          | Some (sec, EmptyString) => Some (h, m, sec, 0)
          | Some (sec, String "." s3) =>
              match parse_fraction allow3 s3 with
              | Some f => Some (h, m, sec, f)
              | None => None
              end
          | _ => None
          end
      | _ => None
      end
  | _ => None
  end.

(** Splits the time text at the first sign. *)
Fixpoint split_offset (s : string) : string * option (bool * string) :=
  match s with
  | EmptyString => (EmptyString, None)
  | String c s' =>
      if Ascii.eqb c "+" then (EmptyString, Some (false, s'))
      else if Ascii.eqb c "-" then (EmptyString, Some (true, s'))
      else let '(a, b) := split_offset s' in (String c a, b)
  end.

(** [HH:MM], [HH:MM:SS] or [HH:MM:SS.ffffff] after the sign. *)
Definition parse_offset (neg : bool) (s : string) : option Z :=
  match String.length s with
  | 5%nat | 8%nat | 15%nat =>
      match parse_hh_mm_ss_ff false s with
      | Some (h, m, sec, f) =>
          let us := ((h * 3600 + m * 60 + sec) * 1000000 + f) in
          Some (if neg then - us else us)
      | None => None
      end
  | _ => None
  end.

Definition is_leap (y : Z) : bool :=
  (y mod 4 =? 0) && (negb (y mod 100 =? 0) || (y mod 400 =? 0)).

Definition days_in_month (y m : Z) : Z :=
  if m =? 2 then (if is_leap y then 29 else 28)
  else if (m =? 4) || (m =? 6) || (m =? 9) || (m =? 11) then 30
  else 31.

Definition days_before_year (y : Z) : Z :=
  let p := y - 1 in p * 365 + p / 4 - p / 100 + p / 400.

Fixpoint days_before_month_go (y : Z) (n : nat) : Z :=
  match n with
  | O => 0
  | S n' => days_before_month_go y n' + days_in_month y (Z.of_nat n)
  end.

Definition days_before_month (y m : Z) : Z :=
  days_before_month_go y (Z.to_nat (m - 1)).

(** [date.toordinal()] *)
Definition toordinal (y m d : Z) : Z :=
  days_before_year y + days_before_month y m + d.

Definition in_range (lo x hi : Z) : bool := (lo <=? x) && (x <=? hi).

(** The range checks of the [datetime] and [timezone] constructors. *)
Definition valid (x : t) : bool :=
  in_range 1 (year x) 9999 && in_range 1 (month x) 12
  && in_range 1 (day x) (days_in_month (year x) (month x))
  && in_range 0 (hour x) 23 && in_range 0 (minute x) 59
  && in_range 0 (second x) 59 && in_range 0 (microsecond x) 999999
  && match utcoffset x with
     | Some o => (- 86400000000 <? o) && (o <? 86400000000)
     | None => true
     end.

Definition parse (s : string) : option t :=
  match parse_date s with
  | Some (y, m, d, EmptyString) => Some (mk y m d 0 0 0 0 None)
  | Some (y, m, d, String _ tstr) =>
      let '(timepart, off) := split_offset tstr in
      match parse_hh_mm_ss_ff true timepart with
      | Some (h, mi, sec, f) =>
          match off with
          | None => Some (mk y m d h mi sec f None)
          | Some (neg, ostr) =>
              match parse_offset neg ostr with
              | Some o => Some (mk y m d h mi sec f (Some o))
              | None => None
              end
          end
      | None => None
      end
  | None => None
  end.

Definition fromisoformat (s : string) : py t :=
  match parse s with
  | Some x => if valid x then Ok x else Raise ValueError
  | None => Raise ValueError
  end.

(** Microseconds since 1970-01-01T00:00:00 UTC. *)
Definition epoch_microseconds (x : t) : Z :=
  ((toordinal (year x) (month x) (day x) - toordinal 1970 1 1) * 86400
   + hour x * 3600 + minute x * 60 + second x) * 1000000
  + microsecond x
  - match utcoffset x with Some o => o | None => 0 end.

(** [dt.timestamp()]: the true division of the microseconds by [10**6]. *)
Definition timestamp (x : t) : py spec_float :=
  let us := epoch_microseconds x in
  Ok (PyFloat.of_ratio (us <? 0) (Z.abs us) 1000000).

End Iso.

Global Instance utc_host : DatetimeLib := {|
  datetime := Iso.t;
  fromisoformat := Iso.fromisoformat;
  dt_timestamp := Iso.timestamp
|}.

(** ** [csv.reader(io.StringIO(text))], default dialect

    The reader of the [csv] module in its default ("excel", non strict)
    dialect: delimiter comma, quote character double quote, doubled quotes
    inside quoted fields.  [io.StringIO] yields the lines of the text, each
    with its terminating newline. *)

Module Csv.

Inductive state : Type :=
| START_RECORD | START_FIELD | IN_FIELD
| IN_QUOTED_FIELD | QUOTE_IN_QUOTED_FIELD | EAT_CRNL.

Record reader : Type := mkReader {
  st : state;
  fields : list string;      (* fields of the record, last first *)
  field : string;            (* the field being read, last character first *)
  field_len : Z
}.

Definition field_limit : Z := 131072.

Definition reset : reader := mkReader START_RECORD [] EmptyString 0.

Definition save_field (r : reader) : reader :=
  mkReader (st r) (String.rev (field r) :: fields r) EmptyString 0.

Definition add_char (c : ascii) (r : reader) : py reader :=
  if field_limit <=? field_len r then Raise CsvError
  else Ok (mkReader (st r) (fields r) (String c (field r)) (field_len r + 1)).

Definition set_state (s : state) (r : reader) : reader :=
  mkReader s (fields r) (field r) (field_len r).

Definition is_eol_char (c : ascii) : bool :=
  Ascii.eqb c "010" || Ascii.eqb c "013".

(** One character of a line ([Some c]) or the end of the line ([None]). *)
Definition process_char (r : reader) (ev : option ascii) : py reader :=
  let start_field (r : reader) :=
    match ev with
    | None => Ok (set_state START_RECORD (save_field r))
    | Some c =>
        if is_eol_char c then Ok (set_state EAT_CRNL (save_field r))
        else if Ascii.eqb c "034" then Ok (set_state IN_QUOTED_FIELD r)
        else if Ascii.eqb c "," then Ok (save_field r)
        else let* r' := add_char c r in Ok (set_state IN_FIELD r')
    end in
  match st r with
  | START_RECORD =>
      match ev with
      | None => Ok r
      | Some c =>
          if is_eol_char c then Ok (set_state EAT_CRNL r)
          else start_field (set_state START_FIELD r)
      end
  | START_FIELD => start_field r
  | IN_FIELD =>
      match ev with
      | None => Ok (set_state START_RECORD (save_field r))
      | Some c =>
          if is_eol_char c then Ok (set_state EAT_CRNL (save_field r))
          else if Ascii.eqb c "," then Ok (set_state START_FIELD (save_field r))
          else add_char c r
      end
  | IN_QUOTED_FIELD =>
      match ev with
      | None => Ok r
      | Some c =>
          if Ascii.eqb c "034" then Ok (set_state QUOTE_IN_QUOTED_FIELD r)
          else add_char c r
      end
  | QUOTE_IN_QUOTED_FIELD =>
      match ev with
      | None => Ok (set_state START_RECORD (save_field r))
      | Some c =>
          if Ascii.eqb c "034"
          then let* r' := add_char c r in Ok (set_state IN_QUOTED_FIELD r')
          else if Ascii.eqb c "," then Ok (set_state START_FIELD (save_field r))
          else if is_eol_char c then Ok (set_state EAT_CRNL (save_field r))
          else let* r' := add_char c r in Ok (set_state IN_FIELD r')
      end
  | EAT_CRNL =>
      match ev with
      | None => Ok (set_state START_RECORD r)
      | Some c => if is_eol_char c then Ok r else Raise CsvError
      end
  end.

(** The lines of a text, each with its newline. *)
Fixpoint lines_go (s : string) (cur : string) : list string :=
  match s with
  | EmptyString =>
      match cur with EmptyString => [] | _ => [String.rev cur] end
  | String c s' =>
      if Ascii.eqb c "010" then String.rev (String c cur) :: lines_go s' EmptyString
      else lines_go s' (String c cur)
  end.

Definition lines (s : string) : list string := lines_go s EmptyString.

Fixpoint process_line (r : reader) (line : string) : py reader :=
  match line with
  | EmptyString => process_char r None
  | String c line' =>
      let* r' := process_char r (Some c) in process_line r' line'
  end.

(** The rows read until the input is exhausted or an error is raised:
    the rows, and the error that ends the iteration if there is one. *)
Fixpoint read (ls : list string) (r : reader)
  : list (list string) * option exn :=
  match ls with
  | [] =>
      if negb (field_len r =? 0)
         || match st r with IN_QUOTED_FIELD => true | _ => false end
      then ([rev (fields (save_field r))], None)
      else ([], None)
  | l :: ls' =>
      match process_line r l with
      | Raise e => ([], Some e)
      | Ok r' =>
          match st r' with
          | START_RECORD =>
              let '(rows, e) := read ls' reset in (rev (fields r') :: rows, e)
          | _ => read ls' r'
          end
      end
  end.

Definition reader_rows (text : string) : list (list string) * option exn :=
  read (lines text) reset.

End Csv.

(** ** [main.py]: the legacy CSV path *)

Module Legacy.

Section Normalizer.
Context `{DatetimeLib}.

(** The body of the [try] block. *)
Definition rfc3339_attempt (timestamp : string) : py string :=
  let* dt := fromisoformat (Py.replace "Z" "+00:00" timestamp) in
  let* t := dt_timestamp dt in
  let* n := PyFloat.to_int (PyFloat.mul t (PyFloat.of_Z 1000)) in
  Ok (str_of_Z n).

(** The seconds branch of the handler:
    [str(int(float(timestamp) * 1000))]. *)
Definition numeric_attempt (timestamp : string) : py string :=
  let* x := PyFloat.of_string timestamp in
  let* n := PyFloat.to_int (PyFloat.mul x (PyFloat.of_Z 1000)) in
  Ok (str_of_Z n).

Definition format_timestamp (timestamp : string) : py string :=
  try_except_ValueError
    (rfc3339_attempt timestamp)
    (if (12 <? String.length timestamp)%nat then Ok timestamp
     else numeric_attempt timestamp).
End Normalizer.

(** A dict in insertion order. *)
Definition dict : Type := list (string * string).

Fixpoint dict_set (k v : string) (d : dict) : dict :=
  match d with
  | [] => [(k, v)]
  | (k', v') :: d' =>
      if String.eqb k' k then (k', v) :: d' else (k', v') :: dict_set k v d'
  end.

Fixpoint dict_get (k : string) (d : dict) : option string :=
  match d with
  | [] => None
  | (k', v') :: d' => if String.eqb k' k then Some v' else dict_get k d'
  end.

Record item : Type := mkItem {
  timestamp : string;
  measurement : string;
  field : string;
  value : string;
  tags : dict
}.

(** [headers.index(name) if name in headers else None] *)
Fixpoint index (name : string) (headers : list string) : option nat :=
  match headers with
  | [] => None
  | h :: hs =>
      if String.eqb h name then Some O
      else match index name hs with Some i => Some (S i) | None => None end
  end.

(** The first loop: the first row that is neither empty nor a comment,
    and the rows after it. *)
Fixpoint find_headers (rows : list (list string))
  : option (list string * list (list string)) :=
  match rows with
  | [] => None
  | [] :: rows' => find_headers rows'
  | (c :: cs) :: rows' =>
      if Py.startswith c "#" then find_headers rows'
      else Some (c :: cs, rows')
  end.

(** The loop over [enumerate(headers)] that fills [tags]. *)
Fixpoint extract_tags (headers row : list string) (tags : dict) : dict :=
  match headers, row with
  | header :: hs, cell :: cs =>
      extract_tags hs cs
        (if negb (Py.startswith header "_")
            && negb (String.eqb cell EmptyString)
         then dict_set header cell tags else tags)
  | _, _ => tags
  end.

(** One data row; [None] when the row is skipped. *)
Definition parse_row (headers : list string)
    (time_idx measurement_idx field_idx value_idx : nat)
    (row : list string) : option item :=
  match row with
  | [] => None
  | _ =>
      if (length row
          <? Nat.max (Nat.max time_idx measurement_idx)
                     (Nat.max field_idx value_idx) + 1)%nat
      then None
      else
        Some (mkItem (nth time_idx row EmptyString)
                     (nth measurement_idx row EmptyString)
                     (nth field_idx row EmptyString)
                     (nth value_idx row EmptyString)
                     (extract_tags headers row []))
  end.

(** [parse_influxdb_csv] on the rows produced by the reader, [err] being
    the error that ends the iteration of the reader, if any. *)
Definition parse_rows (rows : list (list string)) (err : option exn)
  : py (list item) :=
  match find_headers rows with
  | None =>
      match err with
      | Some e => Raise e
      | None => Raise ValueError
      end
  | Some (headers, data) =>
      match index "_time" headers, index "_measurement" headers,
            index "_field" headers, index "_value" headers with
      | Some time_idx, Some measurement_idx, Some field_idx, Some value_idx =>
          match err with
          | Some e => Raise e
          | None =>
              Ok (omap (parse_row headers time_idx measurement_idx
                                  field_idx value_idx) data)
          end
      | _, _, _, _ => Raise ValueError
      end
  end.

Definition parse_influxdb_csv (csv_data : string) : py (list item) :=
  let '(rows, err) := Csv.reader_rows csv_data in parse_rows rows err.

Definition labels_str (tags : dict) : string :=
  match tags with
  | [] => ""
  | _ =>
      "{" +:+ Py.join ","
               (map (fun kv => kv.1 +:+ "=" +:+ dquote +:+ kv.2 +:+ dquote) tags)
          +:+ "}"
  end.

Section Conversion.
Context `{DatetimeLib}.

(** The body of the conversion loop. *)
Definition prom_line (it : item) : py string :=
  let* ts := format_timestamp (timestamp it) in
  Ok ((measurement it +:+ "_" +:+ field it) +:+ labels_str (tags it)
      +:+ " " +:+ value it +:+ " " +:+ ts).

Fixpoint prom_lines (items : list item) : py (list string) :=
  match items with
  | [] => Ok []
  | it :: rest =>
      let* l := prom_line it in
      let* ls := prom_lines rest in
      Ok (l :: ls)
  end.

Definition influx_to_prometheus (csv_data : string) : py string :=
  let* parsed_data := parse_influxdb_csv csv_data in
  let* prometheus_lines := prom_lines parsed_data in
  Ok (Py.join newline prometheus_lines).
End Conversion.

End Legacy.

(** ** [converter.py]: the metric model and the grouped formatter *)

Module Converter.

Record PrometheusMetric : Type := mkMetric {
  name : string;
  value : spec_float;
  type : string;
  labels : gmap string string;
  help : option string;
  timestamp : option Z
}.

Definition VALID_TYPES : list string :=
  ["counter"; "gauge"; "histogram"; "summary"].

(** The three [replace] calls on [str(v)]: backslash, double quote,
    newline, in this order. *)
Definition escape_label_value (v : string) : string :=
  Py.replace newline (backslash +:+ "n")
    (Py.replace dquote (backslash +:+ dquote)
       (Py.replace backslash (backslash +:+ backslash) v)).

(** The escaping as the specification words it: in one pass, a
    backslash becomes two backslashes, a double quote becomes backslash
    quote, a newline becomes backslash n, any other character is kept. *)
Definition escape_char (c : ascii) : string :=
  if Ascii.eqb c "092" then backslash +:+ backslash
  else if Ascii.eqb c "034" then backslash +:+ dquote
  else if Ascii.eqb c "010" then backslash +:+ "n"
  else String c EmptyString.

Definition escape_simultaneous (v : string) : string :=
  Py.subst_chars escape_char v.

(** Reading an escaped value back. *)
Fixpoint unescape (s : string) : string :=
  match s with
  | EmptyString => EmptyString
  | String c EmptyString => s
  | String c (String d s' as t) =>
      if Ascii.eqb c "092"
      then String (if Ascii.eqb d "n" then "010"%char else d) (unescape s')
      else String c (unescape t)
  end.

(** Order of Python tuples [(k, v)] of strings, as used by [sorted]. *)
Definition item_leb (a b : string * string) : bool :=
  match String.compare a.1 b.1 with
  | Lt => true
  | Gt => false
  | Eq => String.leb a.2 b.2
  end.

Definition item_le (a b : string * string) : Prop := item_leb a b = true.

Global Instance item_le_dec : RelDecision item_le.
Proof. intros a b. unfold item_le. apply _. Defined.

(** [sorted(metric.labels.items())] *)
Definition sorted_items (l : gmap string string) : list (string * string) :=
  merge_sort item_le (map_to_list l).

Definition format_label (kv : string * string) : string :=
  kv.1 +:+ "=" +:+ dquote +:+ escape_label_value kv.2 +:+ dquote.

Definition labels_str (l : gmap string string) : string :=
  if decide (l = ∅) then ""
  else "{" +:+ Py.join "," (map format_label (sorted_items l)) +:+ "}".

Definition key (m : PrometheusMetric) : string :=
  name m +:+ ":" +:+ type m.

(** [metric_groups]: a dict in insertion order, as an association list. *)
Fixpoint group_append (k : string) (m : PrometheusMetric)
    (groups : list (string * list PrometheusMetric)) :=
  match groups with
  | [] => [(k, [m])]
  | (k', g) :: rest =>
      if String.eqb k' k then (k', g ++ [m]) :: rest
      else (k', g) :: group_append k m rest
  end.

Definition metric_groups (metrics : list PrometheusMetric) :=
  fold_left (fun groups m => group_append (key m) m groups) metrics [].

(** Truthiness of [first_metric.help]. *)
Definition help_text (m : PrometheusMetric) : option string :=
  match help m with
  | Some EmptyString => None
  | h => h
  end.

(** *** [convert_data] *)

(** The scalar values of a record (decoded JSON, or a CSV cell). *)
Inductive pyval : Type :=
| VNone
| VBool (b : bool)
| VInt (n : Z)
| VFloat (x : spec_float)
| VStr (s : string).

(** [float(v)] *)
Definition py_float (v : pyval) : py spec_float :=
  match v with
  | VNone => Raise TypeError
  | VBool b => Ok (PyFloat.of_Z (if b then 1 else 0))
  | VInt n =>
      match PyFloat.of_Z n with
      | S754_infinity _ => Raise OverflowError
      | x => Ok x
      end
  | VFloat x => Ok x
  | VStr s => PyFloat.of_string s
  end.

Section Convert.
Context `{DatetimeLib}.
(** [str(x)] for a float. *)
Variable repr_float : spec_float -> string.

(** [str(v)] *)
Definition py_str (v : pyval) : string :=
  match v with
  | VNone => "None"
  | VBool b => if b then "True" else "False"
  | VInt n => str_of_Z n
  | VFloat x => repr_float x
  | VStr s => s
  end.

(** The value: presence check, then [float(...)] with [ValueError] and
    [TypeError] turned into [ValueError]. *)
Definition convert_value (value_column : string)
    (record : gmap string pyval) : py spec_float :=
  match record !! value_column with
  | None => Raise ValueError
  | Some v =>
      match py_float v with
      | Raise ValueError | Raise TypeError => Raise ValueError
      | r => r
      end
  end.

(** The loop over [label_columns]. *)
Definition convert_labels (label_columns : list string)
    (record : gmap string pyval) : gmap string string :=
  fold_left
    (fun labels label =>
       match record !! label with
       | Some VNone | None => labels
       | Some v => <[label := py_str v]> labels
       end)
    label_columns ∅.

(** The [try] block on a timestamp that is not a number. *)
Definition iso_milliseconds (v : pyval) : py Z :=
  let* dt := fromisoformat (Py.replace "Z" "+00:00" (py_str v)) in
  let* t := dt_timestamp dt in
  PyFloat.to_int (PyFloat.mul t (PyFloat.of_Z 1000)).

Definition convert_timestamp (timestamp_column : option string)
    (record : gmap string pyval) : py (option Z) :=
  match timestamp_column with
  | None | Some EmptyString => Ok None
  | Some column =>
      match record !! column with
      | None | Some VNone => Ok None
      | Some (VBool b) => Ok (Some (if b then 1 else 0))
      | Some (VInt n) => Ok (Some n)
      | Some (VFloat x) => let* n := PyFloat.to_int x in Ok (Some n)
      | Some (VStr s) =>
          match iso_milliseconds (VStr s) with
          | Ok n => Ok (Some n)
          | Raise ValueError | Raise TypeError | Raise AttributeError =>
              Ok None
          | Raise e => Raise e
          end
      end
  end.

(** The body of the loop over [data]. *)
Definition convert_record (metric_name metric_type value_column : string)
    (label_columns : list string) (help_text : option string)
    (timestamp_column : option string) (record : gmap string pyval)
  : py PrometheusMetric :=
  let* value := convert_value value_column record in
  let labels := convert_labels label_columns record in
  let* timestamp := convert_timestamp timestamp_column record in
  Ok (mkMetric metric_name value metric_type labels help_text timestamp).

Fixpoint convert_records (f : gmap string pyval -> py PrometheusMetric)
    (data : list (gmap string pyval)) : py (list PrometheusMetric) :=
  match data with
  | [] => Ok []
  | record :: rest =>
      let* metric := f record in
      let* metrics := convert_records f rest in
      Ok (metric :: metrics)
  end.

Definition convert_data (data : list (gmap string pyval))
    (metric_name metric_type value_column : string)
    (label_columns : option (list string)) (help_text : option string)
    (timestamp_column : option string) : py (list PrometheusMetric) :=
  if negb (bool_decide (metric_type ∈ VALID_TYPES)) then Raise ValueError
  else
    let label_columns := default [] label_columns in
    convert_records
      (convert_record metric_name metric_type value_column label_columns
                      help_text timestamp_column)
      data.

End Convert.

Section Formatter.
(** The text of a float inside an f-string. *)
Variable repr_float : spec_float -> string.

Definition sample_line (m : PrometheusMetric) : string :=
  match timestamp m with
  | Some t =>
      name m +:+ labels_str (labels m) +:+ " " +:+ repr_float (value m)
        +:+ " " +:+ str_of_Z t
  | None =>
      name m +:+ labels_str (labels m) +:+ " " +:+ repr_float (value m)
  end.

Definition format_group (group : list PrometheusMetric)
  : py (list string) :=
  match group with
  | [] => Raise IndexError
  | first_metric :: _ =>
      Ok ((match help_text first_metric with
           | Some h => ["# HELP " +:+ name first_metric +:+ " " +:+ h]
           | None => []
           end)
          ++ ["# TYPE " +:+ name first_metric +:+ " " +:+ type first_metric]
          ++ map sample_line group
          ++ [""])
  end.

Fixpoint format_groups (groups : list (string * list PrometheusMetric))
  : py (list string) :=
  match groups with
  | [] => Ok []
  | (_, group) :: rest =>
      let* ls := format_group group in
      let* ls' := format_groups rest in
      Ok (ls ++ ls')
  end.

Definition format_metrics (metrics : list PrometheusMetric) : py string :=
  match metrics with
  | [] => Ok ""
  | _ =>
      let* lines := format_groups (metric_groups metrics) in
      Ok (Py.join newline lines)
  end.

(** *** The grouping as the specification words it *)

(** Keys in order of first occurrence. *)
Fixpoint first_seen (l : list string) : list string :=
  match l with
  | [] => []
  | k :: l' => k :: filter (fun k' => k' <> k) (first_seen l')
  end.

(** The samples of one group, in input order. *)
Definition members (k : string) (metrics : list PrometheusMetric) :=
  filter (fun m => key m = k) metrics.

(** The block of a group: the HELP line of its first sample when that
    sample has help text, one TYPE line, the sample lines, a blank
    line. *)
Definition group_block (g : list PrometheusMetric) : list string :=
  match g with
  | [] => []
  | first :: _ =>
      (match help_text first with
       | Some h => ["# HELP " +:+ name first +:+ " " +:+ h]
       | None => []
       end)
      ++ ["# TYPE " +:+ name first +:+ " " +:+ type first]
      ++ map sample_line g ++ [""]
  end.

Definition grouped_lines (metrics : list PrometheusMetric) : list string :=
  concat (map (fun k => group_block (members k metrics))
              (first_seen (map key metrics))).

(** The first help text carried by any sample of a group, and the block
    that the invariant of the data model describes: HELP whenever some
    sample of the group carries help text. *)
Definition first_help (g : list PrometheusMetric) : option string :=
  head (omap help_text g).

Definition claimed_group_block (g : list PrometheusMetric) : list string :=
  match g with
  | [] => []
  | first :: _ =>
      (match first_help g with
       | Some h => ["# HELP " +:+ name first +:+ " " +:+ h]
       | None => []
       end)
      ++ ["# TYPE " +:+ name first +:+ " " +:+ type first]
      ++ map sample_line g ++ [""]
  end.

Definition claimed_lines (metrics : list PrometheusMetric) : list string :=
  concat (map (fun k => claimed_group_block (members k metrics))
              (first_seen (map key metrics))).

End Formatter.

End Converter.

(** ** [re]: a backtracking matcher for the patterns of the translator

    Patterns are given as syntax trees; matching follows the priorities
    of a backtracking engine (left alternative first, greedy or lazy
    repetition), with numbered capturing groups. *)

Module Re.

Inductive regex : Type :=
| Eps
| Chr (p : ascii -> bool)          (* one character satisfying [p] *)
| Seq (r1 r2 : regex)
| Alt (r1 r2 : regex)
| Star (greedy : bool) (r : regex) (* [r*] and [r*?] *)
| Group (i : nat) (r : regex)      (* capturing group number [i] *)
| Eos.                             (* [$] *)

(** [$]: the end of the text, or just before a final newline. *)
Definition at_end (s : string) : bool :=
  match s with
  | EmptyString => true
  | String c EmptyString => Ascii.eqb c "010"
  | _ => false
  end.

(** The part of [s] read when [s'] is left. *)
Definition consumed (s s' : string) : string :=
  Py.take (String.length s - String.length s') s.

Section Matcher.
Context {R : Type}.

Definition cont : Type := string -> gmap nat string -> option R.

(** Repetition of the matcher [m]; an iteration has to read at least
    one character. *)
Fixpoint star_loop (m : string -> gmap nat string -> cont -> option R)
    (greedy : bool) (k : cont) (fuel : nat)
    (s : string) (caps : gmap nat string) : option R :=
  let again (_ : unit) :=
    match fuel with
    | O => None
    | S fuel' =>
        m s caps
          (fun s' caps' =>
             if (String.length s' <? String.length s)%nat
             then star_loop m greedy k fuel' s' caps'
             else None)
    end in
  if greedy then
    match again tt with
    | Some x => Some x
    | None => k s caps
    end
  else
    match k s caps with
    | Some x => Some x
    | None => again tt
    end.

Fixpoint rmatch (r : regex) (s : string) (caps : gmap nat string)
    (k : cont) : option R :=
  match r with
  | Eps => k s caps
  | Chr p =>
      match s with
      | String c s' => if p c then k s' caps else None
      | EmptyString => None
      end
  | Seq r1 r2 => rmatch r1 s caps (fun s' caps' => rmatch r2 s' caps' k)
  | Alt r1 r2 =>
      match rmatch r1 s caps k with
      | Some x => Some x
      | None => rmatch r2 s caps k
      end
  | Star greedy r' =>
      star_loop (rmatch r') greedy k (String.length s) s caps
  | Group i r' =>
      rmatch r' s caps
        (fun s' caps' => k s' (<[i := consumed s s']> caps'))
  | Eos => if at_end s then k s caps else None
  end.
End Matcher.

(** The leftmost match: its groups and the text after it. *)
Fixpoint search_rest (r : regex) (s : string)
  : option (gmap nat string * string) :=
  match rmatch r s ∅ (fun s' caps => Some (caps, s')) with
  | Some m => Some m
  | None =>
      match s with
      | String _ s' => search_rest r s'
      | EmptyString => None
      end
  end.

(** [re.search(r, s)]: the groups of the match. *)
Definition search (r : regex) (s : string) : option (gmap nat string) :=
  fst <$> search_rest r s.

(** [m.group(i)]; [None] for a group that took no part in the match. *)
Definition group (m : gmap nat string) (i : nat) : option string := m !! i.

(** [re.finditer(r, s)] for a pattern that does not match the empty
    text: the successive matches. *)
Fixpoint finditer_go (fuel : nat) (r : regex) (s : string)
  : list (gmap nat string) :=
  match fuel with
  | O => []
  | S fuel' =>
      match search_rest r s with
      | Some (caps, rest) => caps :: finditer_go fuel' r rest
      | None => []
      end
  end.

Definition finditer (r : regex) (s : string) : list (gmap nat string) :=
  finditer_go (String.length s) r s.

(** *** Building patterns *)

Definition cat (l : list regex) : regex := fold_right Seq Eps l.
Definition never : regex := Chr (fun _ => false).
Definition alts (l : list regex) : regex := fold_right Alt never l.
Definition star (r : regex) : regex := Star true r.
Definition plus (r : regex) : regex := Seq r (Star true r).
Definition lazy_plus (r : regex) : regex := Seq r (Star false r).
Definition opt (r : regex) : regex := Alt r Eps.

Fixpoint lit (s : string) : regex :=
  match s with
  | EmptyString => Eps
  | String c s' => Seq (Chr (Ascii.eqb c)) (lit s')
  end.

(** A literal under [re.IGNORECASE]. *)
Fixpoint liti (s : string) : regex :=
  match s with
  | EmptyString => Eps
  | String c s' =>
      Seq (Chr (fun x => Ascii.eqb (Py.lower_char x) (Py.lower_char c)))
          (liti s')
  end.

(** [\s], [\d], [.], [[...]], [[^...]] *)
Definition sp : regex := Chr Py.is_space.
Definition digit : regex := Chr Py.is_digit.
Definition dot : regex := Chr (fun c => negb (Ascii.eqb c "010")).
Definition set (chars : string) : regex := Chr (Py.one_of chars).
Definition nset (chars : string) : regex :=
  Chr (fun c => negb (Py.one_of chars c)).
(** [[^...]] with [\s] among the excluded characters *)
Definition nset_sp (chars : string) : regex :=
  Chr (fun c => negb (Py.is_space c || Py.one_of chars c)).
(** [[^...]] under [re.IGNORECASE] *)
Definition nseti (chars : string) : regex :=
  Chr (fun c => negb (Py.one_of (Py.lower chars) (Py.lower_char c))).
(** [[a-zA-Z0-9_]] *)
Definition word : regex :=
  Chr (fun c =>
         let n := Py.code c in
         ((97 <=? n) && (n <=? 122)) || ((65 <=? n) && (n <=? 90))
         || ((48 <=? n) && (n <=? 57)) || (n =? 95)).

(** No group set in [caps] is unset in [caps']. *)
Definition mono (caps caps' : gmap nat string) : Prop :=
  forall i, is_Some (caps !! i) -> is_Some (caps' !! i).

(** The groups that take part in every match of a pattern. *)
Fixpoint mandatory (r : regex) : list nat :=
  match r with
  | Seq r1 r2 => mandatory r1 ++ mandatory r2
  | Group i r' => i :: mandatory r'
  | _ => []
  end.

End Re.

(** ** [influx2promql.py]: the query translator

    In the patterns quoted below, [\x22] stands for the double quote. *)

Module Promql.

(** [from\(bucket:\s*\x22([^\x22]+)\x22\)] *)
Definition bucket_pattern : Re.regex :=
  Re.cat [Re.lit "from(bucket:"; Re.star Re.sp; Re.lit dquote;
          Re.Group 1 (Re.plus (Re.nset dquote)); Re.lit dquote; Re.lit ")"].

(** [range\(start:\s*([^,\)]+)(?:,\s*stop:\s*([^,\)]+))?\)] *)
Definition range_pattern : Re.regex :=
  Re.cat [Re.lit "range(start:"; Re.star Re.sp;
          Re.Group 1 (Re.plus (Re.nset ",)"));
          Re.opt (Re.cat [Re.lit ","; Re.star Re.sp; Re.lit "stop:";
                          Re.star Re.sp; Re.Group 2 (Re.plus (Re.nset ",)"))]);
          Re.lit ")"].

(** [filter\(fn:\s*\(r\)\s*=>\s*r\.([^\s]+)\s*==\s*\x22([^\x22]+)\x22\)] *)
Definition filter_pattern : Re.regex :=
  Re.cat [Re.lit "filter(fn:"; Re.star Re.sp; Re.lit "(r)"; Re.star Re.sp;
          Re.lit "=>"; Re.star Re.sp; Re.lit "r.";
          Re.Group 1 (Re.plus (Re.nset_sp "")); Re.star Re.sp; Re.lit "==";
          Re.star Re.sp; Re.lit dquote;
          Re.Group 2 (Re.plus (Re.nset dquote)); Re.lit dquote; Re.lit ")"].

(** [_field\s*==\s*\x22([^\x22]+)\x22] *)
Definition field_pattern : Re.regex :=
  Re.cat [Re.lit "_field"; Re.star Re.sp; Re.lit "=="; Re.star Re.sp;
          Re.lit dquote; Re.Group 1 (Re.plus (Re.nset dquote)); Re.lit dquote].

(** [_measurement\s*==\s*\x22([^\x22]+)\x22] *)
Definition measurement_pattern : Re.regex :=
  Re.cat [Re.lit "_measurement"; Re.star Re.sp; Re.lit "=="; Re.star Re.sp;
          Re.lit dquote; Re.Group 1 (Re.plus (Re.nset dquote)); Re.lit dquote].

(** [(mean|sum|count|min|max|stddev)\(\)] *)
Definition aggregate_pattern : Re.regex :=
  Re.cat [Re.Group 1 (Re.alts [Re.lit "mean"; Re.lit "sum"; Re.lit "count";
                               Re.lit "min"; Re.lit "max"; Re.lit "stddev"]);
          Re.lit "()"].

(** [SELECT\s+([^FROM]+)FROM\s+([^\s;]+)], ignoring case *)
Definition select_pattern : Re.regex :=
  Re.cat [Re.liti "SELECT"; Re.plus Re.sp;
          Re.Group 1 (Re.plus (Re.nseti "FROM")); Re.liti "FROM";
          Re.plus Re.sp; Re.Group 2 (Re.plus (Re.nset_sp ";"))].

(** [WHERE\s+(.+?)(?:GROUP BY|ORDER BY|LIMIT|$)], ignoring case *)
Definition where_pattern : Re.regex :=
  Re.cat [Re.liti "WHERE"; Re.plus Re.sp; Re.Group 1 (Re.lazy_plus Re.dot);
          Re.alts [Re.liti "GROUP BY"; Re.liti "ORDER BY"; Re.liti "LIMIT";
                   Re.Eos]].

(** [time\s*(>=|>|<=|<)\s*([^\s)]+)], ignoring case *)
Definition time_pattern : Re.regex :=
  Re.cat [Re.liti "time"; Re.star Re.sp;
          Re.Group 1 (Re.alts [Re.lit ">="; Re.lit ">"; Re.lit "<="; Re.lit "<"]);
          Re.star Re.sp; Re.Group 2 (Re.plus (Re.nset_sp ")"))].

(** [([a-zA-Z0-9_]+)\s*=\s*'([^']+)'] *)
Definition tag_pattern : Re.regex :=
  Re.cat [Re.Group 1 (Re.plus Re.word); Re.star Re.sp; Re.lit "=";
          Re.star Re.sp; Re.lit "'"; Re.Group 2 (Re.plus (Re.nset "'"));
          Re.lit "'"].

(** [GROUP BY\s+(.+?)(?:ORDER BY|LIMIT|$)], ignoring case *)
Definition group_by_pattern : Re.regex :=
  Re.cat [Re.liti "GROUP BY"; Re.plus Re.sp; Re.Group 1 (Re.lazy_plus Re.dot);
          Re.alts [Re.liti "ORDER BY"; Re.liti "LIMIT"; Re.Eos]].

(** [([a-zA-Z0-9_]+)\(([^)]{0,})\)], the source writing the quantifier
    [{0,}] as a star *)
Definition function_pattern : Re.regex :=
  Re.cat [Re.Group 1 (Re.plus Re.word); Re.lit "(";
          Re.Group 2 (Re.star (Re.nset ")")); Re.lit ")"].

(** [now\(\)\s*-\s*(\d+)([hmd])] *)
Definition duration_pattern : Re.regex :=
  Re.cat [Re.lit "now()"; Re.star Re.sp; Re.lit "-"; Re.star Re.sp;
          Re.Group 1 (Re.plus Re.digit); Re.Group 2 (Re.set "hmd")].

(** A group inside an f-string. *)
Definition fmt (g : option string) : string :=
  match g with
  | Some s => s
  | None => "None"
  end.

(** A group on which a string method is called. *)
Definition receiver (g : option string) : py string :=
  match g with
  | Some s => Ok s
  | None => Raise AttributeError
  end.

(** A group as the right operand of [in]. *)
Definition container (g : option string) : py string :=
  match g with
  | Some s => Ok s
  | None => Raise TypeError
  end.

Fixpoint assoc (k : string) (d : list (string * string)) : option string :=
  match d with
  | [] => None
  | (k', v) :: d' => if String.eqb k' k then Some v else assoc k d'
  end.

Definition agg_map : list (string * string) :=
  [("mean", "avg"); ("sum", "sum"); ("count", "count"); ("min", "min");
   ("max", "max"); ("stddev", "stddev")].

Definition func_map : list (string * string) :=
  [("mean", "avg"); ("sum", "sum"); ("count", "count"); ("min", "min");
   ("max", "max")].

(** The last lines of both converters. *)
Definition compose (metric_name : string) (filters : list string)
    (time_range aggregation : string) : string :=
  let promql := metric_name in
  let promql :=
    match filters with
    | [] => promql
    | _ => promql +:+ "{" +:+ Py.join ", " filters +:+ "}"
    end in
  let promql :=
    match time_range with
    | EmptyString => promql
    | _ => promql +:+ time_range
    end in
  match aggregation with
  | EmptyString => promql
  | _ => aggregation +:+ "(" +:+ promql +:+ ")"
  end.

Definition convert_flux_to_promql (flux_query : string) : py string :=
  let bucket_match := Re.search bucket_pattern flux_query in
  let range_match := Re.search range_pattern flux_query in
  let measurement_match := Re.search measurement_pattern flux_query in
  let field_match := Re.search field_pattern flux_query in
  let aggregate_match := Re.search aggregate_pattern flux_query in
  let bucket :=
    match bucket_match with
    | Some m => Re.group m 1
    | None => None
    end in
  let* time_range :=
    match range_match with
    | Some m =>
        let start_time := Re.group m 1 in
        let stop_time := Re.group m 2 in
        let* start := receiver start_time in
        if Py.startswith start "-"
        then Ok ("[" +:+ Py.replace "s" "s" (Py.replace "m" "m"
                           (Py.replace "d" "d" (Py.replace "h" "h" start)))
                 +:+ "]")
        else Ok ""
    | None => Ok ""
    end in
  let metric_name :=
    match measurement_match, field_match with
    | Some mm, Some fm => fmt (Re.group mm 1) +:+ "_" +:+ fmt (Re.group fm 1)
    | _, _ => ""
    end in
  let filters :=
    flat_map
      (fun m =>
         let tag := Re.group m 1 in
         let value := Re.group m 2 in
         if bool_decide (tag = Some "_measurement")
            || bool_decide (tag = Some "_field")
         then []
         else [fmt tag +:+ "=" +:+ dquote +:+ fmt value +:+ dquote])
      (Re.finditer filter_pattern flux_query) in
  let aggregation :=
    match aggregate_match with
    | Some m =>
        match Re.group m 1 with
        | Some agg_func =>
            match assoc agg_func agg_map with
            | Some a => a
            | None => ""
            end
        | None => ""
        end
    | None => ""
    end in
  Ok (compose metric_name filters time_range aggregation).

Definition convert_influxql_to_promql (influxql_query : string) : py string :=
  let select_match := Re.search select_pattern influxql_query in
  let where_match := Re.search where_pattern influxql_query in
  let group_by_match := Re.search group_by_pattern influxql_query in
  match select_match with
  | None => Ok "Error: Could not parse InfluxQL SELECT statement"
  | Some sm =>
      let* g1 := receiver (Re.group sm 1) in
      let select_clause := Py.strip g1 in
      let* g2 := receiver (Re.group sm 2) in
      let measurement := Py.strip g2 in
      let function_match := Re.search function_pattern select_clause in
      let* name_and_function :=
        match function_match with
        | Some fm =>
            let* f1 := receiver (Re.group fm 1) in
            let func_name := Py.lower f1 in
            let* f2 := receiver (Re.group fm 2) in
            let field := Py.strip_chars (dquote +:+ "'") f2 in
            let promql_function :=
              match assoc func_name func_map with
              | Some f => f
              | None => ""
              end in
            Ok (measurement +:+ "_" +:+ field, promql_function)
        | None =>
            let field := Py.strip_chars (dquote +:+ "'") select_clause in
            Ok (measurement +:+ "_" +:+ field, "")
        end in
      let* filters_and_range :=
        match where_match with
        | Some wm =>
            let* w1 := receiver (Re.group wm 1) in
            let where_clause := Py.strip w1 in
            let time_match := Re.search time_pattern where_clause in
            let* time_range :=
              match time_match with
              | Some tm =>
                  let operator := Re.group tm 1 in
                  let* time_value := container (Re.group tm 2) in
                  if Py.contains "now()" time_value
                     && Py.contains "-" time_value
                  then
                    match Re.search duration_pattern time_value with
                    | Some dm =>
                        Ok ("[" +:+ fmt (Re.group dm 1)
                                +:+ fmt (Re.group dm 2) +:+ "]")
                    | None => Ok ""
                    end
                  else Ok ""
              | None => Ok ""
              end in
            let filters :=
              map (fun m =>
                     fmt (Re.group m 1) +:+ "=" +:+ dquote
                       +:+ fmt (Re.group m 2) +:+ dquote)
                  (Re.finditer tag_pattern where_clause) in
            Ok (filters, time_range)
        | None => Ok ([], "")
        end in
      Ok (compose name_and_function.1 filters_and_range.1
                  filters_and_range.2 name_and_function.2)
  end.

Definition detect_query_type (query : string) : string :=
  if Py.startswith (Py.lower (Py.strip query)) "from"
     || Py.contains "|>" query
  then "flux"
  else if Py.startswith (Py.upper (Py.strip query)) "SELECT"
  then "influxql"
  else "unknown".

(** [force_type if force_type else detect_query_type(query)] *)
Definition query_type (query : string) (force_type : option string) : string :=
  match force_type with
  | None | Some EmptyString => detect_query_type query
  | Some t => t
  end.

Definition influx_to_promql (query : string) (force_type : option string)
  : py string :=
  let query_type := query_type query force_type in
  if String.eqb query_type "flux" then convert_flux_to_promql query
  else if String.eqb query_type "influxql" then convert_influxql_to_promql query
  else Ok "Error: Could not determine query type. Please specify using --type".

End Promql.

(** ** Sample data *)

Module Samples.
Import Converter.

Definition example_labels : gmap string string :=
  <["zone" := "eu" +:+ dquote +:+ "1"]> (<["host" := "a" +:+ backslash +:+ "b"]> ∅).

Definition up_without_help : PrometheusMetric :=
  mkMetric "up" (PyFloat.of_Z 1) "gauge" ∅ None None.

Definition up_with_help : PrometheusMetric :=
  mkMetric "up" (PyFloat.of_Z 1) "gauge" ∅ (Some "Target is up") None.

(** A record as decoded from JSON, with a parseable timestamp. *)
Definition host_record : gmap string pyval :=
  <["usage" := VFloat (PyFloat.of_decimal false 905 (-1))]>
    (<["host" := VStr "server01"]>
       (<["time" := VStr "2023-01-01T06:00:00Z"]> ∅)).

Definition cpu_record : gmap string pyval :=
  <["usage" := VStr "90.5"]> (<["time" := VStr "yesterday"]> ∅).

Definition start_csv : string :=
  "_start,_time,_measurement,_field,_value,host" +:+ newline +:+
  "2023-01-01T00:00:00Z,2023-01-01T06:00:00Z,cpu,usage_user,90.5,server01"
  +:+ newline.

Definition text_value_csv : string :=
  "_time,_measurement,_field,_value,host" +:+ newline +:+
  "2023-01-01T06:00:00Z,cpu,usage_user,n/a,server01" +:+ newline.

(** The input of [test_influx_to_prometheus] in [tests/test_main.py]. *)
Definition test_csv : string :=
  "#group,false,false,true,true,false,false,true,true,true" +:+ newline +:+
  "#datatype,string,long,dateTime:RFC3339,dateTime:RFC3339,dateTime:RFC3339,double,string,string,string"
  +:+ newline +:+
  "#default,_result,,,,,,,,," +:+ newline +:+
  ",result,table,_start,_stop,_time,_value,_field,_measurement,host"
  +:+ newline +:+
  ",,0,2023-01-01T00:00:00Z,2023-01-01T12:00:00Z,2023-01-01T06:00:00Z,90.5,usage_user,cpu,server01"
  +:+ newline +:+
  ",,0,2023-01-01T00:00:00Z,2023-01-01T12:00:00Z,2023-01-01T07:00:00Z,91.2,usage_system,cpu,server01"
  +:+ newline.

(** The output that the test (and the specification) expect. *)
Definition expected_output : string :=
  "cpu_usage_user{host=" +:+ dquote +:+ "server01" +:+ dquote
    +:+ "} 90.5 1672552800000" +:+ newline +:+
  "cpu_usage_system{host=" +:+ dquote +:+ "server01" +:+ dquote
    +:+ "} 91.2 1672556400000".

(** A CSV with no column besides the four reserved ones and [host]. *)
Definition minimal_csv : string :=
  "#datatype,dateTime:RFC3339,double,string,string,string" +:+ newline +:+
  "_time,_value,_field,_measurement,host" +:+ newline +:+
  "2023-01-01T06:00:00Z,90.5,usage_user,cpu,server01" +:+ newline +:+
  "2023-01-01T07:00:00Z,91.2,usage_system,cpu,server01" +:+ newline.

(** The queries of [tests/test_influx2promql.py]. *)
Definition influxql_query : string :=
  "SELECT " +:+ dquote +:+ "usage_user" +:+ dquote +:+ " FROM "
    +:+ dquote +:+ "cpu" +:+ dquote.

Definition flux_query : string :=
  "from(bucket: " +:+ dquote +:+ "system" +:+ dquote
    +:+ ") |> range(start: -1h) |> filter(fn: (r) => r._measurement == "
    +:+ dquote +:+ "cpu" +:+ dquote +:+ ")".

End Samples.

(** ** More sample data *)

Module MoreSamples.
Import Converter Samples.

(** The samples of [host_record] and [cpu_record] as the gauge
    [cpu_usage], with the label column [host] and the timestamp column
    [time]. *)
Definition two_samples : list PrometheusMetric :=
  [mkMetric "cpu_usage" (S754_finite false 6368371348078592 (-46)) "gauge"
     (<["host" := "server01"]> ∅) (Some "CPU usage") (Some 1672552800000);
   mkMetric "cpu_usage" (S754_finite false 6368371348078592 (-46)) "gauge"
     ∅ (Some "CPU usage") None].

(** A response with two tables: the header row comes a second time. *)
Definition two_tables_csv : string :=
  "_time,_measurement,_field,_value,host" +:+ newline +:+
  "2023-01-01T06:00:00Z,cpu,usage_user,90.5,server01" +:+ newline +:+
  newline +:+
  "_time,_measurement,_field,_value,host" +:+ newline +:+
  "2023-01-01T06:00:00Z,mem,used,512,server01" +:+ newline.

(** A record whose value is an integer beyond the range of a float. *)
Definition huge_record : gmap string pyval :=
  <["v" := VInt (- 2 ^ 1024)]> ∅.

(** A Flux query with a range, a measurement, a field, a tag filter and
    an aggregate. *)
Definition mean_flux_query : string :=
  "from(bucket: " +:+ dquote +:+ "system" +:+ dquote
    +:+ ") |> range(start: -1h) |> filter(fn: (r) => r._measurement == "
    +:+ dquote +:+ "cpu" +:+ dquote +:+ ") |> filter(fn: (r) => r._field == "
    +:+ dquote +:+ "usage" +:+ dquote +:+ ") |> filter(fn: (r) => r.host == "
    +:+ dquote +:+ "a" +:+ dquote +:+ ") |> mean()".

(** One data row whose [_value] cell is the text [v]. *)
Definition value_csv (v : string) : string :=
  "_time,_measurement,_field,_value,host" +:+ newline +:+
  "2023-01-01T06:00:00Z,cpu,usage," +:+ v +:+ ",server01" +:+ newline.

(** A text of 131073 characters, one more than the field limit of the
    CSV reader. *)
Definition long_text : string :=
  Pos.iter (String "x") EmptyString 131073.

End MoreSamples.

(** ** What the groups of a match can hold *)

Module ReClass.
Import Re.

(** The 256 characters. *)
Definition all_chars : list ascii := map ascii_of_nat (seq 0 256).

(** No character accepted by [q] satisfies [p]. *)
Definition excludes (p q : ascii -> bool) : bool :=
  forallb (fun c => negb (q c && p c)) all_chars.

(** The pattern reads no character that satisfies [p]. *)
Fixpoint reads_none (p : ascii -> bool) (r : regex) : bool :=
  match r with
  | Eps | Eos => true
  | Chr q => excludes p q
  | Seq r1 r2 | Alt r1 r2 => reads_none p r1 && reads_none p r2
  | Star _ r' | Group _ r' => reads_none p r'
  end.

(** Every group numbered [i] encloses a pattern that reads no character
    satisfying [p]. *)
Fixpoint group_reads_none (p : ascii -> bool) (i : nat) (r : regex) : bool :=
  match r with
  | Eps | Eos | Chr _ => true
  | Seq r1 r2 | Alt r1 r2 =>
      group_reads_none p i r1 && group_reads_none p i r2
  | Star _ r' => group_reads_none p i r'
  | Group j r' =>
      (if Nat.eqb j i then reads_none p r' else true)
      && group_reads_none p i r'
  end.

(** Group [i] of [caps] holds no character satisfying [p]. *)
Definition group_ok (p : ascii -> bool) (i : nat)
    (caps : gmap nat string) : Prop :=
  forall g, caps !! i = Some g -> Py.none p g.

(** No group of [caps] holds a character satisfying [t]. *)
Definition text_ok (t : ascii -> bool) (caps : gmap nat string) : Prop :=
  forall j g, caps !! j = Some g -> Py.none t g.

(** A part of a match: from the text [s] with the groups [caps] to the
    rest [s'] with the groups [caps']. *)
Definition step (p : ascii -> bool) (i : nat) (t : ascii -> bool)
    (A B : Prop) (s : string) (caps : gmap nat string)
    (s' : string) (caps' : gmap nat string) : Prop :=
  exists pre,
    s = pre +:+ s'
    /\ (A -> Py.none p pre)
    /\ (B -> group_ok p i caps -> group_ok p i caps')
    /\ (Py.none t s -> text_ok t caps -> text_ok t caps').

(** The letters that [[^FROM]] excludes under [re.IGNORECASE]. *)
Definition from_letter (c : ascii) : bool :=
  Py.one_of (Py.lower "FROM") (Py.lower_char c).

(** The characters that [[^\s)]] excludes. *)
Definition space_or_paren (c : ascii) : bool :=
  Py.is_space c || Py.one_of ")" c.

End ReClass.

(** ** The InfluxQL converter without its dead branches *)

Module PromqlPlain.
Import Promql.

(** [convert_influxql_to_promql] with the lookup in [func_map] and the
    computation of the time range left out: [promql_function] and
    [time_range] keep their initial value, the empty string. *)
Definition convert_influxql_to_promql_plain (influxql_query : string)
  : py string :=
  let select_match := Re.search select_pattern influxql_query in
  let where_match := Re.search where_pattern influxql_query in
  match select_match with
  | None => Ok "Error: Could not parse InfluxQL SELECT statement"
  | Some sm =>
      let* g1 := receiver (Re.group sm 1) in
      let select_clause := Py.strip g1 in
      let* g2 := receiver (Re.group sm 2) in
      let measurement := Py.strip g2 in
      let function_match := Re.search function_pattern select_clause in
      let* metric_name :=
        match function_match with
        | Some fm =>
            let* f2 := receiver (Re.group fm 2) in
            let field := Py.strip_chars (dquote +:+ "'") f2 in
            Ok (measurement +:+ "_" +:+ field)
        | None =>
            let field := Py.strip_chars (dquote +:+ "'") select_clause in
            Ok (measurement +:+ "_" +:+ field)
        end in
      let* filters :=
        match where_match with
        | Some wm =>
            let* w1 := receiver (Re.group wm 1) in
            let where_clause := Py.strip w1 in
            Ok (map (fun m =>
                       fmt (Re.group m 1) +:+ "=" +:+ dquote
                         +:+ fmt (Re.group m 2) +:+ dquote)
                    (Re.finditer tag_pattern where_clause))
        | None => Ok []
        end in
      Ok (compose metric_name filters "" "")
  end.

End PromqlPlain.

(** ** The parts of the result of the Flux converter *)

Module Flux.
Import Promql.

(** [metric_name]: the measurement and the field, when both filters are
    found. *)
Definition metric_name (flux_query : string) : string :=
  match Re.search measurement_pattern flux_query,
        Re.search field_pattern flux_query with
  | Some mm, Some fm => fmt (Re.group mm 1) +:+ "_" +:+ fmt (Re.group fm 1)
  | _, _ => ""
  end.

(** [filters]: the loop over the matches of [filter_pattern]. *)
Definition filters (flux_query : string) : list string :=
  flat_map
    (fun m =>
       let tag := Re.group m 1 in
       let value := Re.group m 2 in
       if bool_decide (tag = Some "_measurement")
          || bool_decide (tag = Some "_field")
       then []
       else [fmt tag +:+ "=" +:+ dquote +:+ fmt value +:+ dquote])
    (Re.finditer filter_pattern flux_query).

(** [aggregation]: the first aggregate call, through [agg_map]. *)
Definition aggregation (flux_query : string) : string :=
  match Re.search aggregate_pattern flux_query with
  | Some m =>
      match Re.group m 1 with
      | Some agg_func =>
          match assoc agg_func agg_map with
          | Some a => a
          | None => ""
          end
      | None => ""
      end
  | None => ""
  end.

End Flux.

(** * Properties *)

Module PromqlFacts.
Import Promql.

Lemma upper_S_not_lower_f c :
  Py.upper_char c = "S"%char -> Py.lower_char c <> "f"%char.
Proof.
  destruct c as [[] [] [] [] [] [] [] []]; vm_compute; congruence.
Qed.

Lemma select_not_from s :
  Py.startswith (Py.upper s) "SELECT" = true ->
  Py.startswith (Py.lower s) "from" = false.
Proof.
  destruct s as [|c s]; [discriminate|].
  unfold Py.startswith, Py.upper, Py.lower. cbn [Py.map_chars Py.prefixb].
  destruct (Ascii.eqb_spec "S" (Py.upper_char c)) as [HS|]; [|discriminate].
  intros _.
  destruct (Ascii.eqb_spec "f" (Py.lower_char c)) as [Hf|]; [|reflexivity].
  exfalso. apply (upper_S_not_lower_f c); congruence.
Qed.

(** C10. The Flux test comes first: every query containing the token
    [|>] is classified [flux], also when its trimmed text starts with
    SELECT; and [influxql] is returned exactly for the queries whose
    trimmed, uppercased text starts with SELECT and which contain no
    [|>]. *)
Theorem detect_query_type_flux_first (query : string) :
  (Py.contains "|>" query = true -> detect_query_type query = "flux") /\
  (detect_query_type query = "influxql" <->
     Py.startswith (Py.upper (Py.strip query)) "SELECT" = true /\
     Py.contains "|>" query = false).
Proof.
  unfold detect_query_type. split.
  - intros ->. rewrite orb_true_r. reflexivity.
  - split.
    + destruct (Py.startswith (Py.lower (Py.strip query)) "from"
                || Py.contains "|>" query) eqn:E; [discriminate|].
      apply orb_false_elim in E as [_ E2].
      destruct (Py.startswith (Py.upper (Py.strip query)) "SELECT");
        [auto | discriminate].
    + intros [HS HP]. rewrite HP, (select_not_from _ HS), HS. reflexivity.
Qed.

Lemma detect_query_type_flux_first_witness :
  detect_query_type "SELECT mean(x) FROM cpu |> mean()" = "flux" /\
  detect_query_type "  select usage FROM cpu" = "influxql".
Proof.
  split.
  - apply (proj1 (detect_query_type_flux_first _)). reflexivity.
  - apply (proj2 (detect_query_type_flux_first _)). split; reflexivity.
Defined.

End PromqlFacts.

(** ** Python string primitives *)

Module PyFacts.

Lemma append_cons x (a b : string) : String x a +:+ b = String x (a +:+ b).
Proof. reflexivity. Qed.

Lemma append_nil_l (a : string) : "" +:+ a = a.
Proof. reflexivity. Qed.

Lemma append_assoc (a b c : string) : (a +:+ b) +:+ c = a +:+ (b +:+ c).
Proof.
  induction a as [|x a IH]; [reflexivity|].
  now rewrite !append_cons, IH.
Qed.

Lemma append_nil_r (a : string) : a +:+ "" = a.
Proof.
  induction a as [|x a IH]; [reflexivity|].
  now rewrite append_cons, IH.
Qed.

Lemma subst_chars_app f (a b : string) :
  Py.subst_chars f (a +:+ b) = Py.subst_chars f a +:+ Py.subst_chars f b.
Proof.
  induction a as [|x a IH]; [reflexivity|].
  rewrite append_cons. cbn [Py.subst_chars]. now rewrite IH, append_assoc.
Qed.

Lemma subst_chars_ext f g s :
  (forall c, f c = g c) -> Py.subst_chars f s = Py.subst_chars g s.
Proof.
  intros E. induction s as [|x s IH]; cbn [Py.subst_chars]; [reflexivity|].
  now rewrite E, IH.
Qed.

Lemma subst_chars_compose f g s :
  Py.subst_chars g (Py.subst_chars f s)
  = Py.subst_chars (fun c => Py.subst_chars g (f c)) s.
Proof.
  induction s as [|x s IH]; cbn [Py.subst_chars]; [reflexivity|].
  now rewrite subst_chars_app, IH.
Qed.

(** Replacing a one-character pattern is a character-wise substitution. *)
Lemma replace_go_single c new n s :
  (String.length s <= n)%nat ->
  Py.replace_go n (String c "") new s
  = Py.subst_chars (fun x => if Ascii.eqb c x then new else String x "") s.
Proof.
  revert s. induction n as [|n IH]; intros [|x s] Hn; simpl in *;
    try reflexivity; try lia.
  rewrite andb_true_r.
  destruct (Ascii.eqb c x); simpl; rewrite IH by lia; reflexivity.
Qed.

Lemma replace_single c new s :
  Py.replace (String c "") new s
  = Py.subst_chars (fun x => if Ascii.eqb c x then new else String x "") s.
Proof. apply replace_go_single. lia. Qed.

Lemma list_ascii_app (a b : string) :
  list_ascii_of_string (a +:+ b)
  = list_ascii_of_string a ++ list_ascii_of_string b.
Proof.
  induction a as [|x a IH]; [reflexivity|].
  rewrite append_cons. cbn [list_ascii_of_string app]. now rewrite IH.
Qed.

Lemma list_ascii_inj (a b : string) :
  list_ascii_of_string a = list_ascii_of_string b -> a = b.
Proof.
  intros E. rewrite <- (string_of_list_ascii_of_string a),
    <- (string_of_list_ascii_of_string b). now rewrite E.
Qed.

Lemma append_inv_tail (a a' s : string) : a +:+ s = a' +:+ s -> a = a'.
Proof.
  intros E. apply list_ascii_inj.
  apply (f_equal list_ascii_of_string) in E.
  rewrite !list_ascii_app in E. now apply app_inv_tail in E.
Qed.

Lemma last_char_append (a s : string) :
  s <> "" ->
  last (list_ascii_of_string (a +:+ s)) = last (list_ascii_of_string s).
Proof.
  intros Hs. rewrite list_ascii_app, last_app.
  destruct s as [|c s]; [congruence|].
  destruct (last (list_ascii_of_string (String c s))) eqn:E; [reflexivity|].
  apply last_None in E. discriminate.
Qed.

Lemma rev_app_list (a b : string) :
  list_ascii_of_string (String.rev_app a b)
  = List.rev (list_ascii_of_string a) ++ list_ascii_of_string b.
Proof.
  revert b. induction a as [|x a IH]; intros b; [reflexivity|].
  cbn [String.rev_app list_ascii_of_string List.rev].
  rewrite IH. cbn [list_ascii_of_string]. now rewrite <- app_assoc.
Qed.

Lemma rev_list (a : string) :
  list_ascii_of_string (String.rev a) = List.rev (list_ascii_of_string a).
Proof. unfold String.rev. rewrite rev_app_list. apply app_nil_r. Qed.

Lemma rev_involutive (a : string) : String.rev (String.rev a) = a.
Proof.
  apply list_ascii_inj. rewrite !rev_list. apply List.rev_involutive.
Qed.

Lemma lstrip_by_none p s : Py.none p s -> Py.lstrip_by p s = s.
Proof.
  destruct s as [|c s]; [reflexivity|]. intros H.
  cbn [Py.lstrip_by]. rewrite (H c); [reflexivity | left; reflexivity].
Qed.

Lemma strip_by_none p s : Py.none p s -> Py.strip_by p s = s.
Proof.
  intros H. unfold Py.strip_by.
  rewrite (lstrip_by_none p s H), lstrip_by_none.
  - apply rev_involutive.
  - intros c Hc. rewrite rev_list in Hc. apply H. now apply in_rev.
Qed.

Lemma digit_not_c_space c :
  Py.is_digit c = true -> PyFloat.is_c_space c = false.
Proof.
  unfold Py.is_digit, PyFloat.is_c_space. intros H.
  apply andb_true_iff in H as [H1 H2].
  apply Z.leb_le in H1. apply Z.leb_le in H2.
  apply orb_false_iff. split.
  - apply andb_false_iff. right. apply Z.leb_gt. lia.
  - apply Z.eqb_neq. lia.
Qed.

Lemma all_digits_no_space s :
  Py.all_digits s = true -> Py.none PyFloat.is_c_space s.
Proof.
  induction s as [|c s IH]; intros H x Hx; [destruct Hx|].
  cbn [Py.all_digits] in H. apply andb_true_iff in H as [Hc Hs].
  destruct Hx as [<-|Hx]; [now apply digit_not_c_space | now apply IH].
Qed.

Lemma isdigit_cons s :
  Py.isdigit s = true ->
  exists c s', s = String c s' /\ Py.is_digit c = true
               /\ Py.all_digits s' = true /\ Py.all_digits s = true.
Proof.
  destruct s as [|c s']; [discriminate|]. cbn [Py.isdigit]. intros H.
  exists c, s'. cbn [Py.all_digits] in *.
  apply andb_true_iff in H as [Hc Hs]. rewrite Hc, Hs. auto.
Qed.

End PyFacts.

(** ** The grouped formatter *)

Module ConverterFacts.
Import Converter PyFacts Samples.

Lemma escape_label_value_simultaneous v :
  escape_label_value v = escape_simultaneous v.
Proof.
  unfold escape_label_value, escape_simultaneous, newline, dquote, backslash.
  rewrite !replace_single, !subst_chars_compose.
  apply subst_chars_ext.
  intros [[] [] [] [] [] [] [] []]; reflexivity.
Qed.

Lemma unescape_escape v : unescape (escape_simultaneous v) = v.
Proof.
  unfold escape_simultaneous.
  induction v as [|c v IH]; [reflexivity|].
  cbn [Py.subst_chars].
  destruct (Py.subst_chars escape_char v) as [|d t] eqn:E.
  - rewrite <- IH.
    destruct c as [[] [] [] [] [] [] [] []]; reflexivity.
  - rewrite <- IH.
    destruct c as [[] [] [] [] [] [] [] []]; try reflexivity;
      cbv [escape_char Ascii.eqb Bool.eqb backslash dquote String.append];
      cbn [unescape Ascii.eqb Bool.eqb]; reflexivity.
Qed.

Lemma escape_label_value_inj v1 v2 :
  escape_label_value v1 = escape_label_value v2 -> v1 = v2.
Proof.
  rewrite !escape_label_value_simultaneous. intros E.
  rewrite <- (unescape_escape v1), <- (unescape_escape v2).
  now rewrite E.
Qed.

Global Instance item_le_total : Total item_le.
Proof.
  intros a b. unfold item_le, item_leb.
  rewrite (String.compare_antisym b.1 a.1).
  destruct (String.compare a.1 b.1); simpl; auto.
  apply String.leb_total.
Qed.

Lemma item_le_keys a b :
  item_le a b -> a.1 <> b.1 -> String.ltb a.1 b.1 = true.
Proof.
  unfold item_le, item_leb, String.ltb.
  destruct (String.compare a.1 b.1) eqn:E; intros H Hne;
    [|reflexivity|discriminate].
  apply String.compare_eq_iff in E. contradiction.
Qed.

Lemma sorted_keys_strict (l : list (string * string)) :
  Sorted item_le l -> NoDup l.*1 ->
  Sorted (fun k1 k2 => String.ltb k1 k2 = true) l.*1.
Proof.
  induction 1 as [|a l Hs IH Hhd]; intros Hnd; [constructor|].
  apply NoDup_cons in Hnd as [Hnotin Hnd].
  cbn [fmap list_fmap]. constructor; [auto|].
  destruct Hhd as [|b l Hab]; constructor.
  apply item_le_keys; [exact Hab|].
  intros E. apply Hnotin. rewrite E. cbn [fmap list_fmap]. left.
Qed.

Lemma sorted_items_perm (l : gmap string string) :
  sorted_items l ≡ₚ map_to_list l.
Proof. apply merge_sort_Permutation. Qed.

Lemma sorted_items_keys (l : gmap string string) :
  Sorted (fun k1 k2 => String.ltb k1 k2 = true) (sorted_items l).*1.
Proof.
  apply sorted_keys_strict.
  - apply (Sorted_merge_sort item_le).
  - rewrite sorted_items_perm. apply NoDup_fst_map_to_list.
Qed.

(** *** Grouping *)

Lemma elem_of_first_seen l k : k ∈ first_seen l <-> k ∈ l.
Proof.
  induction l as [|a l IH]; cbn [first_seen]; [reflexivity|].
  rewrite !elem_of_cons, list_elem_of_filter, IH.
  destruct (decide (k = a)); tauto.
Qed.

Lemma NoDup_first_seen l : NoDup (first_seen l).
Proof.
  induction l as [|a l IH]; cbn [first_seen]; constructor.
  - rewrite list_elem_of_filter. tauto.
  - now apply NoDup_filter.
Qed.

Lemma first_seen_snoc l k :
  first_seen (l ++ [k])
  = if decide (k ∈ l) then first_seen l else first_seen l ++ [k].
Proof.
  induction l as [|a l IH]; cbn [first_seen app].
  - destruct (decide (k ∈ [])) as [H|_]; [inversion H | reflexivity].
  - rewrite IH. destruct (decide (k ∈ l)) as [Hin|Hnin].
    + rewrite decide_True by (now right). reflexivity.
    + rewrite filter_app. destruct (decide (k = a)) as [->|Hne].
      * rewrite decide_True by left.
        rewrite filter_cons_False by tauto.
        rewrite filter_nil, app_nil_r. reflexivity.
      * rewrite decide_False by (rewrite elem_of_cons; tauto).
        rewrite filter_cons_True by assumption. reflexivity.
Qed.

Lemma members_snoc k ms m :
  members k (ms ++ [m])
  = members k ms ++ (if decide (key m = k) then [m] else []).
Proof.
  unfold members. now rewrite filter_app.
Qed.

Lemma members_nil k ms : k ∉ map key ms -> members k ms = [].
Proof.
  intros H. unfold members. induction ms as [|m ms IH]; [reflexivity|].
  cbn [map] in H. rewrite not_elem_of_cons in H. destruct H as [H1 H2].
  rewrite filter_cons_False by congruence. auto.
Qed.

Lemma members_nonempty k ms : k ∈ map key ms -> members k ms <> [].
Proof.
  intros H. apply list_elem_of_In, in_map_iff in H as (m & E & Hm).
  intros Hnil.
  assert (Hin : m ∈ members k ms).
  { unfold members. apply list_elem_of_filter. split; [exact E|].
    now apply list_elem_of_In. }
  rewrite Hnil in Hin. inversion Hin.
Qed.

Lemma metric_groups_snoc ms m :
  metric_groups (ms ++ [m]) = group_append (key m) m (metric_groups ms).
Proof. unfold metric_groups. now rewrite fold_left_app. Qed.

Lemma group_append_spec k m ks (f : string -> list PrometheusMetric) :
  NoDup ks ->
  group_append k m (map (fun k' => (k', f k')) ks)
  = map (fun k' => (k', if decide (k' = k) then f k' ++ [m] else f k')) ks
    ++ (if decide (k ∈ ks) then [] else [(k, [m])]).
Proof.
  induction ks as [|a ks IH]; intros Hnd; cbn [map group_append app].
  - destruct (decide (k ∈ [])) as [H|_]; [inversion H | reflexivity].
  - apply NoDup_cons in Hnd as [Ha Hnd].
    destruct (String.eqb_spec a k) as [->|Hne].
    + rewrite decide_True by reflexivity.
      rewrite (decide_True (P := k ∈ k :: ks)) by left.
      rewrite app_nil_r. f_equal.
      apply map_ext_in. intros k' Hk'.
      rewrite decide_False; [reflexivity|].
      intros ->. apply Ha. now apply list_elem_of_In.
    + rewrite decide_False by assumption.
      rewrite (IH Hnd). cbn [app]. f_equal. f_equal.
      destruct (decide (k ∈ ks)) as [Hin|Hnin].
      * rewrite decide_True by (now right). reflexivity.
      * rewrite decide_False; [reflexivity|].
        rewrite elem_of_cons. intros [->|?]; tauto.
Qed.

(** The dictionary built by the first loop holds, in order of first
    occurrence, every key with the samples carrying it. *)
Lemma metric_groups_spec ms :
  metric_groups ms
  = map (fun k => (k, members k ms)) (first_seen (map key ms)).
Proof.
  induction ms as [|m ms IH] using rev_ind; [reflexivity|].
  rewrite metric_groups_snoc, IH, map_app. cbn [map].
  rewrite first_seen_snoc, group_append_spec by apply NoDup_first_seen.
  destruct (decide (key m ∈ map key ms)) as [Hin|Hnin].
  - rewrite decide_True by (now apply elem_of_first_seen).
    rewrite app_nil_r. apply map_ext. intros k. rewrite members_snoc.
    destruct (decide (k = key m)) as [->|Hne].
    + now rewrite decide_True.
    + rewrite decide_False by congruence. now rewrite app_nil_r.
  - rewrite decide_False by (now rewrite elem_of_first_seen).
    rewrite map_app. cbn [map]. f_equal.
    + apply map_ext_in. intros k Hk. rewrite members_snoc.
      destruct (decide (k = key m)) as [->|Hne].
      * exfalso. apply Hnin. apply elem_of_first_seen.
        now apply list_elem_of_In.
      * rewrite decide_False by congruence. now rewrite app_nil_r.
    + rewrite members_snoc, decide_True by reflexivity.
      now rewrite (members_nil _ _ Hnin).
Qed.

Section Grouping.
Variable repr_float : spec_float -> string.

Lemma format_group_block g :
  g <> [] -> format_group repr_float g = Ok (group_block repr_float g).
Proof. destruct g; [congruence | reflexivity]. Qed.

Lemma format_groups_map ks (f : string -> list PrometheusMetric) :
  (forall k, k ∈ ks -> f k <> []) ->
  format_groups repr_float (map (fun k => (k, f k)) ks)
  = Ok (concat (map (fun k => group_block repr_float (f k)) ks)).
Proof.
  induction ks as [|a ks IH]; intros H; [reflexivity|].
  cbn [map format_groups concat].
  rewrite format_group_block by (apply H; left).
  cbn [py_bind]. rewrite IH by (intros; apply H; now right).
  reflexivity.
Qed.

Lemma format_metrics_lines ms :
  format_metrics repr_float ms
  = Ok (match ms with
        | [] => ""
        | _ => Py.join newline (grouped_lines repr_float ms)
        end).
Proof.
  destruct ms as [|m ms]; [reflexivity|].
  unfold format_metrics. rewrite metric_groups_spec, format_groups_map.
  - reflexivity.
  - intros k Hk. apply members_nonempty. now apply elem_of_first_seen.
Qed.
End Grouping.

Lemma sample_line_in_output repr_float ms m :
  m ∈ ms -> sample_line repr_float m ∈ grouped_lines repr_float ms.
Proof.
  intros Hm. unfold grouped_lines.
  apply list_elem_of_In, in_concat.
  exists (group_block repr_float (members (key m) ms)). split.
  - apply in_map_iff. exists (key m). split; [reflexivity|].
    apply list_elem_of_In, elem_of_first_seen, list_elem_of_In, in_map.
    now apply list_elem_of_In.
  - assert (Hin : m ∈ members (key m) ms).
    { unfold members. apply list_elem_of_filter. split; [reflexivity|exact Hm]. }
    destruct (members (key m) ms) as [|first g] eqn:E; [inversion Hin|].
    cbn [group_block]. apply list_elem_of_In.
    rewrite elem_of_app. right. rewrite elem_of_app. right.
    rewrite elem_of_app. left.
    apply list_elem_of_In, in_map, list_elem_of_In. exact Hin.
Qed.

(** C3. The grouped formatter renders the labels of every sample in
    sorted order and escaped: for a sample with a non-empty label set
    among the samples given to [format_metrics], the output holds the
    line made of the name, the part [{k1="v1",...}] over the items of
    the label map in strictly ascending key order, the value and the
    timestamp if any; each label value in it is escaped by the three
    replacements taken in the source's order (backslash, double quote,
    newline), which amounts to one simultaneous substitution, so nothing
    is escaped twice; the escaping is injective; and a value holding a
    double quote, a backslash and a newline renders them as backslash
    quote, two backslashes and backslash n. *)
Theorem labels_sorted_and_escaped (repr_float : spec_float -> string)
    (metrics : list PrometheusMetric) (m : PrometheusMetric) :
  m ∈ metrics ->
  labels m <> ∅ ->
  (exists lines,
      format_metrics repr_float metrics = Ok (Py.join newline lines)
      /\ (name m +:+ "{"
            +:+ Py.join ","
                  (map (fun kv =>
                          kv.1 +:+ "=" +:+ dquote
                            +:+ Py.replace newline (backslash +:+ "n")
                                  (Py.replace dquote (backslash +:+ dquote)
                                     (Py.replace backslash
                                        (backslash +:+ backslash) kv.2))
                            +:+ dquote)
                       (sorted_items (labels m)))
            +:+ "}" +:+ " " +:+ repr_float (value m)
            +:+ match timestamp m with
                | Some t => " " +:+ str_of_Z t
                | None => ""
                end) ∈ lines)
  /\ sorted_items (labels m) ≡ₚ map_to_list (labels m)
  /\ Sorted (fun k1 k2 => String.ltb k1 k2 = true) (sorted_items (labels m)).*1
  /\ (forall v,
        Py.replace newline (backslash +:+ "n")
          (Py.replace dquote (backslash +:+ dquote)
             (Py.replace backslash (backslash +:+ backslash) v))
        = escape_simultaneous v)
  /\ (forall v1 v2, escape_label_value v1 = escape_label_value v2 -> v1 = v2)
  /\ escape_label_value
       ("a" +:+ dquote +:+ "b" +:+ backslash +:+ "c" +:+ newline +:+ "d")
     = "a" +:+ backslash +:+ dquote +:+ "b" +:+ backslash +:+ backslash
         +:+ "c" +:+ backslash +:+ "n" +:+ "d".
Proof.
  intros Hm Hne. split; [|repeat split].
  - exists (grouped_lines repr_float metrics). split.
    + rewrite format_metrics_lines.
      destruct metrics; [inversion Hm | reflexivity].
    + pose proof (sample_line_in_output repr_float metrics m Hm) as Hin.
      unfold sample_line, labels_str in Hin.
      destruct (decide (labels m = ∅)); [contradiction|].
      unfold format_label, escape_label_value in Hin.
      destruct (timestamp m) as [t|];
        rewrite ?append_assoc, ?append_nil_r in *; exact Hin.
  - apply sorted_items_perm.
  - apply sorted_items_keys.
  - apply escape_label_value_simultaneous.
  - apply escape_label_value_inj.
Qed.

Lemma labels_sorted_and_escaped_witness :
  exists lines,
    format_metrics PyFloat.repr
      [up_with_help;
       mkMetric "m" (S754_zero false) "gauge" example_labels None (Some 7)]
    = Ok (Py.join newline lines)
    /\ ("m{host=" +:+ dquote +:+ "a" +:+ backslash +:+ backslash +:+ "b"
          +:+ dquote +:+ ",zone=" +:+ dquote +:+ "eu" +:+ backslash
          +:+ dquote +:+ "1" +:+ dquote +:+ "} 0.0 7") ∈ lines.
Proof.
  destruct (labels_sorted_and_escaped PyFloat.repr
              [up_with_help;
               mkMetric "m" (S754_zero false) "gauge" example_labels None
                 (Some 7)]
              (mkMetric "m" (S754_zero false) "gauge" example_labels None
                 (Some 7)))
    as [(lines & Hf & Hin) _].
  - right. left.
  - vm_compute. discriminate.
  - exists lines. split; [exact Hf|].
    vm_compute in Hin. vm_compute. exact Hin.
Defined.

(** With the four valid types the dictionary key determines the pair
    [(name, type)]. *)
Lemma key_inj_valid_types m m' :
  type m ∈ VALID_TYPES -> type m' ∈ VALID_TYPES ->
  key m = key m' -> name m = name m' /\ type m = type m'.
Proof.
  unfold key, VALID_TYPES. intros Ht Ht' E.
  repeat (apply elem_of_cons in Ht as [Ht|Ht]);
    try (now apply elem_of_nil in Ht);
    repeat (apply elem_of_cons in Ht' as [Ht'|Ht']);
    try (now apply elem_of_nil in Ht');
    rewrite Ht, Ht' in E |- *;
    first [ split; [exact (append_inv_tail _ _ _ E) | reflexivity]
          | exfalso; apply (f_equal (fun s => last (list_ascii_of_string s))) in E;
            rewrite !last_char_append in E by discriminate;
            vm_compute in E; discriminate ].
Qed.

(** C2 (amended). For every list of samples the formatter's output is
    the concatenation, over the keys [name:type] in order of first
    occurrence, of one block per key: a HELP line exactly when the first
    sample of the group has non-empty help text (with that text), one
    TYPE line, the samples of the group in input order, a blank line.
    Samples sharing [(name, type)] share the key, hence the group; with
    valid types the key determines the pair. *)
Theorem format_metrics_grouped (repr_float : spec_float -> string)
    (ms : list PrometheusMetric) :
  format_metrics repr_float ms
    = Ok (match ms with
          | [] => ""
          | _ => Py.join newline (grouped_lines repr_float ms)
          end)
  /\ grouped_lines repr_float ms
     = concat (map (fun k => group_block repr_float (members k ms))
                   (first_seen (map key ms)))
  /\ NoDup (first_seen (map key ms))
  /\ (forall m, m ∈ ms ->
        key m ∈ first_seen (map key ms) /\ m ∈ members (key m) ms)
  /\ (forall k m, m ∈ members k ms <-> m ∈ ms /\ key m = k)
  /\ (forall m m', name m = name m' -> type m = type m' -> key m = key m')
  /\ (forall m m', type m ∈ VALID_TYPES -> type m' ∈ VALID_TYPES ->
        key m = key m' -> name m = name m' /\ type m = type m').
Proof.
  split; [apply format_metrics_lines|].
  split; [reflexivity|].
  split; [apply NoDup_first_seen|].
  split; [|split; [|split]].
  - intros m Hm. split.
    + apply elem_of_first_seen, list_elem_of_In, in_map.
      now apply list_elem_of_In.
    + unfold members. apply list_elem_of_filter. auto.
  - intros k m. unfold members. rewrite list_elem_of_filter. tauto.
  - intros m m' Hn Ht. unfold key. now rewrite Hn, Ht.
  - apply key_inj_valid_types.
Qed.

Lemma format_metrics_grouped_witness :
  format_metrics PyFloat.repr [up_with_help; up_without_help]
  = Ok ("# HELP up Target is up" +:+ newline +:+ "# TYPE up gauge" +:+ newline
        +:+ "up 1.0" +:+ newline +:+ "up 1.0" +:+ newline)
  /\ key up_with_help = key up_without_help.
Proof.
  pose proof (format_metrics_grouped PyFloat.repr
                [up_with_help; up_without_help]) as (H & _ & _ & _ & _ & Hk & _).
  split.
  - rewrite H. vm_compute. reflexivity.
  - apply Hk; reflexivity.
Defined.

(** The output on a group whose first sample has no help text while a
    later one has: no HELP line, whatever the float printer. *)
Lemma format_metrics_help_from_first_only repr_float :
  format_metrics repr_float [up_without_help; up_with_help]
  = Ok ("# TYPE up gauge" +:+ newline
        +:+ "up " +:+ repr_float (PyFloat.of_Z 1) +:+ newline
        +:+ "up " +:+ repr_float (PyFloat.of_Z 1) +:+ newline).
Proof.
  vm_compute. reflexivity.
Qed.

(** C2 as stated fails: a HELP line is not emitted for a group in which
    only a later sample carries help text. *)
Lemma help_of_later_sample_is_dropped :
  ~ (forall (repr_float : spec_float -> string) (ms : list PrometheusMetric),
       format_metrics repr_float ms
       = Ok (match ms with
             | [] => ""
             | _ => Py.join newline (claimed_lines repr_float ms)
             end)).
Proof.
  intros H.
  specialize (H PyFloat.repr [up_without_help; up_with_help]).
  vm_compute in H. discriminate.
Qed.

End ConverterFacts.

(** ** Floats: integers below [2^53] are handled exactly *)

Module PyFloatFacts.
Import PyFloat.

Lemma digits2_size p : digits2_pos p = Pos.size p.
Proof. induction p; cbn; congruence. Qed.

Lemma Zdigits2_log2 z : 0 < z -> Zdigits2 z = Z.log2 z + 1.
Proof.
  destruct z as [|p|p]; try lia. intros _. cbn [Zdigits2].
  rewrite digits2_size. destruct p; cbn; lia.
Qed.

Lemma iter_pos_nat {A} (f : A -> A) p x :
  SpecFloat.iter_pos f p x = Nat.iter (Pos.to_nat p) f x.
Proof.
  revert x. induction p as [p IH|p IH|]; intros x; cbn [SpecFloat.iter_pos].
  - rewrite !IH, Pos2Nat.inj_xI, <- Nat.iter_succ_r.
    replace (S (2 * Pos.to_nat p)) with (Pos.to_nat p + S (Pos.to_nat p))%nat
      by lia.
    now rewrite Nat.iter_add.
  - rewrite !IH, Pos2Nat.inj_xO.
    replace (2 * Pos.to_nat p)%nat with (Pos.to_nat p + Pos.to_nat p)%nat
      by lia.
    now rewrite Nat.iter_add.
  - reflexivity.
Qed.

Lemma shr_1_double z :
  0 < z ->
  shr_1 (Build_shr_record (2 * z) false false) = Build_shr_record z false false.
Proof. destruct z; try lia. reflexivity. Qed.

Lemma shr_iter_exact (k : nat) z :
  0 < z ->
  Nat.iter k shr_1 (Build_shr_record (z * 2 ^ Z.of_nat k) false false)
  = Build_shr_record z false false.
Proof.
  intros Hz. induction k as [|k IH].
  - cbn [Nat.iter]. change (Z.of_nat 0) with 0.
    now rewrite Z.pow_0_r, Z.mul_1_r.
  - rewrite Nat.iter_succ_r.
    replace (z * 2 ^ Z.of_nat (S k)) with (2 * (z * 2 ^ Z.of_nat k))
      by (rewrite Nat2Z.inj_succ, Z.pow_succ_r by lia; ring).
    rewrite shr_1_double; [exact IH|].
    apply Z.mul_pos_pos; [lia | apply Z.pow_pos_nonneg; lia].
Qed.

(** Shifting a mantissa [n * 2^t] of more than 53 bits down to 53 bits
    loses nothing when [n] itself has at most 53 bits. *)
Lemma shr_fexp_exact n t e :
  0 < n -> 0 <= t ->
  let k := Z.log2 n + 1 + t - prec in
  0 <= k <= t -> emin prec emax <= e + k ->
  shr_fexp prec emax (n * 2 ^ t) e loc_Exact
  = (Build_shr_record (n * 2 ^ (t - k)) false false, e + k).
Proof.
  intros Hn Ht k Hk He. unfold shr_fexp.
  rewrite Zdigits2_log2
    by (apply Z.mul_pos_pos; [lia | apply Z.pow_pos_nonneg; lia]).
  rewrite Z.log2_mul_pow2 by lia.
  unfold fexp. fold k.
  replace (Z.max (t + Z.log2 n + 1 + e - prec) (emin prec emax) - e) with k
    by (unfold k in *; lia).
  unfold shr. cbn [shr_record_of_loc].
  destruct k as [|p|p] eqn:Ek; [| |lia].
  - rewrite Z.sub_0_r, Z.add_0_r. reflexivity.
  - rewrite iter_pos_nat.
    replace (n * 2 ^ t) with ((n * 2 ^ (t - Z.pos p)) * 2 ^ Z.of_nat (Pos.to_nat p)).
    + rewrite shr_iter_exact; [reflexivity|].
      apply Z.mul_pos_pos; [lia | apply Z.pow_pos_nonneg; lia].
    + rewrite positive_nat_Z, <- Z.mul_assoc, <- Z.pow_add_r by lia.
      f_equal. f_equal. lia.
Qed.

Lemma round_aux_exact n t e :
  0 < n -> 0 <= t ->
  let k := Z.log2 n + 1 + t - prec in
  0 <= k <= t -> emin prec emax <= e + k <= emax - prec ->
  binary_round_aux prec emax false (n * 2 ^ t) e loc_Exact
  = S754_finite false (Z.to_pos (n * 2 ^ (t - k))) (e + k).
Proof.
  intros Hn Ht k Hk He. unfold binary_round_aux.
  rewrite (shr_fexp_exact n t e) by (fold k; lia). fold k.
  cbn [shr_m loc_of_shr_record round_nearest_even].
  rewrite (shr_fexp_exact n (t - k) (e + k)) by (unfold k in *; lia).
  replace (Z.log2 n + 1 + (t - k) - prec) with 0 by (unfold k; lia).
  rewrite Z.sub_0_r, Z.add_0_r. cbn [shr_m].
  assert (Hpos : 0 < n * 2 ^ (t - k)) by (apply Z.mul_pos_pos; [|apply Z.pow_pos_nonneg]; lia).
  destruct (n * 2 ^ (t - k)) as [|m|m] eqn:Em; try lia.
  destruct (Z.leb_spec (e + k) (emax - prec)); [reflexivity | lia].
Qed.

Lemma Pos_iter_xO p q : Z.pos (Pos.iter xO p q) = Z.pos p * 2 ^ Z.pos q.
Proof.
  induction q as [|q IH] using Pos.peano_ind.
  - cbn [Pos.iter]. lia.
  - rewrite Pos.iter_succ, Pos2Z.inj_xO, IH, Pos2Z.inj_succ, Z.pow_succ_r
      by lia. ring.
Qed.

Lemma log2_below n b : 0 < n -> n < 2 ^ b -> Z.log2 n + 1 <= b.
Proof.
  intros Hn Hb.
  assert (0 <= b).
  { destruct (Z.leb_spec 0 b); [assumption|].
    rewrite Z.pow_neg_r in Hb by lia. lia. }
  apply Z.log2_lt_pow2 in Hb; lia.
Qed.

(** [float(n)] is exact below [2^53]. *)
Lemma of_Z_exact n : 0 < n -> n < 2 ^ prec -> of_Z n = exact n.
Proof.
  intros Hn Hb. pose proof (log2_below n prec Hn Hb) as Hd.
  pose proof (Z.log2_nonneg n) as Hl.
  destruct n as [|p|p]; try lia.
  unfold of_Z, exact, binary_normalize, binary_round, shl_align.
  change (Z.pos (digits2_pos p)) with (Zdigits2 (Z.pos p)).
  rewrite Zdigits2_log2 by lia.
  unfold fexp.
  replace (Z.max (Z.log2 (Z.pos p) + 1 + 0 - prec) (emin prec emax))
    with (Z.log2 (Z.pos p) + 1 - prec) by (unfold emin, prec, emax in *; lia).
  destruct (Z.log2 (Z.pos p) + 1 - prec - 0) as [|q|q] eqn:Eq; try lia.
  - replace (Z.pos p) with (Z.pos p * 2 ^ 0) at 1 by (rewrite Z.pow_0_r; lia).
    rewrite round_aux_exact by (unfold emin, prec, emax in *; lia).
    replace (Z.log2 (Z.pos p) + 1 + 0 - prec) with 0 by lia.
    replace (prec - (Z.log2 (Z.pos p) + 1)) with 0 by lia.
    f_equal; lia.
  - rewrite Pos_iter_xO.
    rewrite round_aux_exact by (unfold emin, prec, emax in *; lia).
    replace (Z.log2 (Z.pos p) + 1 + Z.pos q - prec) with 0 by lia.
    replace (prec - (Z.log2 (Z.pos p) + 1)) with (Z.pos q) by lia.
    f_equal; lia.
Qed.

Lemma exact_mantissa n :
  0 < n -> n < 2 ^ prec ->
  Z.pos (Z.to_pos (n * 2 ^ (prec - (Z.log2 n + 1))))
  = n * 2 ^ (prec - (Z.log2 n + 1)).
Proof.
  intros Hn Hb. apply Z2Pos.id.
  apply Z.mul_pos_pos; [lia|]. apply Z.pow_pos_nonneg; [lia|].
  pose proof (log2_below n prec Hn Hb). lia.
Qed.

(** The product of two exactly held integers is exact when it is below
    [2^53]. *)
Lemma mul_exact a b :
  0 < a -> 0 < b -> a * b < 2 ^ prec ->
  mul (exact a) (exact b) = exact (a * b).
Proof.
  intros Ha Hb Hab.
  assert (Ha' : a < 2 ^ prec) by nia.
  assert (Hb' : b < 2 ^ prec) by nia.
  assert (Hpos : 0 < a * b) by nia.
  pose proof (log2_below a prec Ha Ha').
  pose proof (log2_below b prec Hb Hb').
  pose proof (log2_below (a * b) prec Hpos Hab).
  pose proof (Z.log2_mul_below a b Ha Hb).
  pose proof (Z.log2_nonneg a). pose proof (Z.log2_nonneg b).
  unfold mul, exact, SFmul. cbn [xorb].
  rewrite Pos2Z.inj_mul, !exact_mantissa by assumption.
  replace (a * 2 ^ (prec - (Z.log2 a + 1)) * (b * 2 ^ (prec - (Z.log2 b + 1))))
    with (a * b * 2 ^ ((prec - (Z.log2 a + 1)) + (prec - (Z.log2 b + 1))))
    by (rewrite Z.pow_add_r by lia; ring).
  rewrite round_aux_exact by (unfold emin, prec, emax in *; lia).
  f_equal; [f_equal; f_equal; f_equal|]; lia.
Qed.

Lemma to_int_exact n : 0 < n -> n < 2 ^ prec -> to_int (exact n) = Ok n.
Proof.
  intros Hn Hb. pose proof (log2_below n prec Hn Hb).
  unfold to_int, exact. rewrite exact_mantissa by assumption.
  f_equal.
  destruct (Z.leb_spec 0 (Z.log2 n + 1 - prec)).
  - replace (prec - (Z.log2 n + 1)) with 0 by lia.
    replace (Z.log2 n + 1 - prec) with 0 by lia.
    rewrite Z.pow_0_r. lia.
  - replace (- (Z.log2 n + 1 - prec)) with (prec - (Z.log2 n + 1)) by lia.
    apply Z.div_mul. apply Z.pow_nonzero; lia.
Qed.

(** Seconds to milliseconds: [int(float(n) * 1000)] is [n * 1000] for
    every integer [n] with [0 <= n] and [n * 1000 < 2^53]. *)
Lemma seconds_to_milliseconds n :
  0 <= n -> n * 1000 < 2 ^ prec ->
  to_int (mul (of_Z n) (of_Z 1000)) = Ok (n * 1000).
Proof.
  intros Hn Hb.
  destruct (Z.eq_dec n 0) as [->|Hne]; [reflexivity|].
  rewrite (of_Z_exact n), (of_Z_exact 1000) by (try reflexivity; lia).
  rewrite mul_exact by lia.
  apply to_int_exact; lia.
Qed.

(** *** [float] of a string of digits *)

Lemma digits_go_all s acc cnt :
  Py.all_digits s = true ->
  digits_go s acc cnt
  = (Py.int_of_digits_go s acc, cnt + Z.of_nat (String.length s), "").
Proof.
  revert acc cnt. induction s as [|c s IH]; intros acc cnt H.
  - cbn. now rewrite Z.add_0_r.
  - cbn [Py.all_digits] in H. apply andb_true_iff in H as [Hc Hs].
    cbn [digits_go Py.int_of_digits_go String.length]. rewrite Hc.
    rewrite IH by assumption. unfold digit_val. do 2 f_equal. lia.
Qed.

Lemma sign_digit c s :
  Py.is_digit c = true -> sign (String c s) = (false, String c s).
Proof.
  intros H. destruct c as [[] [] [] [] [] [] [] []];
    vm_compute in H; try discriminate H; reflexivity.
Qed.

Lemma not_keyword_digit c s :
  Py.is_digit c = true ->
  String.eqb (Py.lower (String c s)) "inf"
  || String.eqb (Py.lower (String c s)) "infinity" = false
  /\ String.eqb (Py.lower (String c s)) "nan" = false.
Proof.
  intros H. destruct c as [[] [] [] [] [] [] [] []];
    vm_compute in H; try discriminate H; split; reflexivity.
Qed.

Lemma number_digits c s :
  Py.is_digit c = true -> Py.all_digits s = true ->
  number (String c s) = Some (Py.int_of_digits (String c s), 0, "").
Proof.
  intros Hc Hs.
  assert (E : number (String c s)
              = match digitpart (String c s) 0 with
                | Some (m, _, String "." rest) =>
                    match digitpart rest m with
                    | Some (m', k, rest') => Some (m', k, rest')
                    | None => Some (m, 0, rest)
                    end
                | Some (m, _, rest) => Some (m, 0, rest)
                | None => None
                end).
  { destruct c as [[] [] [] [] [] [] [] []];
      vm_compute in Hc; try discriminate Hc; reflexivity. }
  rewrite E. unfold digitpart. rewrite Hc, digits_go_all by assumption.
  reflexivity.
Qed.

Lemma of_decimal_integer m : 0 <= m -> of_decimal false m 0 = of_Z m.
Proof.
  intros Hm. unfold of_decimal, of_Z.
  destruct (Z.eqb_spec m 0) as [->|Hne]; [reflexivity|].
  cbn [Z.leb Z.compare]. now rewrite Z.pow_0_r, Z.mul_1_r.
Qed.

Lemma int_of_digits_go_bounds s acc :
  Py.all_digits s = true -> 0 <= acc ->
  0 <= Py.int_of_digits_go s acc
       < (acc + 1) * 10 ^ Z.of_nat (String.length s).
Proof.
  revert acc. induction s as [|c s IH]; intros acc H Hacc.
  - cbn [Py.int_of_digits_go String.length]. change (Z.of_nat 0) with 0.
    rewrite Z.pow_0_r. lia.
  - cbn [Py.all_digits] in H. apply andb_true_iff in H as [Hc Hs].
    unfold Py.is_digit in Hc. apply andb_true_iff in Hc as [H1 H2].
    apply Z.leb_le in H1. apply Z.leb_le in H2.
    cbn [Py.int_of_digits_go String.length].
    specialize (IH (acc * 10 + (Py.code c - 48)) Hs ltac:(lia)).
    rewrite Nat2Z.inj_succ, Z.pow_succ_r by lia.
    pose proof (Z.pow_pos_nonneg 10 (Z.of_nat (String.length s))
                  ltac:(lia) ltac:(lia)).
    nia.
Qed.

Lemma int_of_digits_bounds s :
  Py.all_digits s = true ->
  0 <= Py.int_of_digits s < 10 ^ Z.of_nat (String.length s).
Proof.
  intros H. pose proof (int_of_digits_go_bounds s 0 H ltac:(lia)).
  unfold Py.int_of_digits. lia.
Qed.

(** [float(s)] for a non-empty string of digits is the float of the
    number they write. *)
Lemma of_string_digits s :
  Py.isdigit s = true -> of_string s = Ok (of_Z (Py.int_of_digits s)).
Proof.
  intros H. destruct (PyFacts.isdigit_cons s H) as (c & s' & -> & Hc & Hs & Hall).
  unfold of_string.
  rewrite PyFacts.strip_by_none by (now apply PyFacts.all_digits_no_space).
  unfold floatvalue. rewrite sign_digit by assumption.
  destruct (not_keyword_digit c s' Hc) as [-> ->].
  unfold floatnumber. rewrite number_digits by assumption.
  cbn [exponent]. rewrite Z.sub_0_r.
  rewrite of_decimal_integer; [reflexivity|].
  apply int_of_digits_bounds. assumption.
Qed.

End PyFloatFacts.

(** ** [convert_data]: timestamps that cannot be parsed *)

Module ConvertFacts.
Import Converter Samples.

Section Timestamp.
Context `{DatetimeLib}.
Variable repr_float : spec_float -> string.

Lemma convert_timestamp_unparseable column record s :
  record !! column = Some (VStr s) ->
  fromisoformat (Py.replace "Z" "+00:00" s) = Raise ValueError ->
  convert_timestamp repr_float (Some column) record = Ok None.
Proof.
  intros Hr Hiso. unfold convert_timestamp.
  destruct column as [|c column]; [reflexivity|].
  rewrite Hr. unfold iso_milliseconds. cbn [py_str]. now rewrite Hiso.
Qed.

(** The same for a whole batch: the conversion of records whose
    timestamps are all unparseable strings is the conversion without a
    timestamp column. *)
Lemma convert_data_unparseable_timestamps data metric_name metric_type
    value_column label_columns help_text timestamp_column :
  (forall record, record ∈ data ->
     exists s, record !! timestamp_column = Some (VStr s)
               /\ fromisoformat (Py.replace "Z" "+00:00" s) = Raise ValueError) ->
  convert_data repr_float data metric_name metric_type value_column
    label_columns help_text (Some timestamp_column)
  = convert_data repr_float data metric_name metric_type value_column
      label_columns help_text None.
Proof.
  intros Hall. unfold convert_data.
  destruct (negb (bool_decide (metric_type ∈ VALID_TYPES))); [reflexivity|].
  induction data as [|record data IH]; [reflexivity|].
  cbn [convert_records].
  destruct (Hall record) as (s & Hr & Hiso); [left|].
  unfold convert_record at 1 3.
  rewrite (convert_timestamp_unparseable _ _ _ Hr Hiso).
  rewrite IH; [reflexivity|].
  intros r Hin. apply Hall. now right.
Qed.
End Timestamp.

(** The grouped path end to end on one record. *)
Example grouped_pipeline :
  (let* metrics :=
     convert_data PyFloat.repr [host_record] "cpu_usage" "gauge" "usage"
       (Some ["host"]) (Some "CPU usage") (Some "time") in
   format_metrics PyFloat.repr metrics)
  = Ok ("# HELP cpu_usage CPU usage" +:+ newline
        +:+ "# TYPE cpu_usage gauge" +:+ newline
        +:+ "cpu_usage{host=" +:+ dquote +:+ "server01" +:+ dquote
        +:+ "} 90.5 1672552800000" +:+ newline).
Proof. vm_compute. reflexivity. Qed.

End ConvertFacts.

(** ** The legacy CSV path *)

Module LegacyFacts.
Import Legacy PyFacts Samples.

Lemma dict_get_set k v d h :
  dict_get h (dict_set k v d) = if String.eqb k h then Some v else dict_get h d.
Proof.
  induction d as [|[k' v'] d IH]; cbn [dict_set dict_get].
  - destruct (String.eqb k h); reflexivity.
  - destruct (String.eqb_spec k' k) as [->|Hne]; cbn [dict_get].
    + destruct (String.eqb k h); reflexivity.
    + rewrite IH. destruct (String.eqb_spec k' h) as [->|Hne'].
      * apply String.eqb_neq in Hne. rewrite String.eqb_sym in Hne.
        now rewrite Hne.
      * reflexivity.
Qed.

(** Keys already present stay present. *)
Lemma extract_tags_keeps headers row tags h :
  is_Some (dict_get h tags) ->
  is_Some (dict_get h (extract_tags headers row tags)).
Proof.
  revert row tags.
  induction headers as [|hh hs IH]; intros [|c cs] tags Hs;
    cbn [extract_tags]; try assumption.
  apply IH.
  destruct (negb (Py.startswith hh "_") && negb (String.eqb c ""));
    [|assumption].
  rewrite dict_get_set. destruct (String.eqb hh h); [eauto | assumption].
Qed.

(** A header that does not occur leaves its key untouched. *)
Lemma extract_tags_other headers row tags h :
  h ∉ headers ->
  dict_get h (extract_tags headers row tags) = dict_get h tags.
Proof.
  revert row tags.
  induction headers as [|hh hs IH]; intros [|c cs] tags Hn;
    cbn [extract_tags]; try reflexivity.
  apply not_elem_of_cons in Hn as [Hne Hn].
  rewrite IH by assumption.
  destruct (negb (Py.startswith hh "_") && negb (String.eqb c ""));
    [|reflexivity].
  rewrite dict_get_set.
  destruct (String.eqb_spec hh h); [congruence | reflexivity].
Qed.

Lemma extract_tags_present headers row tags i h c :
  headers !! i = Some h -> row !! i = Some c ->
  Py.startswith h "_" = false -> c <> "" ->
  exists v, dict_get h (extract_tags headers row tags) = Some v
            /\ (NoDup headers -> v = c).
Proof.
  revert row tags i.
  induction headers as [|hh hs IH]; intros [|c' cs] tags [|i] Hh Hc Hu Hne;
    try discriminate; cbn [extract_tags].
  - injection Hh as ->. injection Hc as ->.
    rewrite Hu. apply String.eqb_neq in Hne. rewrite Hne. cbn [negb andb].
    destruct (extract_tags_keeps hs cs (dict_set h c tags) h) as [v Hv].
    { rewrite dict_get_set, String.eqb_refl. eauto. }
    exists v. split; [exact Hv|].
    intros Hnd. apply NoDup_cons in Hnd as [Hnotin _].
    rewrite extract_tags_other, dict_get_set, String.eqb_refl in Hv
      by assumption.
    congruence.
  - cbn [lookup list_lookup] in Hh, Hc.
    destruct (IH cs (if negb (Py.startswith hh "_") && negb (String.eqb c' "")
                     then dict_set hh c' tags else tags) i Hh Hc Hu Hne)
      as [v [Hv Hnd]].
    exists v. split; [exact Hv|].
    intros Hnd'. apply Hnd. now apply NoDup_cons in Hnd' as [_ ?].
Qed.

Lemma extract_tags_origin headers row tags h v :
  dict_get h (extract_tags headers row tags) = Some v ->
  dict_get h tags = Some v
  \/ exists i, headers !! i = Some h /\ row !! i = Some v
               /\ v <> "" /\ Py.startswith h "_" = false.
Proof.
  revert row tags.
  induction headers as [|hh hs IH]; intros [|c cs] tags Hv;
    cbn [extract_tags] in Hv; auto.
  apply IH in Hv as [Hv | (i & ? & ? & ? & ?)].
  - destruct (negb (Py.startswith hh "_")) eqn:Hu; cbn [andb] in Hv; auto.
    destruct (String.eqb_spec c "") as [->|Hne]; cbn [negb] in Hv; auto.
    rewrite dict_get_set in Hv.
    destruct (String.eqb_spec hh h) as [->|]; auto.
    injection Hv as ->. right. exists 0%nat.
    apply negb_true_iff in Hu. auto.
  - right. exists (S i). auto.
Qed.

(** C4 (amended). In a data row that is kept, every header that does not
    begin with an underscore and whose cell is present and non-empty
    becomes a tag of the emitted record under that header (with that cell
    as value when header names are distinct); a header that begins with
    an underscore, reserved or not (such as _start or _stop), never
    becomes a tag; and the record has no other tags. *)
Theorem tags_of_row (headers : list string)
    (time_idx measurement_idx field_idx value_idx : nat)
    (row : list string) (it : item) :
  parse_row headers time_idx measurement_idx field_idx value_idx row = Some it ->
  (forall i h c,
      headers !! i = Some h -> row !! i = Some c ->
      Py.startswith h "_" = false -> c <> "" ->
      exists v, dict_get h (tags it) = Some v /\ (NoDup headers -> v = c))
  /\ (forall h, Py.startswith h "_" = true -> dict_get h (tags it) = None)
  /\ (forall h v,
        dict_get h (tags it) = Some v ->
        exists i, headers !! i = Some h /\ row !! i = Some v
                  /\ v <> "" /\ Py.startswith h "_" = false).
Proof.
  unfold parse_row. intros Hp.
  destruct row as [|c cs]; [discriminate|].
  destruct (_ <? _)%nat; [discriminate|].
  injection Hp as <-. cbn [tags].
  assert (Horigin : forall h v,
             dict_get h (extract_tags headers (c :: cs) []) = Some v ->
             exists i, headers !! i = Some h /\ (c :: cs) !! i = Some v
                       /\ v <> "" /\ Py.startswith h "_" = false).
  { intros h v Hv. apply extract_tags_origin in Hv as [Hv|Hv];
      [discriminate | exact Hv]. }
  split; [|split].
  - intros i h c0 Hh Hc Hu Hne. now apply (extract_tags_present _ _ _ i).
  - intros h Hu.
    destruct (dict_get h (extract_tags headers (c :: cs) [])) as [v|] eqn:E;
      [|reflexivity].
    apply Horigin in E as (i & _ & _ & _ & Hu'). congruence.
  - exact Horigin.
Qed.

Lemma tags_of_row_witness :
  dict_get "host"
    (extract_tags ["_start"; "_time"; "_measurement"; "_field"; "_value"; "host"]
       ["2023-01-01T00:00:00Z"; "2023-01-01T06:00:00Z"; "cpu"; "usage_user";
        "90.5"; "server01"] [])
  = Some "server01".
Proof.
  destruct (tags_of_row
              ["_start"; "_time"; "_measurement"; "_field"; "_value"; "host"]
              1 2 3 4
              ["2023-01-01T00:00:00Z"; "2023-01-01T06:00:00Z"; "cpu";
               "usage_user"; "90.5"; "server01"]
              _ eq_refl) as [H _].
  destruct (H 5%nat "host" "server01" eq_refl eq_refl eq_refl) as (v & Hv & Hc).
  - discriminate.
  - cbn [tags] in Hv. rewrite Hv. f_equal. apply Hc.
    vm_compute. repeat constructor; rewrite ?elem_of_cons, ?elem_of_nil;
      intuition discriminate.
Defined.

(** C4 as stated fails: the non-reserved header [_start] has a non-empty
    cell and is not a tag of the emitted record. *)
Lemma underscore_header_is_not_a_tag :
  exists it,
    parse_influxdb_csv start_csv = Ok [it]
    /\ dict_get "_start" (tags it) = None
    /\ tags it = [("host", "server01")].
Proof. eexists. vm_compute. repeat split. Qed.

(** *** The value column *)

Lemma parse_rows_items rows items :
  parse_rows rows None = Ok items ->
  exists headers data time_idx measurement_idx field_idx value_idx,
    find_headers rows = Some (headers, data)
    /\ index "_time" headers = Some time_idx
    /\ index "_measurement" headers = Some measurement_idx
    /\ index "_field" headers = Some field_idx
    /\ index "_value" headers = Some value_idx
    /\ items = omap (parse_row headers time_idx measurement_idx
                               field_idx value_idx) data.
Proof.
  unfold parse_rows.
  destruct (find_headers rows) as [[headers data]|]; [|discriminate].
  destruct (index "_time" headers) as [ti|] eqn:Et; [|discriminate].
  destruct (index "_measurement" headers) as [mi|] eqn:Em; [|discriminate].
  destruct (index "_field" headers) as [fi|] eqn:Ef; [|discriminate].
  destruct (index "_value" headers) as [vi|] eqn:Ev; [|discriminate].
  intros [= <-]. exists headers, data, ti, mi, fi, vi.
  repeat split; assumption.
Qed.

Lemma index_lookup name headers i :
  index name headers = Some i -> headers !! i = Some name.
Proof.
  revert i. induction headers as [|h hs IH]; intros i; cbn [index];
    [discriminate|].
  destruct (String.eqb_spec h name) as [->|_].
  - now intros [= <-].
  - destruct (index name hs) as [j|]; [|discriminate].
    intros [= <-]. now apply IH.
Qed.

Lemma parse_row_value headers ti mi fi vi row it :
  parse_row headers ti mi fi vi row = Some it ->
  row !! vi = Some (value it).
Proof.
  unfold parse_row. destruct row as [|c cs]; [discriminate|].
  remember (c :: cs) as row eqn:Erow. clear Erow.
  destruct (Nat.ltb_spec (length row)
              (Nat.max (Nat.max ti mi) (Nat.max fi vi) + 1)) as [|Hlen];
    [discriminate|].
  intros [= <-]. cbn [value].
  destruct (lookup_lt_is_Some_2 row vi) as [x Hx]; [lia|].
  rewrite Hx. f_equal. symmetry. exact (nth_lookup_Some _ _ "" _ Hx).
Qed.

Section Value.
Context `{DatetimeLib}.

(** The whole output: one line per emitted record, in order, each
    holding the value of its record unchanged. *)
Lemma influx_to_prometheus_lines csv_data items :
  parse_influxdb_csv csv_data = Ok items ->
  (forall it, it ∈ items -> exists ts, format_timestamp (timestamp it) = Ok ts) ->
  exists ls,
    influx_to_prometheus csv_data = Ok (Py.join newline ls)
    /\ Forall2 (fun it l =>
                  exists ts,
                    format_timestamp (timestamp it) = Ok ts
                    /\ l = measurement it +:+ "_" +:+ field it
                            +:+ labels_str (tags it)
                            +:+ " " +:+ value it +:+ " " +:+ ts)
               items ls.
Proof.
  intros Hp Hts. unfold influx_to_prometheus. rewrite Hp. cbn [py_bind].
  assert (Hls : exists ls,
             prom_lines items = Ok ls
             /\ Forall2 (fun it l =>
                           exists ts,
                             format_timestamp (timestamp it) = Ok ts
                             /\ l = measurement it +:+ "_" +:+ field it
                                     +:+ labels_str (tags it)
                                     +:+ " " +:+ value it +:+ " " +:+ ts)
                        items ls).
  { clear Hp. induction items as [|it items IH].
    - exists []. split; [reflexivity | constructor].
    - destruct (Hts it) as [ts Hit]; [left|].
      destruct IH as (ls & Hls & HF); [intros; apply Hts; now right|].
      cbn [prom_lines]. unfold prom_line. rewrite Hit. cbn [py_bind].
      rewrite Hls. cbn [py_bind]. eexists. split; [reflexivity|].
      constructor; [|exact HF].
      exists ts. split; [exact Hit | now rewrite append_assoc]. }
  destruct Hls as (ls & -> & HF). exists ls. split; [reflexivity | exact HF].
Qed.
End Value.

(** The whole path on a value that is not a number. *)
Example text_value_output :
  influx_to_prometheus text_value_csv
  = Ok ("cpu_usage_user{host=" +:+ dquote +:+ "server01" +:+ dquote
        +:+ "} n/a 1672552800000").
Proof. vm_compute. reflexivity. Qed.

(** *** The end-to-end scenario *)

(** C1. On the CSV of the repository's own test the code also emits the
    label of the [table] column, whose cell is ["0"]: the output differs
    from the two expected lines. *)
Theorem test_csv_output :
  influx_to_prometheus test_csv
  = Ok ("cpu_usage_user{table=" +:+ dquote +:+ "0" +:+ dquote
          +:+ ",host=" +:+ dquote +:+ "server01" +:+ dquote
          +:+ "} 90.5 1672552800000" +:+ newline +:+
        "cpu_usage_system{table=" +:+ dquote +:+ "0" +:+ dquote
          +:+ ",host=" +:+ dquote +:+ "server01" +:+ dquote
          +:+ "} 91.2 1672556400000")
  /\ influx_to_prometheus test_csv <> Ok expected_output.
Proof. split; vm_compute; [reflexivity | discriminate]. Qed.

Example minimal_csv_output :
  influx_to_prometheus minimal_csv = Ok expected_output.
Proof. vm_compute. reflexivity. Qed.

(** *** The timestamp normaliser *)

Section NormalizerFacts.
Context `{DatetimeLib}.

Lemma format_timestamp_fallback ts :
  rfc3339_attempt ts = Raise ValueError ->
  format_timestamp ts
  = if (12 <? String.length ts)%nat then Ok ts else numeric_attempt ts.
Proof. unfold format_timestamp. now intros ->. Qed.

(** C5 (amended). When the RFC3339 attempt fails and the numeric
    reading of the text fails too, the error of the numeric reading
    propagates only for texts of at most 12 characters ([ValueError]
    when [float] rejects the text); a longer text is returned
    unchanged, without any numeric check. *)
Theorem invalid_timestamp (ts : string) (e : exn) :
  rfc3339_attempt ts = Raise ValueError ->
  numeric_attempt ts = Raise e ->
  ((String.length ts <= 12)%nat -> format_timestamp ts = Raise e)
  /\ ((12 < String.length ts)%nat -> format_timestamp ts = Ok ts)
  /\ (PyFloat.of_string ts = Raise ValueError -> e = ValueError).
Proof.
  intros Hiso Hnum. rewrite (format_timestamp_fallback ts Hiso).
  split; [|split].
  - intros Hlen. destruct (Nat.ltb_spec 12 (String.length ts)); [lia|].
    exact Hnum.
  - intros Hlen.
    destruct (Nat.ltb_spec 12 (String.length ts)); [reflexivity | lia].
  - intros Hfloat. unfold numeric_attempt in Hnum.
    rewrite Hfloat in Hnum. cbn [py_bind] in Hnum. congruence.
Qed.

(** C6. A non-empty string of digits that is not accepted as
    RFC3339: with at most 12 digits it is read as seconds and the
    result is the decimal text of its value times 1000; with 13 digits
    or more it is returned unchanged. *)
Theorem epoch_digits (ts : string) :
  Py.isdigit ts = true ->
  rfc3339_attempt ts = Raise ValueError ->
  ((String.length ts <= 12)%nat ->
     format_timestamp ts = Ok (str_of_Z (Py.int_of_digits ts * 1000)))
  /\ ((13 <= String.length ts)%nat -> format_timestamp ts = Ok ts).
Proof.
  intros Hd Hiso. rewrite (format_timestamp_fallback ts Hiso).
  split; intros Hlen.
  - destruct (Nat.ltb_spec 12 (String.length ts)); [lia|].
    unfold numeric_attempt.
    rewrite PyFloatFacts.of_string_digits by assumption.
    cbn [py_bind].
    destruct (PyFacts.isdigit_cons ts Hd) as (_ & _ & _ & _ & _ & Hall).
    pose proof (PyFloatFacts.int_of_digits_bounds ts Hall) as [Hlo Hhi].
    assert (Hpow : 10 ^ Z.of_nat (String.length ts) <= 10 ^ 12)
      by (apply Z.pow_le_mono_r; lia).
    rewrite PyFloatFacts.seconds_to_milliseconds;
      [reflexivity | lia | ].
    change (2 ^ PyFloat.prec) with 9007199254740992.
    change (10 ^ 12) with 1000000000000 in Hpow. lia.
  - destruct (Nat.ltb_spec 12 (String.length ts)); [reflexivity | lia].
Qed.
End NormalizerFacts.

Lemma invalid_timestamp_witness :
  format_timestamp "yesterday" = Raise ValueError
  /\ format_timestamp "the day before" = Ok "the day before".
Proof.
  split.
  - apply (invalid_timestamp "yesterday" ValueError); vm_compute;
      first [reflexivity | lia].
  - apply (invalid_timestamp "the day before" ValueError); vm_compute;
      first [reflexivity | lia].
Defined.

(** C5 as stated fails: a text of more than 12 characters that is neither
    a date nor a number is returned as the timestamp. *)
Lemma long_invalid_timestamp_is_returned :
  rfc3339_attempt "not-a-timestamp" = Raise ValueError
  /\ PyFloat.of_string "not-a-timestamp" = Raise ValueError
  /\ numeric_attempt "not-a-timestamp" = Raise ValueError
  /\ format_timestamp "not-a-timestamp" = Ok "not-a-timestamp".
Proof. vm_compute. repeat split. Qed.

Lemma epoch_digits_witness :
  format_timestamp "999999999999" = Ok "999999999999000"
  /\ format_timestamp "1000000000000" = Ok "1000000000000".
Proof.
  split.
  - apply (epoch_digits "999999999999"); vm_compute; first [reflexivity | lia].
  - apply (epoch_digits "1000000000000"); vm_compute; first [reflexivity | lia].
Defined.

End LegacyFacts.

(** ** The matcher: groups that take part in every match *)

Module ReFacts.
Import Re.

Lemma mono_refl caps : mono caps caps.
Proof. intros i H. exact H. Qed.

Lemma mono_trans a b c : mono a b -> mono b c -> mono a c.
Proof. intros H1 H2 i H. apply H2, H1, H. Qed.

Lemma mono_insert caps i v : mono caps (<[i := v]> caps).
Proof.
  intros j H. destruct (decide (i = j)) as [->|Hne].
  - rewrite lookup_insert_eq. eauto.
  - now rewrite lookup_insert_ne.
Qed.

Section Groups.
Context {R : Type}.

Lemma star_loop_mono (m : string -> gmap nat string -> cont -> option R)
    greedy (k : cont) :
  (forall s caps (k' : cont) x,
      m s caps k' = Some x ->
      exists s' caps', k' s' caps' = Some x /\ mono caps caps') ->
  forall fuel s caps x,
    star_loop m greedy k fuel s caps = Some x ->
    exists s' caps', k s' caps' = Some x /\ mono caps caps'.
Proof.
  intros Hm. induction fuel as [|fuel IH]; intros s caps x H;
    cbn [star_loop] in H.
  - destruct greedy; [|destruct (k s caps) eqn:Ek];
      try discriminate; exists s, caps; split;
      first [assumption | congruence | apply mono_refl].
  - assert (Hagain : forall y,
               m s caps
                 (fun s' caps' =>
                    if (String.length s' <? String.length s)%nat
                    then star_loop m greedy k fuel s' caps' else None)
               = Some y ->
               exists s' caps', k s' caps' = Some y /\ mono caps caps').
    { intros y Hy. apply Hm in Hy as (s1 & c1 & H1 & M1).
      destruct (String.length s1 <? String.length s)%nat; [|discriminate].
      apply IH in H1 as (s2 & c2 & H2 & M2).
      exists s2, c2. split; [exact H2 | eapply mono_trans; eassumption]. }
    destruct greedy.
    + destruct (m s caps _) as [y|] eqn:Ey.
      * injection H as <-. now apply Hagain.
      * exists s, caps. split; [exact H | apply mono_refl].
    + destruct (k s caps) as [y|] eqn:Ek.
      * injection H as <-. exists s, caps. split; [exact Ek | apply mono_refl].
      * now apply Hagain.
Qed.

(** A successful match reaches its continuation with every mandatory
    group of the pattern set, and with no group unset. *)
Lemma rmatch_groups (r : regex) :
  forall s caps (k : cont) (x : R),
    rmatch r s caps k = Some x ->
    exists s' caps',
      k s' caps' = Some x
      /\ (forall i, i ∈ mandatory r -> is_Some (caps' !! i))
      /\ mono caps caps'.
Proof.
  induction r as [|p|r1 IH1 r2 IH2|r1 IH1 r2 IH2|greedy r IH|i r IH|];
    intros s caps k x H; cbn [rmatch mandatory] in *.
  - exists s, caps. split; [exact H|]. split; [|apply mono_refl].
    intros i Hi. now apply elem_of_nil in Hi.
  - destruct s as [|c s]; [discriminate|].
    destruct (p c); [|discriminate].
    exists s, caps. split; [exact H|]. split; [|apply mono_refl].
    intros i Hi. now apply elem_of_nil in Hi.
  - apply IH1 in H as (s1 & c1 & H1 & M1 & Mo1).
    apply IH2 in H1 as (s2 & c2 & H2 & M2 & Mo2).
    exists s2, c2. split; [exact H2|]. split.
    + intros i Hi. apply elem_of_app in Hi as [Hi|Hi]; [|now apply M2].
      apply Mo2, M1, Hi.
    + eapply mono_trans; eassumption.
  - destruct (rmatch r1 s caps k) as [y|] eqn:E1.
    + injection H as <-. apply IH1 in E1 as (s1 & c1 & H1 & _ & Mo1).
      exists s1, c1. split; [exact H1|]. split; [|exact Mo1].
      intros i Hi. now apply elem_of_nil in Hi.
    + apply IH2 in H as (s1 & c1 & H1 & _ & Mo1).
      exists s1, c1. split; [exact H1|]. split; [|exact Mo1].
      intros i Hi. now apply elem_of_nil in Hi.
  - apply star_loop_mono in H as (s1 & c1 & H1 & Mo1).
    + exists s1, c1. split; [exact H1|]. split; [|exact Mo1].
      intros i Hi. now apply elem_of_nil in Hi.
    + intros s0 caps0 k' y Hy.
      apply IH in Hy as (s1 & c1 & H1 & _ & Mo1). eauto.
  - apply IH in H as (s1 & c1 & H1 & M1 & Mo1).
    exists s1, (<[i := consumed s s1]> c1). split; [exact H1|]. split.
    + intros j Hj. apply elem_of_cons in Hj as [->|Hj].
      * rewrite lookup_insert_eq. eauto.
      * apply mono_insert, M1, Hj.
    + eapply mono_trans; [exact Mo1 | apply mono_insert].
  - destruct (at_end s); [|discriminate].
    exists s, caps. split; [exact H|]. split; [|apply mono_refl].
    intros i Hi. now apply elem_of_nil in Hi.
Qed.
End Groups.

Lemma search_rest_groups r s m rest i :
  search_rest r s = Some (m, rest) -> i ∈ mandatory r -> is_Some (m !! i).
Proof.
  intros H Hi. induction s as [|c s IH]; cbn [search_rest] in H.
  - destruct (rmatch r "" ∅ _) as [y|] eqn:E; [|discriminate].
    injection H as ->. apply rmatch_groups in E as (s1 & c1 & H1 & M1 & _).
    injection H1 as -> _. now apply M1.
  - destruct (rmatch r (String c s) ∅ _) as [y|] eqn:E; [|now apply IH].
    injection H as ->. apply rmatch_groups in E as (s1 & c1 & H1 & M1 & _).
    injection H1 as -> _. now apply M1.
Qed.

(** [m.group(i)] is a string for a mandatory group of the pattern. *)
Lemma search_group r s m i :
  search r s = Some m -> i ∈ mandatory r -> exists g, group m i = Some g.
Proof.
  unfold search, group. intros H Hi.
  destruct (search_rest r s) as [[m' rest]|] eqn:E; [|discriminate].
  injection H as <-. exact (search_rest_groups _ _ _ _ _ E Hi).
Qed.

End ReFacts.

(** ** The translator raises nothing *)

Module TranslatorFacts.
Import Promql ReFacts Samples.

Ltac mandatory_group H i g Hg :=
  destruct (search_group _ _ _ i H) as [g Hg];
  [apply list_elem_of_In; vm_compute; auto 10 | rewrite Hg].

Lemma convert_flux_to_promql_returns flux_query :
  exists out, convert_flux_to_promql flux_query = Ok out.
Proof.
  unfold convert_flux_to_promql. cbv zeta.
  destruct (Re.search range_pattern flux_query) as [m|] eqn:Er.
  - mandatory_group Er 1%nat start Hstart. cbn [receiver py_bind].
    destruct (Py.startswith start "-"); cbn [py_bind]; eauto.
  - cbn [py_bind]. eauto.
Qed.

Lemma convert_influxql_to_promql_returns influxql_query :
  exists out, convert_influxql_to_promql influxql_query = Ok out.
Proof.
  unfold convert_influxql_to_promql. cbv zeta.
  destruct (Re.search select_pattern influxql_query) as [sm|] eqn:Es;
    [|eauto].
  mandatory_group Es 1%nat g1 Hg1. mandatory_group Es 2%nat g2 Hg2.
  cbn [receiver py_bind].
  assert (Hname : exists nf,
             match Re.search function_pattern (Py.strip g1) with
             | Some fm =>
                 let* f1 := receiver (Re.group fm 1) in
                 let* f2 := receiver (Re.group fm 2) in
                 Ok (Py.strip g2 +:+ "_" +:+ Py.strip_chars (dquote +:+ "'") f2,
                     match assoc (Py.lower f1) func_map with
                     | Some f => f
                     | None => ""
                     end)
             | None =>
                 Ok (Py.strip g2 +:+ "_"
                       +:+ Py.strip_chars (dquote +:+ "'") (Py.strip g1), "")
             end = Ok nf).
  { destruct (Re.search function_pattern (Py.strip g1)) as [fm|] eqn:Ef;
      [|eauto].
    mandatory_group Ef 1%nat f1 Hf1. mandatory_group Ef 2%nat f2 Hf2.
    cbn [receiver py_bind]. eauto. }
  destruct Hname as [nf ->]. cbn [py_bind].
  destruct (Re.search where_pattern influxql_query) as [wm|] eqn:Ew;
    [|cbn [py_bind]; eauto].
  mandatory_group Ew 1%nat w1 Hw1. cbn [receiver py_bind].
  destruct (Re.search time_pattern (Py.strip w1)) as [tm|] eqn:Et;
    [|cbn [py_bind]; eauto].
  mandatory_group Et 2%nat tv Htv. cbn [container py_bind].
  destruct (Py.contains "now()" tv && Py.contains "-" tv);
    [|cbn [py_bind]; eauto].
  destruct (Re.search duration_pattern tv); cbn [py_bind]; eauto.
Qed.

(** C8. [influx_to_promql] returns a string for every query and every
    forced type: it never raises.  When the forced or detected type is
    neither [flux] nor [influxql] the result is the error text; forcing
    [flux] or [influxql] on any query, of the other language or not,
    returns a string too. *)
Theorem influx_to_promql_never_raises (query : string)
    (force_type : option string) :
  (exists out, influx_to_promql query force_type = Ok out)
  /\ (query_type query force_type <> "flux" ->
      query_type query force_type <> "influxql" ->
      influx_to_promql query force_type
      = Ok "Error: Could not determine query type. Please specify using --type")
  /\ (detect_query_type query = "unknown" ->
      influx_to_promql query None
      = Ok "Error: Could not determine query type. Please specify using --type")
  /\ (exists out, influx_to_promql query (Some "flux") = Ok out
                  /\ convert_flux_to_promql query = Ok out)
  /\ (exists out, influx_to_promql query (Some "influxql") = Ok out
                  /\ convert_influxql_to_promql query = Ok out).
Proof.
  unfold influx_to_promql. cbv zeta. repeat split.
  - destruct (String.eqb _ "flux");
      [apply convert_flux_to_promql_returns|].
    destruct (String.eqb _ "influxql");
      [apply convert_influxql_to_promql_returns | eauto].
  - intros Hf Hi. apply String.eqb_neq in Hf, Hi. now rewrite Hf, Hi.
  - intros Hu. cbn [query_type]. now rewrite Hu.
  - destruct (convert_flux_to_promql_returns query) as [out Hout].
    exists out. cbn [query_type]. now rewrite String.eqb_refl.
  - destruct (convert_influxql_to_promql_returns query) as [out Hout].
    exists out. cbn [query_type]. split; [|exact Hout].
    change (String.eqb "influxql" "flux") with false. cbv iota.
    now rewrite String.eqb_refl.
Qed.

Lemma influx_to_promql_never_raises_witness :
  influx_to_promql "this is not a valid query" None
  = Ok "Error: Could not determine query type. Please specify using --type"
  /\ influx_to_promql "SELECT 1" (Some "promql")
     = Ok "Error: Could not determine query type. Please specify using --type".
Proof.
  split.
  - apply (influx_to_promql_never_raises "this is not a valid query" None).
    vm_compute. reflexivity.
  - apply (influx_to_promql_never_raises "SELECT 1" (Some "promql"));
      vm_compute; discriminate.
Defined.

(** Forcing the wrong type: an empty result for an InfluxQL query read
    as Flux, the parse-error text for a Flux query read as InfluxQL. *)
Example forced_wrong_type :
  influx_to_promql influxql_query (Some "flux") = Ok ""
  /\ influx_to_promql flux_query (Some "influxql")
     = Ok "Error: Could not parse InfluxQL SELECT statement"
  /\ influx_to_promql flux_query None = Ok "[-1h]".
Proof. vm_compute. repeat split. Qed.

End TranslatorFacts.

(** ** [convert_data]: whole batches *)

Module ConvertDataFacts.
Import Converter Samples MoreSamples.

Lemma convert_records_ok f data ms :
  convert_records f data = Ok ms
  <-> Forall2 (fun r m => f r = Ok m) data ms.
Proof.
  revert ms. induction data as [|r data IH]; intros ms;
    cbn [convert_records].
  - split.
    + intros [= <-]. constructor.
    + intros Hf. inversion Hf. reflexivity.
  - split.
    + destruct (f r) as [m|e] eqn:Er; cbn [py_bind]; [|discriminate].
      destruct (convert_records f data) as [ms'|e] eqn:Ers; cbn [py_bind];
        [|discriminate].
      intros [= <-]. constructor; [exact Er|]. now apply IH.
    + intros Hf. inversion Hf as [|r' m data' ms' Hm Hrest]; subst.
      rewrite Hm. cbn [py_bind]. apply IH in Hrest. rewrite Hrest.
      reflexivity.
Qed.

Lemma convert_records_raises f data :
  raises (convert_records f data) <-> exists r, r ∈ data /\ raises (f r).
Proof.
  induction data as [|r data IH]; cbn [convert_records].
  - split.
    + intros [e He]. discriminate.
    + intros (r & Hr & _). inversion Hr.
  - split.
    + destruct (f r) as [m|e] eqn:Er; cbn [py_bind].
      * destruct (convert_records f data) as [ms'|e] eqn:Ers; cbn [py_bind].
        -- intros [e He]. discriminate.
        -- intros _. destruct IH as [IH _].
           destruct IH as (r' & Hr' & Hf); [now exists e|].
           exists r'. split; [now right | exact Hf].
      * intros _. exists r. split; [left | now exists e].
    + intros (r' & Hr' & e & He).
      apply elem_of_cons in Hr' as [->|Hr'].
      * rewrite He. now exists e.
      * destruct (f r) as [m|e']; cbn [py_bind]; [|now exists e'].
        destruct IH as [_ IH]. destruct IH as [e' He'].
        { exists r'. split; [exact Hr' | now exists e]. }
        rewrite He'. now exists e'.
Qed.

Lemma of_string_error s e : PyFloat.of_string s = Raise e -> e = ValueError.
Proof.
  unfold PyFloat.of_string. destruct (PyFloat.floatvalue _); congruence.
Qed.

Section Batch.
Context `{DatetimeLib}.
Variable repr_float : spec_float -> string.

Lemma convert_record_raises n t vc lc h tc r :
  raises (convert_record repr_float n t vc lc h tc r)
  <-> raises (convert_value vc r)
      \/ raises (convert_timestamp repr_float tc r).
Proof.
  unfold convert_record.
  destruct (convert_value vc r) as [v|e]; cbn [py_bind].
  - destruct (convert_timestamp repr_float tc r) as [ts|e]; cbn [py_bind].
    + split; [intros [e He]; discriminate|].
      intros [[e He]|[e He]]; discriminate.
    + split; [intros _; right; now exists e | intros _; now exists e].
  - split; [intros _; left; now exists e | intros _; now exists e].
Qed.

(** X1. [convert_data] is all or nothing: it raises exactly when the
    metric type is not one of the four valid types, or the value or the
    timestamp of some record of the batch fails to convert; one such
    record discards the samples of all the others. *)
Theorem convert_data_all_or_nothing (data : list (gmap string pyval))
    (metric_name metric_type value_column : string)
    (label_columns : option (list string)) (help_text : option string)
    (timestamp_column : option string) :
  raises (convert_data repr_float data metric_name metric_type
            value_column label_columns help_text timestamp_column)
  <-> metric_type ∉ VALID_TYPES
      \/ exists record,
           record ∈ data
           /\ (raises (convert_value value_column record)
               \/ raises (convert_timestamp repr_float timestamp_column
                            record)).
Proof.
  unfold convert_data.
  destruct (bool_decide_reflect (metric_type ∈ VALID_TYPES)) as [Hin|Hnin];
    cbn [negb].
  - rewrite convert_records_raises. split.
    + intros (r & Hr & Hf). right. exists r. split; [exact Hr|].
      now apply convert_record_raises in Hf.
    + intros [Hn|(r & Hr & Hf)]; [contradiction|].
      exists r. split; [exact Hr|]. now apply convert_record_raises.
  - split; [intros _; now left | intros _; now exists ValueError].
Qed.

(** X2. A successful [convert_data] returns one sample per record, in
    the order of the records, each with the given name, type and help
    text, the float of its value column, the labels of its label
    columns and the timestamp of its timestamp column. *)
Theorem convert_data_one_sample_per_record
    (data : list (gmap string pyval))
    (metric_name metric_type value_column : string)
    (label_columns : option (list string)) (help_text : option string)
    (timestamp_column : option string) (metrics : list PrometheusMetric) :
  convert_data repr_float data metric_name metric_type value_column
    label_columns help_text timestamp_column = Ok metrics ->
  metric_type ∈ VALID_TYPES
  /\ length metrics = length data
  /\ Forall2
       (fun record m =>
          name m = metric_name /\ type m = metric_type
          /\ help m = help_text
          /\ convert_value value_column record = Ok (value m)
          /\ labels m
             = convert_labels repr_float (default [] label_columns) record
          /\ convert_timestamp repr_float timestamp_column record
             = Ok (timestamp m))
       data metrics.
Proof.
  unfold convert_data.
  destruct (bool_decide_reflect (metric_type ∈ VALID_TYPES)) as [Hin|Hnin];
    cbn [negb]; [|discriminate].
  intros Hok. apply convert_records_ok in Hok.
  split; [exact Hin|]. split.
  - symmetry. exact (Forall2_length _ _ _ Hok).
  - eapply Forall2_impl; [exact Hok|].
    intros r m. cbn beta. unfold convert_record.
    destruct (convert_value value_column r) as [v|e]; cbn [py_bind];
      [|discriminate].
    destruct (convert_timestamp repr_float timestamp_column r) as [ts|e];
      cbn [py_bind]; [|discriminate].
    intros [= <-]. cbn. repeat split; reflexivity.
Qed.

(** The labels, accumulator included. *)
Lemma convert_labels_fold (lc : list string) (record : gmap string pyval)
    (acc : gmap string string) (l : string) :
  fold_left
    (fun labels label =>
       match record !! label with
       | Some VNone | None => labels
       | Some v => <[label := py_str repr_float v]> labels
       end)
    lc acc !! l
  = match record !! l with
    | Some VNone | None => acc !! l
    | Some v => if decide (l ∈ lc) then Some (py_str repr_float v)
                else acc !! l
    end.
Proof.
  revert acc. induction lc as [|a lc IH]; intros acc; cbn [fold_left].
  - destruct (record !! l) as [[]|]; try reflexivity;
      now rewrite decide_False by (apply not_elem_of_nil).
  - rewrite IH. destruct (decide (a = l)) as [->|Hne].
    + destruct (record !! l) as [v|] eqn:El; [|reflexivity].
      destruct v; try reflexivity;
        rewrite (decide_True (P := l ∈ l :: lc)) by left;
        destruct (decide (l ∈ lc)); try reflexivity;
        now rewrite lookup_insert_eq.
    + assert (Hacc : match record !! a with
                     | Some VNone | None => acc
                     | Some v => <[a := py_str repr_float v]> acc
                     end !! l = acc !! l).
      { destruct (record !! a) as [[]|]; try reflexivity;
          now rewrite lookup_insert_ne. }
      rewrite Hacc.
      destruct (record !! l) as [v|]; [|reflexivity].
      destruct v; try reflexivity;
        destruct (decide (l ∈ lc)) as [Hin|Hnin];
        [ rewrite decide_True by (now right); reflexivity
        | rewrite decide_False
            by (rewrite elem_of_cons; intros [?|?]; congruence);
          reflexivity
        | rewrite decide_True by (now right); reflexivity
        | rewrite decide_False
            by (rewrite elem_of_cons; intros [?|?]; congruence);
          reflexivity
        | rewrite decide_True by (now right); reflexivity
        | rewrite decide_False
            by (rewrite elem_of_cons; intros [?|?]; congruence);
          reflexivity
        | rewrite decide_True by (now right); reflexivity
        | rewrite decide_False
            by (rewrite elem_of_cons; intros [?|?]; congruence);
          reflexivity ].
Qed.

(** X3. The labels of a sample are exactly the listed label columns
    that the record holds with a value other than [None], each with
    the text [str] gives to that value; a column that is not listed, is
    missing from the record or holds [None] gives no label. *)
Theorem convert_labels_lookup (label_columns : list string)
    (record : gmap string pyval) (l s : string) :
  convert_labels repr_float label_columns record !! l = Some s
  <-> l ∈ label_columns
      /\ exists v, record !! l = Some v /\ v <> VNone
                   /\ s = py_str repr_float v.
Proof.
  unfold convert_labels. rewrite convert_labels_fold, lookup_empty.
  destruct (record !! l) as [v|].
  - destruct v;
      try (destruct (decide (l ∈ label_columns)) as [Hin|Hnin]; split;
           [ intros [= <-]; split; [exact Hin|]; eexists;
             split; [reflexivity|]; split; [discriminate | reflexivity]
           | intros (_ & v & [= <-] & _ & ->); reflexivity
           | discriminate
           | intros (Hin & _); contradiction ]).
    split; [discriminate|].
    intros (_ & v & [= <-] & Hv & _). contradiction.
  - split; [discriminate|]. intros (_ & v & Hv & _). discriminate.
Qed.

(** X4. A float timestamp that is not a finite number stops the whole
    conversion, whereas a timestamp text that cannot be parsed is only
    left out: a batch with a record whose timestamp column holds NaN
    or an infinity gives no samples at all. *)
Theorem non_finite_timestamp_aborts (data : list (gmap string pyval))
    (metric_name metric_type value_column : string)
    (label_columns : option (list string)) (help_text : option string)
    (column : string) (record : gmap string pyval) (x : spec_float) :
  record ∈ data ->
  column <> "" ->
  record !! column = Some (VFloat x) ->
  x = S754_nan \/ (exists s, x = S754_infinity s) ->
  raises (convert_data repr_float data metric_name metric_type
            value_column label_columns help_text (Some column)).
Proof.
  intros Hin Hcol Hr Hx. unfold convert_data.
  destruct (negb (bool_decide (metric_type ∈ VALID_TYPES)));
    [now exists ValueError|].
  apply convert_records_raises. exists record. split; [exact Hin|].
  apply convert_record_raises. right. unfold convert_timestamp.
  destruct column as [|c column]; [congruence|]. rewrite Hr.
  destruct Hx as [->|[s ->]]; cbn [PyFloat.to_int py_bind].
  - now exists ValueError.
  - now exists OverflowError.
Qed.
End Batch.

(** *** From records to text *)

Lemma join_blank_last (l : list string) :
  l <> [] -> Py.join newline (l ++ [""]) = Py.join newline l +:+ newline.
Proof.
  unfold Py.join. induction l as [|x [|y l] IH]; intros Hl; [congruence| |].
  - cbn [app String.concat]. now rewrite PyFacts.append_nil_r.
  - change (String.concat newline ((x :: y :: l) ++ [""]))
      with (x +:+ newline +:+ String.concat newline ((y :: l) ++ [""])).
    rewrite IH by discriminate.
    change (String.concat newline (x :: y :: l))
      with (x +:+ newline +:+ String.concat newline (y :: l)).
    now rewrite !PyFacts.append_assoc.
Qed.

Lemma first_seen_constant (k : string) (l : list string) :
  l <> [] -> Forall (fun k' => k' = k) l -> first_seen l = [k].
Proof.
  induction l as [|a l IH]; intros Hl Hall; [congruence|].
  apply Forall_cons in Hall as [-> Hall]. cbn [first_seen]. f_equal.
  destruct l as [|b l]; [reflexivity|].
  rewrite IH by (discriminate || assumption).
  now rewrite filter_cons_False, filter_nil by tauto.
Qed.

Lemma members_all (k : string) (ms : list PrometheusMetric) :
  Forall (fun m => key m = k) ms -> members k ms = ms.
Proof.
  unfold members. induction 1 as [|m ms Hm _ IH]; [reflexivity|].
  now rewrite filter_cons_True, IH by assumption.
Qed.

Section Pipeline.
Context `{DatetimeLib}.
Variable repr_float : spec_float -> string.

(** X6. Formatting the result of a successful [convert_data] on a
    non-empty batch gives one group: the HELP line when a non-empty
    help text was given, one TYPE line, one sample line per record in
    the order of the records, and a final newline. *)
Theorem convert_then_format (data : list (gmap string pyval))
    (metric_name metric_type value_column : string)
    (label_columns : option (list string)) (help_text : option string)
    (timestamp_column : option string) (metrics : list PrometheusMetric) :
  data <> [] ->
  convert_data repr_float data metric_name metric_type value_column
    label_columns help_text timestamp_column = Ok metrics ->
  format_metrics repr_float metrics
  = Ok (Py.join newline
          ((match help_text with
            | Some (String c h) =>
                ["# HELP " +:+ metric_name +:+ " " +:+ String c h]
            | _ => []
            end)
           ++ ["# TYPE " +:+ metric_name +:+ " " +:+ metric_type]
           ++ map (sample_line repr_float) metrics)
        +:+ newline).
Proof.
  intros Hdata Hok. unfold convert_data in Hok.
  destruct (negb (bool_decide (metric_type ∈ VALID_TYPES)));
    [discriminate|].
  apply convert_records_ok in Hok.
  assert (Hall : Forall (fun m => name m = metric_name
                                  /\ type m = metric_type
                                  /\ help m = help_text) metrics).
  { clear Hdata. induction Hok as [|r m data ms Hm _ IH];
      constructor; [|exact IH].
    unfold convert_record in Hm.
    destruct (convert_value value_column r); cbn [py_bind] in Hm;
      [|discriminate].
    destruct (convert_timestamp repr_float timestamp_column r);
      cbn [py_bind] in Hm; [|discriminate].
    injection Hm as <-. cbn. auto. }
  destruct metrics as [|m0 ms].
  { apply Forall2_length in Hok. destruct data; [congruence|discriminate]. }
  rewrite ConverterFacts.format_metrics_lines. f_equal.
  set (k := metric_name +:+ ":" +:+ metric_type).
  assert (Hkey : Forall (fun m => key m = k) (m0 :: ms)).
  { eapply Forall_impl; [exact Hall|].
    intros m (Hn & Ht & _). unfold key, k. now rewrite Hn, Ht. }
  unfold grouped_lines.
  rewrite (first_seen_constant k).
  - cbn [map concat]. rewrite (members_all k _ Hkey), app_nil_r.
    apply Forall_cons in Hall as [(Hn & Ht & Hh) _].
    cbn [group_block]. unfold Converter.help_text.
    rewrite Hn, Ht, Hh, !app_assoc, join_blank_last.
    + destruct help_text as [[|c h]|]; reflexivity.
    + destruct help_text as [[|c h]|]; discriminate.
  - discriminate.
  - apply Forall_forall. intros k' Hk'.
    apply list_elem_of_In, in_map_iff in Hk' as (m & <- & Hm).
    apply list_elem_of_In in Hm.
    exact (proj1 (Forall_forall _ _) Hkey m Hm).
Qed.
End Pipeline.

Lemma convert_then_format_witness :
  format_metrics PyFloat.repr two_samples
  = Ok ("# HELP cpu_usage CPU usage" +:+ newline
        +:+ "# TYPE cpu_usage gauge" +:+ newline
        +:+ "cpu_usage{host=" +:+ dquote +:+ "server01" +:+ dquote
        +:+ "} 90.5 1672552800000" +:+ newline
        +:+ "cpu_usage 90.5" +:+ newline).
Proof.
  rewrite (convert_then_format PyFloat.repr [host_record; cpu_record]
             "cpu_usage" "gauge" "usage" (Some ["host"]) (Some "CPU usage")
             (Some "time") two_samples).
  - vm_compute. reflexivity.
  - discriminate.
  - vm_compute. reflexivity.
Defined.

Lemma convert_data_one_sample_per_record_witness :
  length two_samples = 2%nat
  /\ Forall2 (fun record m => convert_value "usage" record = Ok (value m))
       [host_record; cpu_record] two_samples.
Proof.
  destruct (convert_data_one_sample_per_record PyFloat.repr
              [host_record; cpu_record] "cpu_usage" "gauge" "usage"
              (Some ["host"]) (Some "CPU usage") (Some "time") two_samples)
    as (_ & Hlen & Hall).
  - vm_compute. reflexivity.
  - split; [exact Hlen|].
    eapply Forall2_impl; [exact Hall|]. intros r m Hm. apply Hm.
Defined.

Lemma non_finite_timestamp_aborts_witness :
  raises (convert_data PyFloat.repr
            [<["v" := VInt 1]> (<["t" := VFloat S754_nan]> ∅)]
            "m" "gauge" "v" None None (Some "t")).
Proof.
  apply (non_finite_timestamp_aborts PyFloat.repr _ _ _ _ _ _ "t"
           (<["v" := VInt 1]> (<["t" := VFloat S754_nan]> ∅)) S754_nan).
  - left.
  - discriminate.
  - vm_compute. reflexivity.
  - now left.
Defined.

(** X5. The value check raises [ValueError] for a missing column, for
    [None] and for a text that [float] rejects, and [OverflowError] for
    an integer too large for a float; every other value is accepted,
    booleans and non-finite floats included. *)
Theorem convert_value_errors (value_column : string)
    (record : gmap string pyval) (e : exn) :
  convert_value value_column record = Raise e
  <-> (e = ValueError
       /\ (record !! value_column = None
           \/ record !! value_column = Some VNone
           \/ exists s, record !! value_column = Some (VStr s)
                        /\ PyFloat.of_string s = Raise ValueError))
      \/ (e = OverflowError
          /\ exists n sgn, record !! value_column = Some (VInt n)
                           /\ PyFloat.of_Z n = S754_infinity sgn).
Proof.
  unfold convert_value.
  destruct (record !! value_column) as [v|].
  - destruct v as [|b|n|x|s]; cbn [py_float].
    + split.
      * intros [= <-]. left. split; [reflexivity|]. right. now left.
      * intros [[-> _]|[_ (n & sgn & [=] & _)]]. reflexivity.
    + split; [discriminate|].
      intros [[_ [[=]|[[=]|(s & [=] & _)]]]|[_ (n & sgn & [=] & _)]].
    + destruct (PyFloat.of_Z n) as [sg|sg| |sg m ex] eqn:En.
      * split; [discriminate|].
        intros [[_ [[=]|[[=]|(s & [=] & _)]]]|[_ (n' & sgn & [= <-] & E)]].
        congruence.
      * split.
        -- intros [= <-]. right. split; [reflexivity|]. now exists n, sg.
        -- intros [[_ [[=]|[[=]|(s & [=] & _)]]]|[-> _]]. reflexivity.
      * split; [discriminate|].
        intros [[_ [[=]|[[=]|(s & [=] & _)]]]|[_ (n' & sgn & [= <-] & E)]].
        congruence.
      * split; [discriminate|].
        intros [[_ [[=]|[[=]|(s & [=] & _)]]]|[_ (n' & sgn & [= <-] & E)]].
        congruence.
    + split; [discriminate|].
      intros [[_ [[=]|[[=]|(s & [=] & _)]]]|[_ (n & sgn & [=] & _)]].
    + destruct (PyFloat.of_string s) as [y|e'] eqn:Es.
      * split; [discriminate|].
        intros [[_ [[=]|[[=]|(s' & [= <-] & E)]]]|[_ (n & sgn & [=] & _)]].
        congruence.
      * apply of_string_error in Es as Ee. subst e'. split.
        -- intros [= <-]. left. split; [reflexivity|]. right. right.
           now exists s.
        -- intros [[-> _]|[_ (n & sgn & [=] & _)]]. reflexivity.
  - split.
    + intros [= <-]. left. split; [reflexivity|]. now left.
    + intros [[-> _]|[_ (n & sgn & [=] & _)]]. reflexivity.
Qed.

End ConvertDataFacts.

(** ** Unparseable timestamp texts in a batch *)

Module ConvertBatchFacts.
Import Converter ConvertDataFacts Samples MoreSamples.

Section Batch.
Context `{DatetimeLib}.
Variable repr_float : spec_float -> string.

(** C7. In a batch given to [convert_data], a record whose timestamp
    column holds a text that [fromisoformat] rejects is never the
    cause of an error: the call raises exactly when the type is
    invalid, the value of some record fails to convert, or the
    timestamp of another record does.  When the call returns, the
    sample at the position of that record is its sample, with the
    float of its value, its labels and no timestamp; and the call
    does return when the type is valid, every value converts and the
    timestamps of the other records convert. *)
Theorem unparseable_timestamp_is_omitted
    (data : list (gmap string pyval))
    (metric_name metric_type value_column : string)
    (label_columns : option (list string)) (help_text : option string)
    (timestamp_column : string) (i : nat) (record : gmap string pyval)
    (s : string) :
  data !! i = Some record ->
  record !! timestamp_column = Some (VStr s) ->
  fromisoformat (Py.replace "Z" "+00:00" s) = Raise ValueError ->
  (raises (convert_data repr_float data metric_name metric_type
             value_column label_columns help_text (Some timestamp_column))
   <-> metric_type ∉ VALID_TYPES
       \/ exists j r,
            data !! j = Some r
            /\ (raises (convert_value value_column r)
                \/ (j <> i
                    /\ raises (convert_timestamp repr_float
                                 (Some timestamp_column) r))))
  /\ (forall metrics,
        convert_data repr_float data metric_name metric_type value_column
          label_columns help_text (Some timestamp_column) = Ok metrics ->
        exists v,
          convert_value value_column record = Ok v
          /\ metrics !! i
             = Some (mkMetric metric_name v metric_type
                       (convert_labels repr_float
                          (default [] label_columns) record)
                       help_text None))
  /\ (metric_type ∈ VALID_TYPES ->
      (forall r, r ∈ data -> exists v, convert_value value_column r = Ok v) ->
      (forall j r, data !! j = Some r -> j <> i ->
                   exists ts, convert_timestamp repr_float
                                (Some timestamp_column) r = Ok ts) ->
      exists metrics,
        convert_data repr_float data metric_name metric_type value_column
          label_columns help_text (Some timestamp_column) = Ok metrics).
Proof.
  intros Hi Hr Hiso.
  pose proof (ConvertFacts.convert_timestamp_unparseable repr_float
                _ _ _ Hr Hiso) as Hts.
  assert (Hiff :
            raises (convert_data repr_float data metric_name metric_type
                      value_column label_columns help_text
                      (Some timestamp_column))
            <-> metric_type ∉ VALID_TYPES
                \/ exists j r,
                     data !! j = Some r
                     /\ (raises (convert_value value_column r)
                         \/ (j <> i
                             /\ raises (convert_timestamp repr_float
                                          (Some timestamp_column) r)))).
  { unfold convert_data.
    destruct (bool_decide_reflect (metric_type ∈ VALID_TYPES))
      as [Hin|Hnin]; cbn [negb].
    - rewrite convert_records_raises. split.
      + intros (r & Hrin & Hf). right.
        apply list_elem_of_lookup in Hrin as [j Hj].
        exists j, r. split; [exact Hj|].
        apply convert_record_raises in Hf as [Hv|Ht]; [now left|].
        right. split; [|exact Ht].
        intros ->. rewrite Hi in Hj. injection Hj as <-.
        rewrite Hts in Ht. destruct Ht as [e He]. discriminate.
      + intros [Hn|(j & r & Hj & Hf)]; [contradiction|].
        exists r. split; [now apply (list_elem_of_lookup_2 _ j)|].
        apply convert_record_raises. destruct Hf as [Hv|[_ Ht]]; auto.
    - split; [intros _; now left | intros _; now exists ValueError]. }
  split; [exact Hiff|]. split.
  - intros metrics Hok. unfold convert_data in Hok.
    destruct (negb (bool_decide (metric_type ∈ VALID_TYPES)));
      [discriminate|].
    apply convert_records_ok in Hok.
    destruct (Forall2_lookup_l _ _ _ _ _ Hok Hi) as (m & Hm & Hc).
    unfold convert_record in Hc. rewrite Hts in Hc.
    destruct (convert_value value_column record) as [v|e];
      cbn [py_bind] in Hc; [|discriminate].
    injection Hc as <-. exists v. split; [reflexivity | exact Hm].
  - intros Hty Hvals Htss.
    destruct (convert_data repr_float data metric_name metric_type
                value_column label_columns help_text
                (Some timestamp_column)) as [metrics|e] eqn:E;
      [now exists metrics|].
    exfalso.
    assert (Hraise : raises (@Raise (list PrometheusMetric) e))
      by (now exists e).
    apply Hiff in Hraise as [Hn|(j & r & Hj & [Hv|[Hne Ht]])].
    + contradiction.
    + destruct (Hvals r (list_elem_of_lookup_2 _ _ _ Hj)) as [v Hv'].
      rewrite Hv' in Hv. destruct Hv as [e' He']. discriminate.
    + destruct (Htss j r Hj Hne) as [ts Hts']. rewrite Hts' in Ht.
      destruct Ht as [e' He']. discriminate.
Qed.
End Batch.

Lemma unparseable_timestamp_is_omitted_witness :
  exists v,
    convert_value "usage" cpu_record = Ok v
    /\ two_samples !! 1%nat
       = Some (mkMetric "cpu_usage" v "gauge"
                 (convert_labels PyFloat.repr ["host"] cpu_record)
                 (Some "CPU usage") None).
Proof.
  destruct (unparseable_timestamp_is_omitted PyFloat.repr
              [host_record; cpu_record] "cpu_usage" "gauge" "usage"
              (Some ["host"]) (Some "CPU usage") "time" 1 cpu_record
              "yesterday") as (_ & Hsample & _).
  - reflexivity.
  - vm_compute. reflexivity.
  - vm_compute. reflexivity.
  - apply (Hsample two_samples). vm_compute. reflexivity.
Defined.

End ConvertBatchFacts.

(** ** [parse_influxdb_csv]: header, rows and errors *)

Module LegacyParserFacts.
Import Legacy PyFacts Samples MoreSamples.

Lemma index_None name headers : index name headers = None <-> name ∉ headers.
Proof.
  induction headers as [|h hs IH]; cbn [index].
  - split; [intros _; apply not_elem_of_nil | reflexivity].
  - rewrite not_elem_of_cons.
    destruct (String.eqb_spec h name) as [->|Hne].
    + split; [discriminate | intros [? _]; congruence].
    + destruct (index name hs) as [i|].
      * split; [discriminate|]. intros [_ Hn]. now apply IH in Hn.
      * split; [|reflexivity]. intros _. split; [congruence|]. now apply IH.
Qed.

Lemma index_lt name headers i :
  index name headers = Some i -> (i < length headers)%nat.
Proof.
  intros Hi. apply LegacyFacts.index_lookup in Hi.
  now apply lookup_lt_Some in Hi.
Qed.

Lemma find_headers_annotations comments rows :
  Forall (fun row => match row with
                     | [] => True
                     | c :: _ => Py.startswith c "#" = true
                     end) comments ->
  find_headers (comments ++ rows) = find_headers rows.
Proof.
  induction 1 as [|[|c cs] comments Hc _ IH]; cbn [app find_headers];
    [reflexivity | exact IH |].
  now rewrite Hc.
Qed.

Lemma find_headers_header rows headers data :
  find_headers rows = Some (headers, data) ->
  forall data', find_headers (headers :: data') = Some (headers, data').
Proof.
  induction rows as [|[|c cs] rows IH]; cbn [find_headers];
    [discriminate | exact IH |].
  destruct (Py.startswith c "#") eqn:Ec; [exact IH|].
  intros [= <- <-] data'. cbn [find_headers]. now rewrite Ec.
Qed.

(** X7. Empty rows and annotation rows (first cell beginning with [#])
    that come before the header row are ignored, whatever their number
    and their other cells. *)
Theorem annotations_before_header_ignored
    (comments rows : list (list string)) (err : option exn) :
  Forall (fun row => match row with
                     | [] => True
                     | c :: _ => Py.startswith c "#" = true
                     end) comments ->
  parse_rows (comments ++ rows) err = parse_rows rows err.
Proof.
  intros Hc. unfold parse_rows. now rewrite find_headers_annotations.
Qed.

Lemma annotations_before_header_ignored_witness :
  parse_rows ([["#group"; "false"; "true"]; []; ["#default"; "_result"]]
              ++ [["_time"; "_measurement"; "_field"; "_value"];
                  ["7"; "cpu"; "idle"; "1"]]) None
  = Ok [mkItem "7" "cpu" "idle" "1" []].
Proof.
  rewrite annotations_before_header_ignored.
  - reflexivity.
  - repeat constructor.
Defined.

(** X8. Read from a text that the CSV reader accepts, the parser fails
    in two cases only, both with [ValueError]: no header row (every row
    is empty or an annotation), or a header row that lacks one of
    [_time], [_measurement], [_field], [_value].  No data row makes it
    fail. *)
Theorem parse_rows_errors (rows : list (list string)) (e : exn) :
  parse_rows rows None = Raise e
  <-> e = ValueError
      /\ (find_headers rows = None
          \/ exists headers data name,
               find_headers rows = Some (headers, data)
               /\ name ∈ ["_time"; "_measurement"; "_field"; "_value"]
               /\ name ∉ headers).
Proof.
  unfold parse_rows.
  destruct (find_headers rows) as [[headers data]|].
  - destruct (index "_time" headers) as [ti|] eqn:Et;
      [destruct (index "_measurement" headers) as [mi|] eqn:Em;
       [destruct (index "_field" headers) as [fi|] eqn:Ef;
        [destruct (index "_value" headers) as [vi|] eqn:Ev|]|]|].
    + split; [discriminate|].
      intros (_ & [[=]|(hs & d & name & [= <- <-] & Hname & Hnot)]).
      apply index_None in Hnot.
      rewrite !elem_of_cons, elem_of_nil in Hname.
      destruct Hname as [->|[->|[->|[->|[]]]]]; congruence.
    + split; [|intros [-> _]; reflexivity].
      intros [= <-]. split; [reflexivity|]. right.
      exists headers, data, "_value". split; [reflexivity|].
      split; [|now apply index_None].
      rewrite !elem_of_cons. auto.
    + split; [|intros [-> _]; reflexivity].
      intros [= <-]. split; [reflexivity|]. right.
      exists headers, data, "_field". split; [reflexivity|].
      split; [|now apply index_None].
      rewrite !elem_of_cons. auto.
    + split; [|intros [-> _]; reflexivity].
      intros [= <-]. split; [reflexivity|]. right.
      exists headers, data, "_measurement". split; [reflexivity|].
      split; [|now apply index_None].
      rewrite !elem_of_cons. auto.
    + split; [|intros [-> _]; reflexivity].
      intros [= <-]. split; [reflexivity|]. right.
      exists headers, data, "_time". split; [reflexivity|].
      split; [|now apply index_None].
      rewrite !elem_of_cons. auto.
  - split; [|intros [-> _]; reflexivity].
    intros [= <-]. split; [reflexivity|]. now left.
Qed.

Lemma parse_row_complete headers ti mi fi vi row :
  index "_time" headers = Some ti ->
  index "_measurement" headers = Some mi ->
  index "_field" headers = Some fi ->
  index "_value" headers = Some vi ->
  (length headers <= length row)%nat ->
  parse_row headers ti mi fi vi row
  = Some (mkItem (nth ti row "") (nth mi row "") (nth fi row "")
                 (nth vi row "") (extract_tags headers row [])).
Proof.
  intros Ht Hm Hf Hv Hlen.
  apply index_lt in Ht, Hm, Hf, Hv. unfold parse_row.
  destruct row as [|c cs]; [cbn [length] in Hlen; lia|].
  destruct (Nat.ltb_spec (length (c :: cs))
              (Nat.max (Nat.max ti mi) (Nat.max fi vi) + 1)) as [Hlt|_];
    [lia | reflexivity].
Qed.

Lemma parse_row_short headers ti mi fi vi row :
  (length row <= Nat.max (Nat.max ti mi) (Nat.max fi vi))%nat ->
  parse_row headers ti mi fi vi row = None.
Proof.
  intros Hlen. unfold parse_row. destruct row as [|c cs]; [reflexivity|].
  destruct (Nat.ltb_spec (length (c :: cs))
              (Nat.max (Nat.max ti mi) (Nat.max fi vi) + 1)) as [_|Hge];
    [reflexivity | lia].
Qed.

(** X9. When every data row has at least as many cells as the header
    row, the parser returns one record per data row, in the order of the
    rows; the four fields of a record are the cells of its row under the
    first headers named [_time], [_measurement], [_field] and
    [_value]. *)
Theorem complete_rows_one_record_each (rows : list (list string))
    (headers : list string) (data : list (list string))
    (items : list item) :
  find_headers rows = Some (headers, data) ->
  parse_rows rows None = Ok items ->
  Forall (fun row => (length headers <= length row)%nat) data ->
  length items = length data
  /\ Forall2
       (fun row it =>
          (forall i, index "_time" headers = Some i ->
                     row !! i = Some (timestamp it))
          /\ (forall i, index "_measurement" headers = Some i ->
                        row !! i = Some (measurement it))
          /\ (forall i, index "_field" headers = Some i ->
                        row !! i = Some (field it))
          /\ (forall i, index "_value" headers = Some i ->
                        row !! i = Some (value it)))
       data items.
Proof.
  intros Hf Hp Hall.
  apply LegacyFacts.parse_rows_items in Hp
    as (hs & d & ti & mi & fi & vi & Hf' & Ht & Hm & Hfi & Hv & ->).
  rewrite Hf in Hf'. injection Hf' as <- <-.
  assert (HF : Forall2
                 (fun row it =>
                    parse_row headers ti mi fi vi row = Some it
                    /\ (length headers <= length row)%nat)
                 data (omap (parse_row headers ti mi fi vi) data)).
  { clear Hf. induction Hall as [|row data Hrow _ IH]; [constructor|].
    cbn [omap list_omap].
    rewrite (parse_row_complete _ _ _ _ _ _ Ht Hm Hfi Hv Hrow) at 1.
    constructor; [|exact IH].
    split; [now apply parse_row_complete | exact Hrow]. }
  split; [symmetry; exact (Forall2_length _ _ _ HF)|].
  eapply Forall2_impl; [exact HF|].
  intros row it [Hit Hrow]. cbn beta.
  rewrite (parse_row_complete _ _ _ _ _ _ Ht Hm Hfi Hv Hrow) in Hit.
  injection Hit as <-. cbn [timestamp measurement field value].
  pose proof (index_lt _ _ _ Ht). pose proof (index_lt _ _ _ Hm).
  pose proof (index_lt _ _ _ Hfi). pose proof (index_lt _ _ _ Hv).
  assert (Hnth : forall i, (i < length headers)%nat ->
                           row !! i = Some (nth i row "")).
  { intros i Hi. destruct (lookup_lt_is_Some_2 row i) as [x Hx]; [lia|].
    rewrite Hx. f_equal. symmetry. exact (nth_lookup_Some _ _ "" _ Hx). }
  repeat split; intros i Hi.
  - rewrite Ht in Hi. injection Hi as <-. now apply Hnth.
  - rewrite Hm in Hi. injection Hi as <-. now apply Hnth.
  - rewrite Hfi in Hi. injection Hi as <-. now apply Hnth.
  - rewrite Hv in Hi. injection Hi as <-. now apply Hnth.
Qed.

Lemma complete_rows_one_record_each_witness :
  exists items,
    parse_influxdb_csv minimal_csv = Ok items /\ length items = 2%nat.
Proof.
  exists [mkItem "2023-01-01T06:00:00Z" "cpu" "usage_user" "90.5"
            [("host", "server01")];
          mkItem "2023-01-01T07:00:00Z" "cpu" "usage_system" "91.2"
            [("host", "server01")]].
  split; [vm_compute; reflexivity|].
  refine (proj1 (complete_rows_one_record_each
                   (fst (Csv.reader_rows minimal_csv))
                   ["_time"; "_value"; "_field"; "_measurement"; "host"]
                   [["2023-01-01T06:00:00Z"; "90.5"; "usage_user"; "cpu";
                     "server01"];
                    ["2023-01-01T07:00:00Z"; "91.2"; "usage_system"; "cpu";
                     "server01"]] _ _ _ _)).
  - vm_compute. reflexivity.
  - vm_compute. reflexivity.
  - repeat constructor.
Defined.

(** X10. A data row too short to hold one of the four reserved columns
    (an empty row included) is skipped: the result is the one of the
    text without that row, and the rows around it are not affected. *)
Theorem incomplete_row_skipped (rows : list (list string))
    (headers : list string) (before after : list (list string))
    (row : list string) (err : option exn) (name : string) (i : nat) :
  find_headers rows = Some (headers, before ++ row :: after) ->
  name ∈ ["_time"; "_measurement"; "_field"; "_value"] ->
  index name headers = Some i ->
  (length row <= i)%nat ->
  parse_rows rows err = parse_rows (headers :: before ++ after) err.
Proof.
  intros Hf Hname Hi Hlen. unfold parse_rows.
  rewrite (find_headers_header _ _ _ Hf), Hf.
  destruct (index "_time" headers) as [ti|] eqn:Et; [|reflexivity].
  destruct (index "_measurement" headers) as [mi|] eqn:Em; [|reflexivity].
  destruct (index "_field" headers) as [fi|] eqn:Ef; [|reflexivity].
  destruct (index "_value" headers) as [vi|] eqn:Ev; [|reflexivity].
  destruct err as [e|]; [reflexivity|]. f_equal.
  rewrite !omap_app. f_equal. cbn [omap list_omap].
  rewrite parse_row_short; [reflexivity|].
  rewrite !elem_of_cons, elem_of_nil in Hname.
  destruct Hname as [->|[->|[->|[->|[]]]]];
    match goal with
    | H1 : index ?n headers = Some i, H2 : index ?n headers = Some _ |- _ =>
        rewrite H1 in H2; injection H2 as <-
    end; lia.
Qed.

Lemma incomplete_row_skipped_witness :
  parse_rows [["_time"; "_measurement"; "_field"; "_value"];
              ["7"; "cpu"; "idle"; "1"]; ["8"; "cpu"];
              ["9"; "cpu"; "idle"; "3"]] None
  = Ok [mkItem "7" "cpu" "idle" "1" []; mkItem "9" "cpu" "idle" "3" []].
Proof.
  rewrite (incomplete_row_skipped _
             ["_time"; "_measurement"; "_field"; "_value"]
             [["7"; "cpu"; "idle"; "1"]] [["9"; "cpu"; "idle"; "3"]]
             ["8"; "cpu"] None "_value" 3).
  - reflexivity.
  - reflexivity.
  - rewrite !elem_of_cons. auto.
  - reflexivity.
  - cbn [length]. lia.
Defined.

(** *** Tags *)

Lemma dict_set_fresh k v d :
  dict_get k d = None -> dict_set k v d = d ++ [(k, v)].
Proof.
  induction d as [|[k' v'] d IH]; cbn [dict_get dict_set app];
    [reflexivity|].
  destruct (String.eqb k' k); [discriminate|].
  intros Hd. now rewrite IH.
Qed.

Lemma extract_tags_fresh headers row acc :
  NoDup headers ->
  (forall h, h ∈ headers -> dict_get h acc = None) ->
  extract_tags headers row acc
  = acc ++ omap (fun hc : string * string =>
                   if negb (Py.startswith hc.1 "_")
                      && negb (String.eqb hc.2 "")
                   then Some hc else None)
                (zip headers row).
Proof.
  revert row acc.
  induction headers as [|h hs IH]; intros [|c cs] acc Hnd Hacc;
    cbn [extract_tags zip zip_with omap list_omap];
    try (now rewrite app_nil_r).
  apply NoDup_cons in Hnd as [Hh Hnd]. cbn [fst snd].
  destruct (negb (Py.startswith h "_") && negb (String.eqb c "")).
  - rewrite IH, dict_set_fresh; [now rewrite <- app_assoc | | exact Hnd |].
    + apply Hacc. left.
    + intros h' Hh'. rewrite LegacyFacts.dict_get_set.
      destruct (String.eqb_spec h h') as [->|_]; [contradiction|].
      apply Hacc. now right.
  - apply IH; [exact Hnd|]. intros h' Hh'. apply Hacc. now right.
Qed.

(** X11. With distinct header names, the tags of a record are the pairs
    of header and cell, in the order of the columns, for the headers
    that do not begin with an underscore and whose cell is not empty:
    the labels of the legacy output follow the column order. *)
Theorem tags_in_column_order (headers row : list string) :
  NoDup headers ->
  extract_tags headers row []
  = omap (fun hc : string * string =>
            if negb (Py.startswith hc.1 "_") && negb (String.eqb hc.2 "")
            then Some hc else None)
         (zip headers row).
Proof.
  intros Hnd. now rewrite extract_tags_fresh.
Qed.

Lemma tags_in_column_order_witness :
  extract_tags ["zone"; "_time"; "host"; "rack"] ["eu"; "7"; "a"; ""] []
  = [("zone", "eu"); ("host", "a")].
Proof.
  rewrite tags_in_column_order.
  - reflexivity.
  - repeat constructor; rewrite ?elem_of_cons, ?elem_of_nil;
      intuition discriminate.
Defined.

(** *** The conversion loop *)

Section Lines.
Context `{DatetimeLib}.

Lemma prom_lines_raises items :
  raises (prom_lines items)
  <-> exists it, it ∈ items /\ raises (format_timestamp (timestamp it)).
Proof.
  induction items as [|it items IH]; cbn [prom_lines].
  - split; [intros [e He]; discriminate|].
    intros (it & Hit & _). inversion Hit.
  - unfold prom_line at 1.
    destruct (format_timestamp (timestamp it)) as [ts|e] eqn:Et;
      cbn [py_bind].
    + destruct (prom_lines items) as [ls|e] eqn:El; cbn [py_bind].
      * split; [intros [e He]; discriminate|].
        intros (it' & Hit' & Hr). apply elem_of_cons in Hit' as [->|Hit'].
        -- rewrite Et in Hr. destruct Hr as [e He]. discriminate.
        -- destruct IH as [_ IH].
           destruct IH as [e He]; [now exists it'|]. discriminate.
      * split; [|intros _; now exists e].
        intros _. destruct IH as [IH _].
        destruct IH as (it' & Hit' & Hr); [now exists e|].
        exists it'. split; [now right | exact Hr].
    + split; [|intros _; now exists e].
      intros _. exists it. split; [left|]. rewrite Et. now exists e.
Qed.

Lemma prom_lines_ok items ls :
  prom_lines items = Ok ls
  <-> Forall2 (fun it l => prom_line it = Ok l) items ls.
Proof.
  revert ls. induction items as [|it items IH]; intros ls;
    cbn [prom_lines].
  - split; [intros [= <-]; constructor | intros Hf; now inversion Hf].
  - split.
    + destruct (prom_line it) as [l|e] eqn:El; cbn [py_bind];
        [|discriminate].
      destruct (prom_lines items) as [ls'|e] eqn:Els; cbn [py_bind];
        [|discriminate].
      intros [= <-]. constructor; [exact El | now apply IH].
    + intros Hf. inversion Hf as [|it' l items' ls' Hl Hrest]; subst.
      rewrite Hl. cbn [py_bind]. apply IH in Hrest. now rewrite Hrest.
Qed.

Lemma omap_parse_row headers ti mi fi vi data :
  omap (parse_row headers ti mi fi vi) data
  = map (fun row =>
           mkItem (nth ti row "") (nth mi row "") (nth fi row "")
                  (nth vi row "") (extract_tags headers row []))
        (filter (fun row =>
                   (Nat.max (Nat.max ti mi) (Nat.max fi vi)
                    < length row)%nat) data).
Proof.
  induction data as [|row data IH]; [reflexivity|].
  cbn [omap list_omap]. fold (omap (parse_row headers ti mi fi vi) data).
  rewrite IH.
  destruct (decide (Nat.max (Nat.max ti mi) (Nat.max fi vi)
                    < length row)%nat) as [Hlen|Hlen].
  - rewrite filter_cons_True by exact Hlen. cbn [map].
    unfold parse_row. destruct row as [|c cs]; [cbn in Hlen; lia|].
    destruct (Nat.ltb_spec (length (c :: cs))
                (Nat.max (Nat.max ti mi) (Nat.max fi vi) + 1));
      [lia | reflexivity].
  - rewrite filter_cons_False by exact Hlen.
    rewrite parse_row_short by lia. reflexivity.
Qed.

(** C9 (amended). On a text that the CSV reader reads without error
    and whose header row holds the four reserved columns,
    [influx_to_prometheus] copies the [_value] cells: its output is
    one line per complete data row, in the order of the rows, and the
    line of a row is the metric name, the labels, the cell of the row
    under [_value] unchanged and the normalised timestamp.  The value
    is never parsed: the call raises exactly when the timestamp of
    some complete row cannot be normalised, whatever the values. *)
Theorem value_emitted_verbatim (csv_data : string)
    (rows : list (list string)) (headers : list string)
    (data : list (list string))
    (time_idx measurement_idx field_idx value_idx : nat) :
  Csv.reader_rows csv_data = (rows, None) ->
  find_headers rows = Some (headers, data) ->
  index "_time" headers = Some time_idx ->
  index "_measurement" headers = Some measurement_idx ->
  index "_field" headers = Some field_idx ->
  index "_value" headers = Some value_idx ->
  let complete :=
    filter (fun row =>
              (Nat.max (Nat.max time_idx measurement_idx)
                       (Nat.max field_idx value_idx)
               < length row)%nat) data in
  (forall out,
      influx_to_prometheus csv_data = Ok out ->
      exists lines,
        out = Py.join newline lines
        /\ Forall2
             (fun row line =>
                exists value ts,
                  row !! value_idx = Some value
                  /\ format_timestamp (nth time_idx row "") = Ok ts
                  /\ line
                     = (nth measurement_idx row "" +:+ "_"
                          +:+ nth field_idx row "")
                         +:+ labels_str (extract_tags headers row [])
                         +:+ " " +:+ value +:+ " " +:+ ts)
             complete lines)
  /\ (raises (influx_to_prometheus csv_data)
      <-> exists row,
            row ∈ complete
            /\ raises (format_timestamp (nth time_idx row ""))).
Proof.
  intros Hrows Hf Ht Hm Hfi Hv complete.
  assert (Hparse : parse_influxdb_csv csv_data
                   = Ok (map (fun row =>
                                mkItem (nth time_idx row "")
                                       (nth measurement_idx row "")
                                       (nth field_idx row "")
                                       (nth value_idx row "")
                                       (extract_tags headers row []))
                             complete)).
  { unfold parse_influxdb_csv. rewrite Hrows. unfold parse_rows.
    rewrite Hf, Ht, Hm, Hfi, Hv. now rewrite omap_parse_row. }
  unfold influx_to_prometheus. rewrite Hparse. cbn [py_bind]. split.
  - intros out Hout.
    destruct (prom_lines _) as [ls|e] eqn:El; cbn [py_bind] in Hout;
      [|discriminate].
    injection Hout as <-. exists ls. split; [reflexivity|].
    apply prom_lines_ok, Forall2_fmap_l in El.
    assert (Hall : Forall (fun row => (value_idx < length row)%nat)
                          complete).
    { apply Forall_forall. intros row Hrow.
      apply list_elem_of_filter in Hrow as [Hlen _]. lia. }
    clear Hparse. clearbody complete. revert Hall.
    induction El as [|row l rows' ls Hl _ IH]; intros Hall;
      constructor.
    + apply Forall_cons in Hall as [Hlen _].
      unfold compose, prom_line in Hl.
      cbn [timestamp measurement field value tags] in Hl.
      destruct (format_timestamp (nth time_idx row "")) as [ts|e];
        cbn [py_bind] in Hl; [|discriminate].
      injection Hl as <-.
      destruct (lookup_lt_is_Some_2 row value_idx Hlen) as [x Hx].
      exists x, ts. split; [exact Hx|]. split; [reflexivity|].
      now rewrite (nth_lookup_Some _ _ "" _ Hx).
    + apply IH. now apply Forall_cons in Hall as [_ ?].
  - assert (Hl : raises (prom_lines
                           (map (fun row =>
                                   mkItem (nth time_idx row "")
                                          (nth measurement_idx row "")
                                          (nth field_idx row "")
                                          (nth value_idx row "")
                                          (extract_tags headers row []))
                                complete))
                 <-> exists row,
                       row ∈ complete
                       /\ raises (format_timestamp (nth time_idx row ""))).
    { rewrite prom_lines_raises. split.
      - intros (it & Hit & Hr).
        apply list_elem_of_In, in_map_iff in Hit as (row & <- & Hrow).
        exists row. split; [now apply list_elem_of_In | exact Hr].
      - intros (row & Hrow & Hr). eexists. split.
        + apply list_elem_of_In, in_map, list_elem_of_In. exact Hrow.
        + exact Hr. }
    rewrite <- Hl.
    destruct (prom_lines _) as [ls|e]; cbn [py_bind]; split.
    + intros [e He]. discriminate.
    + intros [e He]. discriminate.
    + intros _. now exists e.
    + intros _. now exists e.
Qed.

(** X12. [influx_to_prometheus] is all or nothing: it raises exactly
    when the parser raises or the timestamp of some parsed record
    cannot be normalised; one such record loses the lines of all the
    other records. *)
Theorem influx_to_prometheus_all_or_nothing (csv_data : string) :
  raises (influx_to_prometheus csv_data)
  <-> raises (parse_influxdb_csv csv_data)
      \/ exists items it,
           parse_influxdb_csv csv_data = Ok items
           /\ it ∈ items
           /\ raises (format_timestamp (timestamp it)).
Proof.
  unfold influx_to_prometheus.
  destruct (parse_influxdb_csv csv_data) as [items|e]; cbn [py_bind].
  - split.
    + intros Hr. right.
      assert (Hl : raises (prom_lines items)).
      { destruct (prom_lines items) as [ls|e]; cbn [py_bind] in Hr;
          [destruct Hr; discriminate | now exists e]. }
      apply prom_lines_raises in Hl as (it & Hit & Hts).
      now exists items, it.
    + intros [[e He]|(items' & it & [= <-] & Hit & Hts)]; [discriminate|].
      assert (Hl : raises (prom_lines items)).
      { apply prom_lines_raises. now exists it. }
      destruct Hl as [e ->]. now exists e.
  - split; [intros _; left; now exists e | intros _; now exists e].
Qed.

(** X13. A header row that is repeated among the data rows, as in a
    response that holds several tables, makes [influx_to_prometheus]
    raise: the repeated row is taken as a data row whose time cell is
    the text [_time]. *)
Theorem repeated_header_aborts (csv_data : string)
    (rows : list (list string)) (err : option exn)
    (headers : list string) (data : list (list string)) :
  fromisoformat "_time" = Raise ValueError ->
  Csv.reader_rows csv_data = (rows, err) ->
  find_headers rows = Some (headers, data) ->
  headers ∈ data ->
  raises (influx_to_prometheus csv_data).
Proof.
  intros Hiso Hrows Hf Hin. unfold influx_to_prometheus.
  unfold parse_influxdb_csv. rewrite Hrows. unfold parse_rows.
  rewrite Hf.
  destruct (index "_time" headers) as [ti|] eqn:Et;
    [|now exists ValueError].
  destruct (index "_measurement" headers) as [mi|] eqn:Em;
    [|now exists ValueError].
  destruct (index "_field" headers) as [fi|] eqn:Ef;
    [|now exists ValueError].
  destruct (index "_value" headers) as [vi|] eqn:Ev;
    [|now exists ValueError].
  destruct err as [e|]; [now exists e|]. cbn [py_bind].
  assert (Hl : raises (prom_lines (omap (parse_row headers ti mi fi vi)
                                        data))).
  { apply prom_lines_raises. eexists. split.
    - apply list_elem_of_omap. exists headers. split; [exact Hin|].
      apply parse_row_complete; try assumption. lia.
    - cbn [timestamp].
      apply LegacyFacts.index_lookup in Et.
      rewrite (nth_lookup_Some _ _ "" _ Et).
      exists ValueError. unfold format_timestamp, rfc3339_attempt.
      change (Py.replace "Z" "+00:00" "_time") with "_time".
      rewrite Hiso. reflexivity. }
  destruct Hl as [e ->]. now exists e.
Qed.
End Lines.

Lemma value_emitted_verbatim_witness :
  exists lines,
    "cpu_usage_user{host=" +:+ dquote +:+ "server01" +:+ dquote
      +:+ "} n/a 1672552800000"
    = Py.join newline lines
    /\ length lines = 1%nat.
Proof.
  destruct (value_emitted_verbatim text_value_csv
              (fst (Csv.reader_rows text_value_csv))
              ["_time"; "_measurement"; "_field"; "_value"; "host"]
              [["2023-01-01T06:00:00Z"; "cpu"; "usage_user"; "n/a";
                "server01"]]
              0 1 2 3) as [Hout _]; try (vm_compute; reflexivity).
  destruct (Hout ("cpu_usage_user{host=" +:+ dquote +:+ "server01"
                    +:+ dquote +:+ "} n/a 1672552800000"))
    as (lines & Hjoin & Hlines); [vm_compute; reflexivity|].
  exists lines. split; [exact Hjoin|].
  rewrite <- (Forall2_length _ _ _ Hlines). vm_compute. reflexivity.
Defined.

(** C9 as stated fails: with the same row and timestamp, a [_value]
    cell of one character is copied, and a [_value] cell of 131073
    characters makes the CSV reader, and with it [influx_to_prometheus],
    raise. *)
Lemma long_value_cell_raises :
  influx_to_prometheus (value_csv "x")
  = Ok ("cpu_usage{host=" +:+ dquote +:+ "server01" +:+ dquote
        +:+ "} x 1672552800000")
  /\ influx_to_prometheus (value_csv long_text) = Raise CsvError.
Proof. split; vm_compute; reflexivity. Qed.

Lemma repeated_header_aborts_witness :
  raises (influx_to_prometheus two_tables_csv).
Proof.
  apply (repeated_header_aborts two_tables_csv
           (fst (Csv.reader_rows two_tables_csv)) None
           ["_time"; "_measurement"; "_field"; "_value"; "host"]
           [["2023-01-01T06:00:00Z"; "cpu"; "usage_user"; "90.5";
             "server01"];
            [];
            ["_time"; "_measurement"; "_field"; "_value"; "host"];
            ["2023-01-01T06:00:00Z"; "mem"; "used"; "512"; "server01"]]).
  - vm_compute. reflexivity.
  - vm_compute. reflexivity.
  - vm_compute. reflexivity.
  - rewrite !elem_of_cons. auto.
Defined.

End LegacyParserFacts.

(** ** Whole seconds are converted exactly *)

Module TimestampFacts.
Import PyFloat PyFloatFacts.

(** The quotient of [k * b] by [b] is the float of [k]. *)
Lemma of_ratio_exact k b :
  0 < k -> k < 2 ^ prec -> 0 < b -> of_ratio false (k * b) b = exact k.
Proof.
  intros Hk Hkb Hb.
  assert (Hkb0 : 0 < k * b) by nia.
  pose proof (log2_below k prec Hk Hkb) as Hdk.
  pose proof (Z.log2_nonneg k) as Hlk.
  pose proof (Z.log2_nonneg b) as Hlb.
  pose proof (Z.log2_mul_below k b Hk Hb) as Hlo.
  pose proof (Z.log2_mul_above k b ltac:(lia) ltac:(lia)) as Hhi.
  unfold of_ratio.
  destruct (Z.eqb_spec (k * b) 0) as [E|_]; [lia|].
  unfold SFdiv_core_binary.
  rewrite !Zdigits2_log2 by assumption.
  unfold fexp.
  set (s := prec + (Z.log2 b + 1) - (Z.log2 (k * b) + 1)).
  replace (Z.min (Z.max (Z.log2 (k * b) + 1 + 0 - (Z.log2 b + 1 + 0) - prec)
                        (emin prec emax)) (0 - 0))
    with (- s) by (unfold s, emin, prec, emax in *; lia).
  replace (0 - 0 - - s) with s by lia.
  assert (Hs : 0 <= s) by (unfold s, prec in *; lia).
  assert (Hm : match s with
               | 0 => k * b
               | Z.pos _ => Z.shiftl (k * b) s
               | Z.neg _ => 0
               end = (k * 2 ^ s) * b).
  { destruct s as [|p|p] eqn:Es; [rewrite Z.pow_0_r; ring | | lia].
    rewrite Z.shiftl_mul_pow2 by lia. ring. }
  rewrite Hm.
  destruct (Z.div_eucl (k * 2 ^ s * b) b) as [q r] eqn:Ed.
  assert (Hq : q = k * 2 ^ s).
  { change q with (fst (q, r)). rewrite <- Ed.
    change (fst (Z.div_eucl (k * 2 ^ s * b) b)) with ((k * 2 ^ s * b) / b).
    apply Z.div_mul. lia. }
  assert (Hr : r = 0).
  { change r with (snd (q, r)). rewrite <- Ed.
    change (snd (Z.div_eucl (k * 2 ^ s * b) b))
      with ((k * 2 ^ s * b) mod b).
    apply Z.mod_mul. lia. }
  subst q r.
  assert (Hloc : new_location b 0 = loc_Exact).
  { unfold new_location. destruct (Z.even b); reflexivity. }
  rewrite Hloc.
  rewrite round_aux_exact by (unfold s, emin, prec, emax in *; lia).
  unfold exact. f_equal; [f_equal; f_equal; f_equal|];
    unfold s, prec in *; lia.
Qed.

Lemma bind_Ok {A B} (a : A) (f : A -> py B) : py_bind (Ok a) f = f a.
Proof. reflexivity. Qed.

Lemma days_in_month_bounds y m : 0 <= Iso.days_in_month y m <= 31.
Proof.
  unfold Iso.days_in_month.
  destruct (m =? 2); [destruct (Iso.is_leap y); lia|].
  destruct (_ || _); lia.
Qed.

Lemma days_before_month_go_bounds y n :
  0 <= Iso.days_before_month_go y n <= 31 * Z.of_nat n.
Proof.
  induction n as [|n IH]; cbn [Iso.days_before_month_go]; [lia|].
  pose proof (days_in_month_bounds y (Z.of_nat (S n))). lia.
Qed.

Lemma in_range_spec lo x hi :
  Iso.in_range lo x hi = true -> lo <= x <= hi.
Proof. unfold Iso.in_range. lia. Qed.

(** The instants that [fromisoformat] accepts lie far below the integers
    that a float holds exactly. *)
Lemma epoch_microseconds_bound x :
  Iso.valid x = true -> Iso.epoch_microseconds x < 2 ^ prec * 1000.
Proof.
  unfold Iso.valid. rewrite !andb_true_iff.
  intros [[[[[[[Hy Hm] Hd] Hh] Hmi] Hs] Hus] Ho].
  apply in_range_spec in Hy, Hm, Hd, Hh, Hmi, Hs, Hus.
  pose proof (days_in_month_bounds (Iso.year x) (Iso.month x)).
  pose proof (days_before_month_go_bounds (Iso.year x)
                (Z.to_nat (Iso.month x - 1))) as Hbm.
  unfold Iso.epoch_microseconds, Iso.toordinal, Iso.days_before_month.
  change (Iso.days_before_year 1970 + Iso.days_before_month_go 1970
            (Z.to_nat (1 - 1)) + 1) with 719163.
  unfold Iso.days_before_year.
  assert (Ho' : -86400000000 < match Iso.utcoffset x with
                               | Some o => o
                               | None => 0
                               end).
  { destruct (Iso.utcoffset x); lia. }
  change (2 ^ prec * 1000) with 9007199254740992000.
  pose proof (Z.div_pos (Iso.year x - 1) 100 ltac:(lia) ltac:(lia)).
  pose proof (Z.div_le_upper_bound (Iso.year x - 1) 4 9998
                ltac:(lia) ltac:(lia)).
  pose proof (Z.div_le_upper_bound (Iso.year x - 1) 400 9998
                ltac:(lia) ltac:(lia)).
  lia.
Qed.

Lemma seconds_exact k :
  0 <= k -> k * 1000000 < 2 ^ prec * 1000 ->
  to_int (mul (of_ratio false (k * 1000000) 1000000) (of_Z 1000))
  = Ok (k * 1000).
Proof.
  intros Hk Hb. change (2 ^ prec * 1000) with 9007199254740992000 in Hb.
  destruct (Z.eq_dec k 0) as [->|Hk0]; [vm_compute; reflexivity|].
  rewrite of_ratio_exact
    by (try reflexivity; change (2 ^ prec) with 9007199254740992; lia).
  rewrite (of_Z_exact 1000) by reflexivity.
  rewrite mul_exact
    by (try reflexivity; change (2 ^ prec) with 9007199254740992; lia).
  apply to_int_exact; change (2 ^ prec) with 9007199254740992; lia.
Qed.

Lemma whole_seconds_milliseconds x :
  Iso.valid x = true ->
  Iso.epoch_microseconds x mod 1000000 = 0 ->
  0 <= Iso.epoch_microseconds x ->
  to_int (mul (of_ratio (Iso.epoch_microseconds x <? 0)
                        (Z.abs (Iso.epoch_microseconds x)) 1000000)
              (of_Z 1000))
  = Ok (Iso.epoch_microseconds x / 1000).
Proof.
  intros Hv Hmod Hpos. pose proof (epoch_microseconds_bound x Hv) as Hb.
  apply Z.mod_divide in Hmod as [k Hk]; [|lia].
  rewrite Hk in *.
  assert (Hneg : (k * 1000000 <? 0) = false) by lia.
  rewrite Hneg, Z.abs_eq, seconds_exact by lia.
  f_equal. replace (k * 1000000) with (k * 1000 * 1000) by ring.
  symmetry. apply Z.div_mul. lia.
Qed.

(** X14. On the datetime instance, a timestamp text that denotes a whole
    number of seconds at or after 1970-01-01T00:00:00Z is converted to
    its exact number of milliseconds, by the legacy normaliser and by the
    grouped converter alike: the float arithmetic of
    [int(dt.timestamp() * 1000)] loses nothing. *)
Theorem whole_seconds_exact (ts : string) (x : Iso.t)
    (repr_float : spec_float -> string) :
  Iso.fromisoformat (Py.replace "Z" "+00:00" ts) = Ok x ->
  Iso.epoch_microseconds x mod 1000000 = 0 ->
  0 <= Iso.epoch_microseconds x ->
  Legacy.format_timestamp ts
  = Ok (str_of_Z (Iso.epoch_microseconds x / 1000))
  /\ Converter.iso_milliseconds repr_float (Converter.VStr ts)
     = Ok (Iso.epoch_microseconds x / 1000).
Proof.
  intros Hiso Hmod Hpos.
  assert (Hv : Iso.valid x = true).
  { unfold Iso.fromisoformat in Hiso.
    destruct (Iso.parse _) as [y|]; [|discriminate].
    destruct (Iso.valid y) eqn:Ey; [|discriminate].
    now injection Hiso as <-. }
  pose proof (whole_seconds_milliseconds x Hv Hmod Hpos) as Hms.
  split.
  - unfold Legacy.format_timestamp, Legacy.rfc3339_attempt.
    change (@fromisoformat utc_host (Py.replace "Z" "+00:00" ts))
      with (Iso.fromisoformat (Py.replace "Z" "+00:00" ts)).
    rewrite Hiso, bind_Ok.
    change (@dt_timestamp utc_host x)
      with (Ok (of_ratio (Iso.epoch_microseconds x <? 0)
                         (Z.abs (Iso.epoch_microseconds x)) 1000000)).
    now rewrite bind_Ok, Hms.
  - unfold Converter.iso_milliseconds.
    change (@fromisoformat utc_host
              (Py.replace "Z" "+00:00"
                 (Converter.py_str repr_float (Converter.VStr ts))))
      with (Iso.fromisoformat (Py.replace "Z" "+00:00" ts)).
    rewrite Hiso, bind_Ok.
    change (@dt_timestamp utc_host x)
      with (Ok (of_ratio (Iso.epoch_microseconds x <? 0)
                         (Z.abs (Iso.epoch_microseconds x)) 1000000)).
    now rewrite bind_Ok.
Qed.

Lemma whole_seconds_exact_witness :
  Legacy.format_timestamp "2023-01-01T06:00:00Z" = Ok "1672552800000".
Proof.
  destruct (whole_seconds_exact "2023-01-01T06:00:00Z"
              (Iso.mk 2023 1 1 6 0 0 0 (Some 0)) PyFloat.repr) as [Hl _].
  - vm_compute. reflexivity.
  - vm_compute. reflexivity.
  - vm_compute. discriminate.
  - rewrite Hl. vm_compute. reflexivity.
Defined.

End TimestampFacts.

(** ** What the groups of a match can hold *)

Module ReClassFacts.
Import Re ReClass PyFacts.

Lemma none_nil p : Py.none p "".
Proof. intros c []. Qed.

Lemma none_app p a b : Py.none p (a +:+ b) <-> Py.none p a /\ Py.none p b.
Proof.
  unfold Py.none. rewrite list_ascii_app. split.
  - intros H. split; intros c Hc; apply H, in_or_app; auto.
  - intros [Ha Hb] c Hc. apply in_app_or in Hc as [Hc|Hc]; auto.
Qed.

Lemma none_cons p c s :
  Py.none p (String c s) <-> p c = false /\ Py.none p s.
Proof.
  unfold Py.none. cbn [list_ascii_of_string]. split.
  - intros H. split; [apply H; now left|]. intros x Hx. apply H. now right.
  - intros [Hc Hs] x [<-|Hx]; auto.
Qed.

Lemma length_app (a b : string) :
  String.length (a +:+ b) = (String.length a + String.length b)%nat.
Proof.
  induction a as [|x a IH]; [reflexivity|].
  rewrite append_cons. cbn [String.length]. now rewrite IH.
Qed.

Lemma take_app (a b : string) : Py.take (String.length a) (a +:+ b) = a.
Proof.
  induction a as [|x a IH]; [destruct b; reflexivity|].
  rewrite append_cons. cbn [String.length Py.take]. now rewrite IH.
Qed.

Lemma consumed_app (pre s' : string) : consumed (pre +:+ s') s' = pre.
Proof.
  unfold consumed. rewrite length_app.
  replace (String.length pre + String.length s' - String.length s')%nat
    with (String.length pre) by lia.
  apply take_app.
Qed.

Lemma all_chars_spec c : In c all_chars.
Proof.
  unfold all_chars. rewrite <- (ascii_nat_embedding c).
  apply in_map, in_seq. pose proof (nat_ascii_bounded c). lia.
Qed.

Lemma excludes_spec p q c :
  excludes p q = true -> q c = true -> p c = false.
Proof.
  unfold excludes. rewrite forallb_forall. intros H Hq.
  specialize (H c (all_chars_spec c)). rewrite Hq in H.
  now destruct (p c).
Qed.

Section Class.
Context {R : Type}.
Variables (p : ascii -> bool) (i : nat) (t : ascii -> bool).

Lemma step_refl A B s caps : step p i t A B s caps s caps.
Proof.
  exists "". split; [reflexivity|]. split; [intros _; apply none_nil|].
  split; auto.
Qed.

Lemma step_trans (A B A1 B1 A2 B2 : Prop) s caps s1 caps1 s2 caps2 :
  (A -> A1) -> (A -> A2) -> (B -> B1) -> (B -> B2) ->
  step p i t A1 B1 s caps s1 caps1 ->
  step p i t A2 B2 s1 caps1 s2 caps2 ->
  step p i t A B s caps s2 caps2.
Proof.
  intros HA1 HA2 HB1 HB2 (pre1 & -> & Hp1 & Hg1 & Ht1)
    (pre2 & -> & Hp2 & Hg2 & Ht2).
  exists (pre1 +:+ pre2). split; [now rewrite append_assoc|].
  split; [|split].
  - intros HA. apply none_app. auto.
  - intros HB Hc. auto.
  - intros Hs Hc. apply none_app in Hs as Hs'. destruct Hs' as [_ Hs1].
    auto.
Qed.

Lemma step_weaken (A B A' B' : Prop) s caps s' caps' :
  (A -> A') -> (B -> B') ->
  step p i t A' B' s caps s' caps' -> step p i t A B s caps s' caps'.
Proof.
  intros HA HB (pre & -> & Hp & Hg & Ht).
  exists pre. split; [reflexivity|]. split; [|split]; auto.
Qed.

Lemma star_loop_step (m : string -> gmap nat string -> cont -> option R)
    greedy (k : cont) (A B : Prop) :
  (forall s caps (k' : cont) x,
      m s caps k' = Some x ->
      exists s' caps', k' s' caps' = Some x
                       /\ step p i t A B s caps s' caps') ->
  forall fuel s caps x,
    star_loop m greedy k fuel s caps = Some x ->
    exists s' caps', k s' caps' = Some x
                     /\ step p i t A B s caps s' caps'.
Proof.
  intros Hm. induction fuel as [|fuel IH]; intros s caps x H;
    cbn [star_loop] in H.
  - destruct greedy; [|destruct (k s caps) eqn:Ek];
      try discriminate; exists s, caps; split;
      first [assumption | congruence | apply step_refl].
  - assert (Hagain : forall y,
               m s caps
                 (fun s' caps' =>
                    if (String.length s' <? String.length s)%nat
                    then star_loop m greedy k fuel s' caps' else None)
               = Some y ->
               exists s' caps', k s' caps' = Some y
                                /\ step p i t A B s caps s' caps').
    { intros y Hy. apply Hm in Hy as (s1 & c1 & H1 & M1).
      destruct (String.length s1 <? String.length s)%nat; [|discriminate].
      apply IH in H1 as (s2 & c2 & H2 & M2).
      exists s2, c2. split; [exact H2|].
      eapply (step_trans A B A B A B); eauto. }
    destruct greedy.
    + destruct (m s caps _) as [y|] eqn:Ey.
      * injection H as <-. now apply Hagain.
      * exists s, caps. split; [exact H | apply step_refl].
    + destruct (k s caps) as [y|] eqn:Ek.
      * injection H as <-. exists s, caps.
        split; [exact Ek | apply step_refl].
      * now apply Hagain.
Qed.

(** A successful match reaches its continuation having read only
    what the pattern allows, and with groups that hold only what
    their patterns and the text allow. *)
Lemma rmatch_step (r : regex) :
  forall s caps (k : cont) (x : R),
    rmatch r s caps k = Some x ->
    exists s' caps',
      k s' caps' = Some x
      /\ step p i t (reads_none p r = true)
           (group_reads_none p i r = true) s caps s' caps'.
Proof.
  induction r as [|q|r1 IH1 r2 IH2|r1 IH1 r2 IH2|greedy r IH|j r IH|];
    intros s caps k x H; cbn [rmatch reads_none group_reads_none] in *.
  - exists s, caps. split; [exact H | apply step_refl].
  - destruct s as [|c s]; [discriminate|].
    destruct (q c) eqn:Eq; [|discriminate].
    exists s, caps. split; [exact H|].
    exists (String c ""). split; [reflexivity|]. split; [|split; auto].
    intros Hex. apply none_cons. split; [|apply none_nil].
    exact (excludes_spec _ _ _ Hex Eq).
  - apply IH1 in H as (s1 & c1 & H1 & M1).
    apply IH2 in H1 as (s2 & c2 & H2 & M2).
    exists s2, c2. split; [exact H2|].
    eapply step_trans; [| | | |exact M1|exact M2];
      rewrite andb_true_iff; tauto.
  - destruct (rmatch r1 s caps k) as [y|] eqn:E1.
    + injection H as <-. apply IH1 in E1 as (s1 & c1 & H1 & M1).
      exists s1, c1. split; [exact H1|].
      eapply step_weaken; [| |exact M1]; rewrite andb_true_iff; tauto.
    + apply IH2 in H as (s1 & c1 & H1 & M1).
      exists s1, c1. split; [exact H1|].
      eapply step_weaken; [| |exact M1]; rewrite andb_true_iff; tauto.
  - apply (star_loop_step _ _ _ (reads_none p r = true)
             (group_reads_none p i r = true)) in H; [exact H|].
    exact IH.
  - apply IH in H as (s1 & c1 & H1 & (pre & -> & Hp & Hg & Ht)).
    exists s1, (<[j := consumed (pre +:+ s1) s1]> c1).
    split; [exact H1|]. rewrite consumed_app.
    exists pre. split; [reflexivity|]. split; [exact Hp|]. split.
    + rewrite andb_true_iff. intros [Hj Hr] Hc g.
      destruct (Nat.eqb_spec j i) as [->|Hne].
      * rewrite lookup_insert_eq. intros [= <-]. auto.
      * rewrite lookup_insert_ne by assumption. now apply Hg.
    + intros Hs Hc j' g. destruct (decide (j = j')) as [->|Hne].
      * rewrite lookup_insert_eq. intros [= <-].
        now apply none_app in Hs as [Hs _].
      * rewrite lookup_insert_ne by assumption. now apply Ht.
  - destruct (at_end s); [|discriminate].
    exists s, caps. split; [exact H | apply step_refl].
Qed.
End Class.

Lemma search_rest_step p i t r s m rest :
  search_rest r s = Some (m, rest) ->
  (group_reads_none p i r = true -> group_ok p i m)
  /\ (Py.none t s -> text_ok t m).
Proof.
  assert (Hhere : forall s0,
             rmatch r s0 ∅ (fun s' caps => Some (caps, s')) = Some (m, rest) ->
             (group_reads_none p i r = true -> group_ok p i m)
             /\ (Py.none t s0 -> text_ok t m)).
  { intros s0 E.
    apply (rmatch_step p i t) in E
      as (s1 & c1 & [= -> ->] & (pre & _ & _ & Hg & Ht)).
    split.
    - intros Hr. apply Hg; [exact Hr|]. intros g Hg'.
      now rewrite lookup_empty in Hg'.
    - intros Hs. apply Ht; [exact Hs|]. intros j g Hg'.
      now rewrite lookup_empty in Hg'. }
  induction s as [|c s IH]; cbn [search_rest]; intros H.
  - destruct (rmatch r "" ∅ _) as [y|] eqn:E; [|discriminate].
    injection H as ->. now apply Hhere.
  - destruct (rmatch r (String c s) ∅ _) as [y|] eqn:E.
    + injection H as ->. now apply Hhere.
    + destruct (IH H) as [Hg Ht]. split; [exact Hg|].
      intros Hs. apply Ht. now apply none_cons in Hs as [_ Hs].
Qed.

(** A group whose pattern excludes the characters of [p] holds none of
    them. *)
Lemma search_group_class p i r s m g :
  search r s = Some m -> group_reads_none p i r = true ->
  group m i = Some g -> Py.none p g.
Proof.
  unfold search, group. intros H Hr Hg.
  destruct (search_rest r s) as [[m' rest]|] eqn:E; [|discriminate].
  injection H as <-.
  destruct (search_rest_step p i (fun _ => false) _ _ _ _ E) as [Hg' _].
  now apply Hg'.
Qed.

(** A group holds no character that the text lacks. *)
Lemma search_group_text t r s m j g :
  search r s = Some m -> Py.none t s ->
  group m j = Some g -> Py.none t g.
Proof.
  unfold search, group. intros H Hs Hg.
  destruct (search_rest r s) as [[m' rest]|] eqn:E; [|discriminate].
  injection H as <-.
  destruct (search_rest_step (fun _ => false) O t _ _ _ _ E) as [_ Ht].
  exact (Ht Hs _ _ Hg).
Qed.

End ReClassFacts.

(** ** The dead branches of the InfluxQL converter *)

Module InfluxqlFacts.
Import Promql PromqlPlain ReClass ReFacts ReClassFacts PyFacts Samples.

Ltac mandatory H i g Hg :=
  destruct (search_group _ _ _ i H) as [g Hg];
  [apply list_elem_of_In; vm_compute; auto 10 | rewrite ?Hg].

Lemma prefixb_chars sub s c :
  Py.prefixb sub s = true ->
  In c (list_ascii_of_string sub) -> In c (list_ascii_of_string s).
Proof.
  revert s. induction sub as [|a sub IH]; intros [|b s] H Hc;
    cbn [Py.prefixb list_ascii_of_string] in *;
    try contradiction; try discriminate.
  apply andb_true_iff in H as [Hab Hs]. apply Ascii.eqb_eq in Hab as ->.
  destruct Hc as [<-|Hc]; [now left | right; now apply IH].
Qed.

Lemma contains_chars sub s c :
  Py.contains sub s = true ->
  In c (list_ascii_of_string sub) -> In c (list_ascii_of_string s).
Proof.
  induction s as [|b s IH]; cbn [Py.contains]; intros H Hc.
  - rewrite orb_false_r in H. now apply (prefixb_chars sub).
  - apply orb_true_iff in H as [H|H]; [now apply (prefixb_chars sub)|].
    right. now apply IH.
Qed.

Lemma none_lstrip p f s : Py.none p s -> Py.none p (Py.lstrip_by f s).
Proof.
  induction s as [|c s IH]; intros H; cbn [Py.lstrip_by]; [exact H|].
  destruct (f c); [|exact H]. apply IH. now apply none_cons in H as [_ H].
Qed.

Lemma none_rev p s : Py.none p s -> Py.none p (String.rev s).
Proof.
  intros H c Hc. rewrite rev_list in Hc. apply H. now apply in_rev.
Qed.

Lemma none_strip p f s : Py.none p s -> Py.none p (Py.strip_by f s).
Proof.
  intros H. unfold Py.strip_by.
  now apply none_rev, none_lstrip, none_rev, none_lstrip.
Qed.

Lemma lower_chars s c :
  In c (list_ascii_of_string (Py.lower s)) ->
  exists c0, In c0 (list_ascii_of_string s) /\ c = Py.lower_char c0.
Proof.
  unfold Py.lower.
  induction s as [|a s IH]; cbn [Py.map_chars list_ascii_of_string];
    [contradiction|].
  intros [<-|Hc].
  - exists a. split; [now left | reflexivity].
  - destruct (IH Hc) as (c0 & Hc0 & ->). exists c0. split; [now right|].
    reflexivity.
Qed.

(** Every key of [func_map] holds a letter of FROM. *)
Lemma func_map_unreachable f1 :
  Py.none from_letter f1 -> assoc (Py.lower f1) func_map = None.
Proof.
  intros H.
  assert (Hno : forall c, In c (list_ascii_of_string (Py.lower f1)) ->
                          Py.one_of "from" c = false).
  { intros c Hc. apply lower_chars in Hc as (c0 & Hc0 & ->).
    exact (H c0 Hc0). }
  unfold func_map. cbn [assoc].
  repeat match goal with
         | |- context [String.eqb ?k (Py.lower f1)] =>
             destruct (String.eqb_spec k (Py.lower f1)) as [E|_];
             [exfalso; rewrite <- E in Hno;
              first [ specialize (Hno "m"%char ltac:(cbn; auto 10))
                    | specialize (Hno "o"%char ltac:(cbn; auto 10)) ];
              vm_compute in Hno; discriminate|]
         end.
  reflexivity.
Qed.

(** A text without a closing parenthesis does not contain [now()]. *)
Lemma time_value_without_now tv :
  Py.none space_or_paren tv -> Py.contains "now()" tv = false.
Proof.
  intros H. destruct (Py.contains "now()" tv) eqn:E; [|reflexivity].
  assert (Hin : In ")"%char (list_ascii_of_string tv)).
  { apply (contains_chars "now()"); [exact E|]. cbn. auto 10. }
  apply H in Hin. discriminate.
Qed.

(** X15. The two lookups of the InfluxQL converter always fail.  The
    select clause is captured by a class that excludes the letters F, R,
    O and M in either case, so that no function name found in it is a
    key of [func_map]; the time value is captured by a class that
    excludes the closing parenthesis, so that it never contains
    [now()]. *)
Theorem influxql_lookups_always_fail :
  (forall influxql_query sm g1 fm f1,
      Re.search select_pattern influxql_query = Some sm ->
      Re.group sm 1 = Some g1 ->
      Re.search function_pattern (Py.strip g1) = Some fm ->
      Re.group fm 1 = Some f1 ->
      assoc (Py.lower f1) func_map = None)
  /\ (forall where_clause tm time_value,
        Re.search time_pattern where_clause = Some tm ->
        Re.group tm 2 = Some time_value ->
        Py.contains "now()" time_value = false).
Proof.
  split.
  - intros q sm g1 fm f1 Es Hg1 Ef Hf1.
    apply func_map_unreachable.
    apply (search_group_text from_letter _ _ _ 1%nat _ Ef); [|exact Hf1].
    apply none_strip.
    apply (search_group_class from_letter 1 _ _ _ _ Es);
      [vm_compute; reflexivity | exact Hg1].
  - intros wc tm tv Et Htv. apply time_value_without_now.
    apply (search_group_class space_or_paren 2 _ _ _ _ Et);
      [vm_compute; reflexivity | exact Htv].
Qed.

Lemma influxql_lookups_always_fail_witness :
  assoc (Py.lower "ABS") func_map = None
  /\ Py.contains "now()" "now(" = false.
Proof.
  split.
  - eapply (proj1 influxql_lookups_always_fail
              "SELECT ABS(x) FROM cpu WHERE time > now() - 1h");
      vm_compute; reflexivity.
  - eapply (proj2 influxql_lookups_always_fail "time > now() - 1h");
      vm_compute; reflexivity.
Defined.

(** X16. The InfluxQL converter never emits an aggregation function nor
    a time range: it is the converter without the lookup in [func_map]
    and without the computation of the time range. *)
Theorem influxql_function_and_range_are_dead (influxql_query : string) :
  convert_influxql_to_promql influxql_query
  = convert_influxql_to_promql_plain influxql_query.
Proof.
  unfold convert_influxql_to_promql, convert_influxql_to_promql_plain.
  cbv zeta.
  destruct (Re.search select_pattern influxql_query) as [sm|] eqn:Es;
    [|reflexivity].
  mandatory Es 1%nat g1 Hg1. mandatory Es 2%nat g2 Hg2.
  cbn [receiver py_bind].
  assert (Hg1' : Py.none from_letter (Py.strip g1)).
  { apply none_strip.
    apply (search_group_class from_letter 1 _ _ _ _ Es);
      [vm_compute; reflexivity | exact Hg1]. }
  assert (Hname :
            match Re.search function_pattern (Py.strip g1) with
            | Some fm =>
                let* f1 := receiver (Re.group fm 1) in
                let* f2 := receiver (Re.group fm 2) in
                Ok (Py.strip g2 +:+ "_"
                      +:+ Py.strip_chars (dquote +:+ "'") f2,
                    match assoc (Py.lower f1) func_map with
                    | Some f => f
                    | None => ""
                    end)
            | None =>
                Ok (Py.strip g2 +:+ "_"
                      +:+ Py.strip_chars (dquote +:+ "'") (Py.strip g1), "")
            end
            = let* metric_name :=
                match Re.search function_pattern (Py.strip g1) with
                | Some fm =>
                    let* f2 := receiver (Re.group fm 2) in
                    Ok (Py.strip g2 +:+ "_"
                          +:+ Py.strip_chars (dquote +:+ "'") f2)
                | None =>
                    Ok (Py.strip g2 +:+ "_"
                          +:+ Py.strip_chars (dquote +:+ "'") (Py.strip g1))
                end in
              Ok (metric_name, "")).
  { destruct (Re.search function_pattern (Py.strip g1)) as [fm|] eqn:Ef;
      [|reflexivity].
    mandatory Ef 1%nat f1 Hf1. mandatory Ef 2%nat f2 Hf2.
    cbn [receiver py_bind]. rewrite func_map_unreachable; [reflexivity|].
    exact (search_group_text from_letter _ _ _ _ _ Ef Hg1' Hf1). }
  rewrite Hname. clear Hname.
  destruct (match Re.search function_pattern (Py.strip g1) with
            | Some fm => _
            | None => _
            end) as [metric_name|e]; cbn [py_bind]; [|reflexivity].
  destruct (Re.search where_pattern influxql_query) as [wm|] eqn:Ew;
    [|reflexivity].
  mandatory Ew 1%nat w1 Hw1. cbn [receiver py_bind].
  destruct (Re.search time_pattern (Py.strip w1)) as [tm|] eqn:Et;
    [|reflexivity].
  mandatory Et 2%nat tv Htv. cbn [container py_bind].
  rewrite time_value_without_now; [reflexivity|].
  apply (search_group_class space_or_paren 2 _ _ _ _ Et);
    [vm_compute; reflexivity | exact Htv].
Qed.

(** The function of a select clause is lost, and so is the time range:
    only the field and the tag filter are left. *)
Example mean_is_not_mapped :
  convert_influxql_to_promql
    ("SELECT abs(" +:+ dquote +:+ "usage" +:+ dquote
       +:+ ") FROM cpu WHERE time > now() - 1h AND host = 'a'")
  = Ok ("cpu_usage{host=" +:+ dquote +:+ "a" +:+ dquote +:+ "}")
  /\ convert_influxql_to_promql "SELECT mean(usage) FROM cpu"
     = Ok "Error: Could not parse InfluxQL SELECT statement".
Proof. vm_compute. split; reflexivity. Qed.

End InfluxqlFacts.

(** ** Detection and the Flux time range *)

Module DetectFacts.
Import Promql ReClass ReClassFacts PyFacts.

Lemma for_all_chars (f : ascii -> bool) :
  forallb f all_chars = true -> forall c, f c = true.
Proof.
  rewrite forallb_forall. intros H c. apply H, all_chars_spec.
Qed.

Lemma map_chars_list f s :
  list_ascii_of_string (Py.map_chars f s)
  = List.map f (list_ascii_of_string s).
Proof.
  induction s as [|c s IH]; cbn [Py.map_chars list_ascii_of_string List.map];
    [reflexivity | now rewrite IH].
Qed.

Lemma map_chars_rev f s :
  String.rev (Py.map_chars f s) = Py.map_chars f (String.rev s).
Proof.
  apply list_ascii_inj.
  now rewrite rev_list, !map_chars_list, rev_list, map_rev.
Qed.

Lemma map_chars_lstrip p f s :
  (forall c, p (f c) = p c) ->
  Py.lstrip_by p (Py.map_chars f s) = Py.map_chars f (Py.lstrip_by p s).
Proof.
  intros Hp. induction s as [|c s IH]; cbn [Py.map_chars Py.lstrip_by];
    [reflexivity|].
  rewrite Hp. destruct (p c); [exact IH | reflexivity].
Qed.

Lemma map_chars_strip p f s :
  (forall c, p (f c) = p c) ->
  Py.strip_by p (Py.map_chars f s) = Py.map_chars f (Py.strip_by p s).
Proof.
  intros Hp. unfold Py.strip_by.
  now rewrite map_chars_lstrip, map_chars_rev, map_chars_lstrip,
    map_chars_rev.
Qed.

Lemma map_chars_compose f g h s :
  (forall c, f (g c) = h c) ->
  Py.map_chars f (Py.map_chars g s) = Py.map_chars h s.
Proof.
  intros E. induction s as [|c s IH]; cbn [Py.map_chars];
    [reflexivity | now rewrite E, IH].
Qed.

Lemma map_chars_prefixb sub f s :
  (forall x c, In x (list_ascii_of_string sub) ->
               Ascii.eqb x (f c) = Ascii.eqb x c) ->
  Py.prefixb sub (Py.map_chars f s) = Py.prefixb sub s.
Proof.
  revert s. induction sub as [|a sub IH]; intros [|c s] H;
    cbn [Py.prefixb Py.map_chars]; try reflexivity.
  rewrite H by (now left). rewrite IH; [reflexivity|].
  intros x c' Hx. apply H. now right.
Qed.

Lemma map_chars_contains sub f s :
  (forall x c, In x (list_ascii_of_string sub) ->
               Ascii.eqb x (f c) = Ascii.eqb x c) ->
  Py.contains sub (Py.map_chars f s) = Py.contains sub s.
Proof.
  intros H. induction s as [|c s IH].
  - reflexivity.
  - change (Py.contains sub (Py.map_chars f (String c s)))
      with (Py.prefixb sub (Py.map_chars f (String c s))
            || Py.contains sub (Py.map_chars f s)).
    rewrite IH, map_chars_prefixb by assumption. reflexivity.
Qed.

Lemma detect_query_type_map f query :
  (forall c, Py.is_space (f c) = Py.is_space c) ->
  (forall c, Py.lower_char (f c) = Py.lower_char c) ->
  (forall c, Py.upper_char (f c) = Py.upper_char c) ->
  (forall x c, In x (list_ascii_of_string "|>") ->
               Ascii.eqb x (f c) = Ascii.eqb x c) ->
  detect_query_type (Py.map_chars f query) = detect_query_type query.
Proof.
  intros Hs Hl Hu Hc. unfold detect_query_type, Py.strip, Py.lower, Py.upper.
  rewrite map_chars_strip by assumption.
  rewrite (map_chars_compose _ _ Py.lower_char) by assumption.
  rewrite (map_chars_compose _ _ Py.upper_char) by assumption.
  now rewrite map_chars_contains by assumption.
Qed.

Lemma bool_fun_eq (g h : ascii -> bool) :
  forallb (fun c => Bool.eqb (g c) (h c)) all_chars = true ->
  forall c, g c = h c.
Proof.
  intros H c. apply eqb_prop. revert c. now apply for_all_chars.
Qed.

Lemma char_fun_eq (g h : ascii -> ascii) :
  forallb (fun c => Ascii.eqb (g c) (h c)) all_chars = true ->
  forall c, g c = h c.
Proof.
  intros H c. apply Ascii.eqb_eq. revert c. now apply for_all_chars.
Qed.

(** X17. The detected query type does not depend on the case of the
    letters of the query. *)
Theorem detect_query_type_ignores_case (query : string) :
  detect_query_type (Py.upper query) = detect_query_type query
  /\ detect_query_type (Py.lower query) = detect_query_type query.
Proof.
  split; apply detect_query_type_map;
    try (apply bool_fun_eq; vm_compute; reflexivity);
    try (apply char_fun_eq; vm_compute; reflexivity);
    intros x c [<-|[<-|[]]]; revert c; apply bool_fun_eq;
    vm_compute; reflexivity.
Qed.

(** *** The start of a Flux range *)

Lemma subst_chars_same c s :
  Py.subst_chars (fun x => if Ascii.eqb c x then String c "" else String x "")
                 s = s.
Proof.
  induction s as [|x s IH]; cbn [Py.subst_chars]; [reflexivity|].
  rewrite IH. destruct (Ascii.eqb_spec c x) as [->|_]; reflexivity.
Qed.

Lemma flux_units_unchanged (start : string) :
  Py.replace "s" "s"
    (Py.replace "m" "m" (Py.replace "d" "d" (Py.replace "h" "h" start)))
  = start.
Proof.
  now rewrite !replace_single, !subst_chars_same.
Qed.

(** X18. When the range of a Flux query has a start that begins with a
    minus sign, the result of the Flux converter holds that start
    between brackets exactly as it is written, minus sign included: the
    unit conversion, four replacements of a letter by itself, changes
    nothing.  The other parts of the result are the metric name, the
    filters and the aggregation found in the query. *)
Theorem flux_range_start_verbatim (flux_query : string)
    (m : gmap nat string) (start : string) :
  Re.search range_pattern flux_query = Some m ->
  Re.group m 1 = Some start ->
  Py.startswith start "-" = true ->
  convert_flux_to_promql flux_query
  = Ok (compose (Flux.metric_name flux_query) (Flux.filters flux_query)
                ("[" +:+ start +:+ "]") (Flux.aggregation flux_query)).
Proof.
  intros Hr Hg Hs. unfold convert_flux_to_promql. cbv zeta.
  rewrite Hr, Hg. cbn [receiver py_bind]. rewrite Hs.
  cbn [py_bind]. rewrite flux_units_unchanged. reflexivity.
Qed.

Lemma flux_range_start_verbatim_witness :
  convert_flux_to_promql MoreSamples.mean_flux_query
  = Ok ("avg(cpu_usage{host=" +:+ dquote +:+ "a" +:+ dquote +:+ "}[-1h])").
Proof.
  rewrite (flux_range_start_verbatim MoreSamples.mean_flux_query
             (<[1%nat := "-1h"]> ∅) "-1h").
  - vm_compute. reflexivity.
  - vm_compute. reflexivity.
  - vm_compute. reflexivity.
  - reflexivity.
Defined.

End DetectFacts.

(** ** The end of the formatted text *)

Module FormatFacts.
Import Converter ConverterFacts ConvertDataFacts Samples.

Section Text.
Variable repr_float : spec_float -> string.

Lemma group_block_blank_last g :
  g <> [] ->
  exists l, l <> [] /\ group_block repr_float g = l ++ [""].
Proof.
  destruct g as [|m g]; [congruence|]. intros _. cbn [group_block].
  eexists. split; [|rewrite !app_assoc; reflexivity].
  destruct (help_text m); discriminate.
Qed.

(** X19. The text of a non-empty list of samples ends with a newline,
    whatever the number of groups; the text of an empty list is
    empty. *)
Theorem format_metrics_ends_with_newline
    (metrics : list PrometheusMetric) :
  format_metrics repr_float [] = Ok ""
  /\ (metrics <> [] ->
      exists text,
        format_metrics repr_float metrics = Ok (text +:+ newline)).
Proof.
  split; [reflexivity|]. intros Hne.
  rewrite format_metrics_lines.
  destruct metrics as [|m ms]; [congruence|].
  assert (Hlines : exists l,
             l <> []
             /\ grouped_lines repr_float (m :: ms) = l ++ [""]).
  { unfold grouped_lines.
    assert (Hall : forall k, k ∈ first_seen (map key (m :: ms)) ->
                             members k (m :: ms) <> []).
    { intros k Hk. apply members_nonempty. now apply elem_of_first_seen. }
    assert (Hks : first_seen (map key (m :: ms)) <> [])
      by (cbn [map first_seen]; discriminate).
    revert Hall Hks.
    generalize (first_seen (map key (m :: ms))) as ks.
    induction ks as [|k ks _] using rev_ind; [congruence|].
    intros Hall _. rewrite map_app, concat_app. cbn [map concat].
    rewrite app_nil_r.
    destruct (group_block_blank_last (members k (m :: ms)))
      as (l & Hl & ->).
    { apply Hall. apply elem_of_app. right. left. }
    exists (concat (map (fun k0 => group_block repr_float
                                     (members k0 (m :: ms))) ks) ++ l).
    split; [|now rewrite app_assoc].
    destruct l; [congruence|]. now destruct (concat _). }
  destruct Hlines as (l & Hl & ->).
  exists (Py.join newline l). now rewrite join_blank_last.
Qed.
End Text.

Lemma format_metrics_ends_with_newline_witness :
  exists text,
    format_metrics PyFloat.repr [up_with_help] = Ok (text +:+ newline).
Proof.
  apply (format_metrics_ends_with_newline PyFloat.repr [up_with_help]).
  discriminate.
Defined.

End FormatFacts.

(** ** Integers beyond the range of a float *)

Module OverflowFacts.
Import PyFloat PyFloatFacts Converter MoreSamples.

Lemma shr_1_m mrs : 0 <= shr_m mrs -> shr_m (shr_1 mrs) = shr_m mrs / 2.
Proof.
  destruct mrs as [m r s]. cbn [shr_m]. intros Hm.
  rewrite <- Z.div2_div. destruct m as [|[p|p|]|p]; try lia; reflexivity.
Qed.

Lemma shr_iter_m (k : nat) mrs :
  0 <= shr_m mrs ->
  shr_m (Nat.iter k shr_1 mrs) = shr_m mrs / 2 ^ Z.of_nat k.
Proof.
  intros Hm. induction k as [|k IH].
  - cbn [Nat.iter]. change (Z.of_nat 0) with 0.
    now rewrite Z.pow_0_r, Z.div_1_r.
  - change (Nat.iter (S k) shr_1 mrs) with (shr_1 (Nat.iter k shr_1 mrs)).
    rewrite shr_1_m, IH.
    + rewrite Nat2Z.inj_succ, Z.pow_succ_r by lia.
      rewrite Z.div_div by (try lia; try (apply Z.pow_pos_nonneg; lia);
                            try (apply Z.pow_nonzero; lia)).
      f_equal. ring.
    + rewrite IH. apply Z.div_pos; [lia | apply Z.pow_pos_nonneg; lia].
Qed.

Lemma shr_fexp_m m e l :
  0 < m ->
  let k := Z.max 0 (fexp prec emax (Z.log2 m + 1 + e) - e) in
  exists mrs,
    shr_fexp prec emax m e l = (mrs, e + k) /\ shr_m mrs = m / 2 ^ k.
Proof.
  intros Hm k. unfold shr_fexp, shr. rewrite Zdigits2_log2 by assumption.
  assert (Hrec : shr_m (shr_record_of_loc m l) = m)
    by (destruct l as [|[]]; reflexivity).
  subst k. destruct (fexp prec emax (Z.log2 m + 1 + e) - e) as [|q|q].
  - eexists. split; [now rewrite Z.add_0_r|].
    now rewrite Hrec, Z.pow_0_r, Z.div_1_r.
  - eexists. split; [reflexivity|].
    rewrite iter_pos_nat, shr_iter_m, Hrec, positive_nat_Z by lia.
    reflexivity.
  - eexists. split; [now rewrite Z.add_0_r|].
    now rewrite Hrec, Z.pow_0_r, Z.div_1_r.
Qed.

Lemma round_nearest_even_bounds m l :
  m <= round_nearest_even m l <= m + 1.
Proof.
  unfold round_nearest_even. destruct l as [|[]]; try lia.
  destruct (Z.even m); lia.
Qed.

Lemma round_overflow sx p :
  2 ^ emax <= Z.pos p -> binary_round prec emax sx p 0 = S754_infinity sx.
Proof.
  intros Hp.
  assert (Hd : emax <= Z.log2 (Z.pos p)).
  { apply Z.log2_le_pow2; [lia | exact Hp]. }
  destruct (Z.log2_spec (Z.pos p) ltac:(lia)) as [Hlo Hhi].
  unfold binary_round, shl_align.
  change (Z.pos (digits2_pos p)) with (Zdigits2 (Z.pos p)).
  rewrite Zdigits2_log2 by lia.
  set (d := Z.log2 (Z.pos p) + 1) in *.
  unfold fexp.
  replace (Z.max (d + 0 - prec) (emin prec emax)) with (d - prec)
    by (unfold emin, prec, emax in *; lia).
  destruct (d - prec - 0) as [|q|q] eqn:Eq;
    try (unfold prec, emax in *; lia).
  unfold binary_round_aux.
  destruct (shr_fexp_m (Z.pos p) 0 loc_Exact ltac:(lia)) as (mrs1 & E1 & Hm1).
  fold d in Hm1, E1.
  replace (Z.max 0 (fexp prec emax (d + 0) - 0)) with (d - prec) in Hm1, E1
    by (unfold fexp, emin, prec, emax in *; lia).
  rewrite E1. clear E1.
  assert (Hb1 : 2 ^ (prec - 1) <= shr_m mrs1 < 2 ^ prec).
  { rewrite Hm1. split.
    - apply Z.div_le_lower_bound; [apply Z.pow_pos_nonneg; unfold prec, emax in *; lia|].
      rewrite <- Z.pow_add_r by (unfold prec, emax in *; lia).
      replace (d - prec + (prec - 1)) with (Z.log2 (Z.pos p)) by (unfold d; lia).
      exact Hlo.
    - apply Z.div_lt_upper_bound; [apply Z.pow_pos_nonneg; unfold prec, emax in *; lia|].
      rewrite <- Z.pow_add_r by (unfold prec, emax in *; lia).
      replace (d - prec + prec) with (Z.succ (Z.log2 (Z.pos p))) by (unfold d; lia).
      exact Hhi. }
  pose proof (round_nearest_even_bounds (shr_m mrs1) (loc_of_shr_record mrs1)) as Hr.
  set (m2 := round_nearest_even (shr_m mrs1) (loc_of_shr_record mrs1)) in *.
  assert (Hm2 : 0 < m2).
  { assert (0 < 2 ^ (prec - 1)) by (apply Z.pow_pos_nonneg; unfold prec; lia). lia. }
  assert (Hl2 : prec - 1 <= Z.log2 m2 <= prec).
  { split.
    - apply Z.log2_le_pow2; [lia|]. lia.
    - assert (Z.log2 m2 < prec + 1); [|lia].
      apply Z.log2_lt_pow2; [lia|].
      rewrite Z.pow_add_r by (unfold prec; lia). change (2 ^ 1) with 2.
      assert (0 < 2 ^ prec) by (apply Z.pow_pos_nonneg; unfold prec; lia). lia. }
  destruct (shr_fexp_m m2 (0 + (d - prec)) loc_Exact Hm2) as (mrs2 & -> & Hm2').
  set (k2 := Z.max 0 (fexp prec emax (Z.log2 m2 + 1 + (0 + (d - prec))) - (0 + (d - prec)))) in *.
  assert (Hk2 : 0 <= k2 <= 1) by (unfold k2, fexp, emin, prec, emax in *; lia).
  assert (Hpos : 0 < shr_m mrs2).
  { rewrite Hm2'. apply Z.div_str_pos. split; [apply Z.pow_pos_nonneg; lia|].
    assert (2 ^ k2 <= 2 ^ 1) by (apply Z.pow_le_mono_r; lia).
    assert (2 ^ 1 <= 2 ^ (prec - 1)) by (apply Z.pow_le_mono_r; unfold prec; lia).
    lia. }
  destruct (shr_m mrs2) as [|m|m]; try lia.
  destruct (Z.leb_spec (0 + (d - prec) + k2) (emax - prec)) as [Hle|_];
    [unfold prec, emax in *; lia | reflexivity].
Qed.

Lemma of_Z_overflow n :
  2 ^ emax <= Z.abs n -> exists s, of_Z n = S754_infinity s.
Proof.
  intros Hn. unfold of_Z, binary_normalize.
  assert (0 < 2 ^ emax) by (apply Z.pow_pos_nonneg; unfold emax; lia).
  destruct n as [|p|p]; [cbn [Z.abs] in Hn; lia | |].
  - exists false. now apply round_overflow.
  - exists true. now apply round_overflow.
Qed.

(** X20. An integer value of absolute size at least [2^1024] makes the
    value check raise [OverflowError]: [float] cannot hold it, and the
    handler of [convert_data], which catches [ValueError] and
    [TypeError], lets this error through. *)
Theorem huge_integer_value_overflows (value_column : string)
    (record : gmap string pyval) (n : Z) :
  record !! value_column = Some (VInt n) ->
  2 ^ 1024 <= Z.abs n ->
  convert_value value_column record = Raise OverflowError.
Proof.
  intros Hr Hn. unfold convert_value. rewrite Hr. cbn [py_float].
  destruct (of_Z_overflow n Hn) as [s ->]. reflexivity.
Qed.

Lemma huge_integer_value_overflows_witness :
  convert_value "v" huge_record = Raise OverflowError.
Proof.
  apply (huge_integer_value_overflows "v" huge_record (- 2 ^ 1024)).
  - vm_compute. reflexivity.
  - vm_compute. discriminate.
Defined.

End OverflowFacts.
